(** * smart-tier: the tier-decision engine

    A shallow embedding of the TypeScript sources of the tier dispatcher
    (rule engine, cost tracker, conversation memory, tool handlers) and the
    properties of its specification.

    Conventions of the embedding.
    - JavaScript strings are [string]s of one-byte characters; [toLowerCase]
      folds the ASCII letters only.
    - Counters, priorities, token counts and millisecond timestamps are
      integers ([Z]) or naturals.
    - Amounts of money and percentages are exact rationals ([Qc]) in
      [CostTracker], over which the status, the alerts and the budget gate
      are stated: there a spend is compared with thresholds.  The sums that
      [record] and [getTotalSpend] accumulate are followed in IEEE binary64
      ([PrimFloat]) in [CostTracker64]; every property that speaks of a sum
      of costs is stated there.
    - Objects used as string-keyed dictionaries are [gmap string _] where
      only lookups of own keys matter.  Where the order of the keys or the
      members inherited from [Object.prototype] matter (the tier counts of
      the recommendation, the ledger in binary64) they are lists of own keys
      in insertion order, read with [JS.dictGet], [JS.objectEntries] and
      [JS.inheritedMember].  Arrays are lists.
    - Mutation is explicit state passing: every method takes the object's
      state and returns the new one.
    - Clock readings ([new Date()]) and fresh identifiers ([randomUUID()]) are
      inputs of the operation that reads them. *)

From Stdlib Require Import ZArith QArith Qcanon Qround String Ascii List Lia Lqa
  Permutation Sorted DecimalString DecimalZ DecimalPos PrimFloat.
From stdpp Require Import base option gmap strings numbers.
From stdpp Require Import list.

(** A decimal literal denotes the nearest binary64 value, as it does in
    JavaScript. *)
Set Warnings "-inexact-float".

Local Open Scope string_scope.
Local Open Scope list_scope.
Local Open Scope Z_scope.

(** ** JavaScript primitives used by the sources *)

Module JS.

Definition lowerAscii (c : ascii) : ascii :=
  let n := nat_of_ascii c in
  if ((65 <=? n) && (n <=? 90))%nat then ascii_of_nat (n + 32) else c.

(** [String.prototype.toLowerCase] on ASCII text. *)
Fixpoint toLowerCase (s : string) : string :=
  match s with
  | EmptyString => EmptyString
  | String c s' => String (lowerAscii c) (toLowerCase s')
  end.

Fixpoint startsWith (s pat : string) : bool :=
  match pat, s with
  | EmptyString, _ => true
  | String _ _, EmptyString => false
  | String p pat', String c s' => if Ascii.eqb p c then startsWith s' pat' else false
  end.

(** [s.includes(pat)]: [pat] occurs in [s] as a contiguous substring. *)
Fixpoint includes (s pat : string) : bool :=
  startsWith s pat ||
  match s with
  | EmptyString => false
  | String _ s' => includes s' pat
  end.

(** Truthiness of a string value: every string but the empty one. *)
Definition truthy (s : string) : bool :=
  match s with EmptyString => false | String _ _ => true end.

(** Number-to-string conversion of an integer inside a template literal. *)
Definition showZ (z : Z) : string := NilZero.string_of_int (Z.to_int z).

Definition dquote : string := String (ascii_of_nat 34) EmptyString.

Section Sort.
Context {A : Type}.
(** [after a b] is [cmp(a, b) > 0]: the comparator asks for [a] to be
    placed after [b]. *)
Variable after : A -> A -> bool.

Fixpoint insertSorted (x : A) (l : list A) : list A :=
  match l with
  | [] => [x]
  | y :: l' => if after x y then y :: insertSorted x l' else x :: y :: l'
  end.

(** [Array.prototype.sort(cmp)]: the stable sort.  Each element is inserted
    in front of the elements that followed it in the array, after those
    the comparator strictly places before it. *)
Definition sort (l : list A) : list A := foldr insertSorted [] l.
End Sort.

(** [s.trim().length === 0]: only white space (the ASCII white-space
    characters of [trim]). *)
Definition isSpace (c : ascii) : bool :=
  let n := nat_of_ascii c in
  ((n =? 32) || ((9 <=? n) && (n <=? 13)))%nat.

Fixpoint isBlank (s : string) : bool :=
  match s with
  | EmptyString => true
  | String c s' => isSpace c && isBlank s'
  end.

(** *** Objects as dictionaries with an enumeration order

    An object literal filled by assignments [o[k] = v] keeps its own keys in
    insertion order, but enumerates them ([Object.entries]) with the
    array-index keys (canonical decimal numerals below 2^32 - 1) first, in
    ascending numeric order, and the other keys after them in insertion
    order. *)

Definition digitVal (c : ascii) : option N :=
  let n := nat_of_ascii c in
  if ((48 <=? n) && (n <=? 57))%nat then Some (N.of_nat (n - 48)) else None.

Fixpoint parseDigits (acc : N) (s : string) : option N :=
  match s with
  | EmptyString => Some acc
  | String c s' =>
      match digitVal c with
      | Some d => parseDigits (acc * 10 + d)%N s'
      | None => None
      end
  end.

Definition arrayIndex (k : string) : option N :=
  match k with
  | EmptyString => None
  | String c rest =>
      if Ascii.eqb c (ascii_of_nat 48) && negb (String.eqb rest EmptyString)
      then None
      else match parseDigits 0%N k with
           | Some n => if (n <? 4294967295)%N then Some n else None
           | None => None
           end
  end.

Definition isArrayIndex (k : string) : bool :=
  match arrayIndex k with Some _ => true | None => false end.

Section Dict.
Context {V : Type}.

Fixpoint dictGet (o : list (string * V)) (k : string) : option V :=
  match o with
  | [] => None
  | (k', v) :: o' => if String.eqb k' k then Some v else dictGet o' k
  end.

(** [o[k] = v]: an existing key keeps its place, a new key goes last. *)
Fixpoint dictSet (o : list (string * V)) (k : string) (v : V) : list (string * V) :=
  match o with
  | [] => [(k, v)]
  | (k', v') :: o' =>
      if String.eqb k' k then (k', v) :: o' else (k', v') :: dictSet o' k v
  end.

Definition indexAfter (a b : string * V) : bool :=
  match arrayIndex (fst a), arrayIndex (fst b) with
  | Some x, Some y => (y <? x)%N
  | _, _ => false
  end.

Definition objectEntries (o : list (string * V)) : list (string * V) :=
  sort indexAfter (List.filter (fun kv => isArrayIndex (fst kv)) o)
  ++ List.filter (fun kv => negb (isArrayIndex (fst kv))) o.
End Dict.

(** *** Inherited members

    An object literal inherits the members of [Object.prototype].  A read
    [o[k]] of a key that [o] does not own finds them: eleven functions and,
    under "__proto__", the prototype itself, all of them truthy. *)

Definition objectPrototypeKeys : list string :=
  [ "constructor"; "__defineGetter__"; "__defineSetter__"; "hasOwnProperty";
    "__lookupGetter__"; "__lookupSetter__"; "isPrototypeOf"; "propertyIsEnumerable";
    "toString"; "valueOf"; "__proto__"; "toLocaleString" ].

Definition inheritedMember (k : string) : bool :=
  existsb (String.eqb k) objectPrototypeKeys.

(** The value of [randomUUID()]: a string that is never empty. *)
Record UUID := mkUUID { uuid_head : ascii; uuid_tail : string }.

Definition uuidString (u : UUID) : string := String (uuid_head u) (uuid_tail u).

(** [l.shift()] repeated [while (l.length > bound)]. *)
Fixpoint shiftWhileOver {A} (bound : nat) (l : list A) : list A :=
  match l with
  | [] => []
  | x :: l' => if (bound <? length l)%nat then shiftWhileOver bound l' else l
  end.

(** [l.slice(start)]: a negative [start] counts from the end, and either way
    the index is clamped to the array. *)
Definition slice {A} (start : Z) (l : list A) : list A :=
  let len := Z.of_nat (length l) in
  let k := if start <? 0 then Z.max (len + start) 0 else Z.min start len in
  drop (Z.to_nat k) l.

(** [s.split(sep)] for a one-character separator: the pieces between the
    separators, at least one piece. *)
Fixpoint split (sep : ascii) (s : string) : list string :=
  match s with
  | EmptyString => [EmptyString]
  | String c s' =>
      if Ascii.eqb c sep then EmptyString :: split sep s'
      else match split sep s' with
           | [] => [String c EmptyString]
           | piece :: pieces => String c piece :: pieces
           end
  end.

(** [Math.round] on an exact number: the nearest integer, halves upwards. *)
Definition round (x : Qc) : Z := Qfloor (x + Q2Qc (1 # 2))%Qc.

(** A call that returns a value or throws an [Error] with a message. *)
Inductive Result (A : Type) :=
| Ok (a : A)
| Throw (message : string).
Arguments Ok {A} a.
Arguments Throw {A} message.

End JS.

(** ** Types of [types/index.ts] *)

Inductive StrategyType := TwoTier | ThreeTier.

#[global] Instance StrategyType_eq_dec : EqDecision StrategyType.
Proof. solve_decision. Defined.

Definition strategyName (s : StrategyType) : string :=
  match s with TwoTier => "2-tier" | ThreeTier => "3-tier" end.

(** [TierSchema]: the five labels.  At run time a tier is a string, and the
    sources cast unchecked strings to [Tier]; the embedding keeps strings. *)
Definition allTiers : list string :=
  ["primary"; "critical"; "tier1"; "tier2"; "tier3"].

Record RuleMatch := mkRuleMatch {
  rule_name : string;
  matched_pattern : option string;
  target_tier : string;
  priority : Z;
  reason : string
}.

(** The interface [IMemoryTracker] of the rule engine. *)
Class IMemoryTracker (M : Type) := getRecommendedTier : M -> string -> option string.

(** ** The rule engine ([RuleEngine]) *)

Module RuleEngine.

Record KeywordRule := mkKeywordRule {
  name : string;
  patterns : list string;
  rule_target_tier : gmap string string;
  rule_priority : Z
}.

Record ErrorEscalation := mkErrorEscalation {
  enabled : bool;
  threshold : Z;
  window_minutes : Z;
  action : string
}.

Record CostOptimization := mkCostOptimization {
  co_enabled : bool;
  simple_task_patterns : list string;
  co_action : string
}.

Record RulesConfig := mkRulesConfig {
  keyword_rules : list KeywordRule;
  error_escalation : ErrorEscalation;
  cost_optimization : option CostOptimization
}.

(** The engine's own fields; [errorWindow] holds the error dates as
    milliseconds since the epoch.  The memory tracker is a shared object: its
    current state is handed to [classifyTask] by the caller. *)
Record t := mkEngine {
  config : option RulesConfig;
  strategy : StrategyType;
  errorWindow : list Z
}.

Definition setStrategy (e : t) (s : StrategyType) : t :=
  {| config := config e; strategy := s; errorWindow := errorWindow e |}.

Definition withWindow (e : t) (w : list Z) : t :=
  {| config := config e; strategy := strategy e; errorWindow := w |}.

Definition cutoff (esc : ErrorEscalation) (now : Z) : Z :=
  now - window_minutes esc * 60 * 1000.

Definition cleanWindow (esc : ErrorEscalation) (now : Z) (w : list Z) : list Z :=
  List.filter (fun d => cutoff esc now <? d) w.

Definition cleanErrorWindow (e : t) (now : Z) : t :=
  match config e with
  | None => e
  | Some cfg => withWindow e (cleanWindow (error_escalation cfg) now (errorWindow e))
  end.

Definition recordError (e : t) (now : Z) : t :=
  match config e with
  | None => e
  | Some cfg =>
      if enabled (error_escalation cfg)
      then cleanErrorWindow (withWindow e (errorWindow e ++ [now])) now
      else e
  end.

Definition resetErrors (e : t) : t := withWindow e [].

Definition getErrorCount (e : t) (now : Z) : nat * t :=
  let e' := cleanErrorWindow e now in (length (errorWindow e'), e').

Definition getEscalatedTier (s : StrategyType) (currentTier : string) : option string :=
  match s with
  | TwoTier =>
      if String.eqb currentTier "primary" then Some "critical" else None
  | ThreeTier =>
      if String.eqb currentTier "tier1" then Some "tier2"
      else if String.eqb currentTier "tier2" then Some "tier3"
      else None
  end.

Definition getAvailableTiers (s : StrategyType) : list string :=
  match s with
  | TwoTier => ["primary"; "critical"]
  | ThreeTier => ["tier1"; "tier2"; "tier3"]
  end.

Definition isValidTier (s : StrategyType) (tier : string) : bool :=
  existsb (String.eqb tier) (getAvailableTiers s).

Definition getDefaultTier (s : StrategyType) : string :=
  match s with TwoTier => "primary" | ThreeTier => "tier1" end.

(** The inner loop over a rule's patterns: the first pattern, in declaration
    order, whose lower-cased text occurs in the lower-cased task. *)
Fixpoint firstPattern (taskLower : string) (ps : list string) : option string :=
  match ps with
  | [] => None
  | p :: ps' =>
      if JS.includes taskLower (JS.toLowerCase p) then Some p
      else firstPattern taskLower ps'
  end.

Definition keywordMatch (s : StrategyType) (taskLower : string) (rule : KeywordRule)
  : option RuleMatch :=
  match firstPattern taskLower (patterns rule) with
  | None => None
  | Some p =>
      match rule_target_tier rule !! strategyName s with
      | Some target =>
          if JS.truthy target then
            Some {| rule_name := name rule;
                    matched_pattern := Some p;
                    target_tier := target;
                    priority := rule_priority rule;
                    reason := "Matched pattern " +:+ JS.dquote +:+ p +:+ JS.dquote
                              +:+ " in " +:+ name rule |}
          else None
      | None => None
      end
  end.

Definition keywordMatches (s : StrategyType) (taskLower : string)
  (rules : list KeywordRule) : list RuleMatch :=
  omap (keywordMatch s taskLower) rules.

Definition escalationMatch (esc : ErrorEscalation) (count : nat) (tier : string)
  : RuleMatch :=
  {| rule_name := "error_escalation";
     matched_pattern := None;
     target_tier := tier;
     priority := 200;
     reason := JS.showZ (Z.of_nat count) +:+ " errors in last "
               +:+ JS.showZ (window_minutes esc) +:+ " minutes" |}.

Definition costMatch (s : StrategyType) (p : string) : RuleMatch :=
  {| rule_name := "cost_optimization";
     matched_pattern := Some p;
     target_tier := match s with TwoTier => "primary" | ThreeTier => "tier1" end;
     priority := 10;
     reason := "Simple task detected - using lowest cost tier" |}.

Definition memoryMatch (tier : string) : RuleMatch :=
  {| rule_name := "memory_based";
     matched_pattern := None;
     target_tier := tier;
     priority := 30;
     reason := "Based on previous similar tasks" |}.

(** The comparator [(a, b) => b.priority - a.priority] is positive exactly
    when [a] has the lower priority. *)
Definition byPriorityDesc (a b : RuleMatch) : bool := priority a <? priority b.

(** The "check error escalation" block: the window is cleaned first, and a
    match is pushed when enough errors remain and a next tier exists. *)
Definition escalationStep (cfg : RulesConfig) (s : StrategyType) (now : Z)
  (currentTier : string) (w : list Z) (matches : list RuleMatch)
  : list RuleMatch * list Z :=
  let esc := error_escalation cfg in
  if enabled esc then
    let w' := cleanWindow esc now w in
    if threshold esc <=? Z.of_nat (length w') then
      match getEscalatedTier s currentTier with
      | Some tier => (matches ++ [escalationMatch esc (length w') tier], w')
      | None => (matches, w')
      end
    else (matches, w')
  else (matches, w).

Definition costStep (cfg : RulesConfig) (s : StrategyType) (taskLower : string)
  (matches : list RuleMatch) : list RuleMatch :=
  match cost_optimization cfg with
  | Some co =>
      if co_enabled co && (length matches =? 0)%nat then
        match firstPattern taskLower (simple_task_patterns co) with
        | Some p => matches ++ [costMatch s p]
        | None => matches
        end
      else matches
  | None => matches
  end.

Definition memoryStep {M} `{IMemoryTracker M} (s : StrategyType) (mem : option M)
  (task : string) (matches : list RuleMatch) : list RuleMatch :=
  if (length matches =? 0)%nat then
    match mem with
    | Some m =>
        match getRecommendedTier m task with
        | Some rec =>
            if JS.truthy rec && isValidTier s rec then matches ++ [memoryMatch rec]
            else matches
        | None => matches
        end
    | None => matches
    end
  else matches.

(** [classifyTask(task, currentTier)], read at clock value [now] with the
    memory tracker (when one is attached) in state [mem].  The second
    component is the engine after the call: its error window was cleaned. *)
Definition classifyTask {M} `{IMemoryTracker M} (e : t) (mem : option M) (now : Z)
  (task currentTier : string) : option RuleMatch * t :=
  match config e with
  | None => (None, e)
  | Some cfg =>
      let taskLower := JS.toLowerCase task in
      let m1 := keywordMatches (strategy e) taskLower (keyword_rules cfg) in
      let '(m2, w) := escalationStep cfg (strategy e) now currentTier (errorWindow e) m1 in
      let m3 := costStep cfg (strategy e) taskLower m2 in
      let m4 := memoryStep (strategy e) mem task m3 in
      (head (JS.sort byPriorityDesc m4), withWindow e w)
  end.

End RuleEngine.

(** ** The conversation memory ([ConversationMemoryTracker]) *)

Module Memory.

Record MemoryEntry := mkEntry {
  timestamp : string;
  task_pattern : string;
  tier_used : string;
  success : bool;
  context : option (list (string * option string))
}.

Record ConversationMemory := mkSession {
  session_id : string;
  entries : list MemoryEntry;
  created_at : string;
  last_updated : string
}.

Record MemoryData := mkData {
  sessions : list ConversationMemory;
  current_session_id : option string
}.

Record t := mkTracker {
  data : MemoryData;
  maxEntriesPerSession : nat;
  maxSessions : nat
}.

Definition withData (m : t) (d : MemoryData) : t :=
  {| data := d;
     maxEntriesPerSession := maxEntriesPerSession m;
     maxSessions := maxSessions m |}.

(** [getCurrentSession]: the first session carrying the current id, with its
    position in the array (the caller mutates it in place). *)
Definition getCurrentSession (m : t) : option (nat * ConversationMemory) :=
  match current_session_id (data m) with
  | None => None
  | Some id =>
      if JS.truthy id
      then list_find (fun s => session_id s = id) (sessions (data m))
      else None
  end.

Definition newSession (sessionId now : string) : ConversationMemory :=
  {| session_id := sessionId; entries := []; created_at := now; last_updated := now |}.

Definition startNewSession (id : JS.UUID) (now : string) (m : t) : string * t :=
  let sessionId := JS.uuidString id in
  (sessionId,
   withData m {| sessions := JS.shiftWhileOver (maxSessions m)
                               (sessions (data m) ++ [newSession sessionId now]);
                 current_session_id := Some sessionId |}).

(** The ordered table of [extractPattern]: each regular expression is an
    alternation of literal words, tested on the lower-cased task. *)
Definition patternTable : list (list string * string) :=
  [ (["architect"], "architecture");
    (["design"], "design");
    (["security"], "security");
    (["refactor"], "refactor");
    (["implement"], "implementation");
    (["create"; "add"], "creation");
    (["fix"; "bug"; "debug"], "bugfix");
    (["explore"; "search"; "find"], "exploration");
    (["test"], "testing");
    (["document"], "documentation") ].

Fixpoint firstCategory (lowered : string) (tbl : list (list string * string)) : string :=
  match tbl with
  | [] => "general"
  | (alts, pattern) :: tbl' =>
      if existsb (JS.includes lowered) alts then pattern
      else firstCategory lowered tbl'
  end.

Definition extractPattern (task : string) : string :=
  firstCategory (JS.toLowerCase task) patternTable.

Definition pushEntry (bound : nat) (entry : MemoryEntry) (s : ConversationMemory)
  : ConversationMemory :=
  {| session_id := session_id s;
     entries := JS.shiftWhileOver bound (entries s ++ [entry]);
     created_at := created_at s;
     last_updated := timestamp entry |}.

(** The entry [recordTask] builds. *)
Definition makeEntry (now taskPattern tierUsed : string) (ok : bool)
  (ctx : option (list (string * option string))) : MemoryEntry :=
  {| timestamp := now;
     task_pattern := extractPattern taskPattern;
     tier_used := tierUsed;
     success := ok;
     context := ctx |}.

(** [recordTask].  The method calls itself after [startNewSession] when no
    current session is found; [fuel] bounds the number of activations, and
    [uuid k] is the identifier drawn by the [k]-th of them. *)
Fixpoint recordTask (fuel : nat) (uuid : nat -> JS.UUID) (now : string) (m : t)
  (taskPattern tierUsed : string) (ok : bool)
  (ctx : option (list (string * option string))) : option t :=
  match fuel with
  | O => None
  | S fuel' =>
      match getCurrentSession m with
      | None =>
          recordTask fuel' (fun k => uuid (S k)) now
            (snd (startNewSession (uuid O) now m)) taskPattern tierUsed ok ctx
      | Some (i, session) =>
          let entry := makeEntry now taskPattern tierUsed ok ctx in
          Some (withData m
                  {| sessions := <[i := pushEntry (maxEntriesPerSession m) entry session]>
                                   (sessions (data m));
                     current_session_id := current_session_id (data m) |})
      end
  end.

Definition recordTierSwitch (fuel : nat) (uuid : nat -> JS.UUID) (now : string) (m : t)
  (fromTier toTier : string) (why : option string) : option t :=
  recordTask fuel uuid now m ("tier_switch:" +:+ fromTier +:+ "->" +:+ toTier)
    toTier true (Some [("reason", why)]).

Definition relevant (pattern : string) (e : MemoryEntry) : bool :=
  String.eqb (task_pattern e) pattern && success e.

(** What a slot of [tierCounts] holds: a number, or the text that comes of
    adding 1 to an inherited member or to such a text. *)
Inductive Count :=
| Number (n : nat)
| Text.

(** The counting loop: [tierCounts[t] = (tierCounts[t] || 0) + 1].  For a
    name the object does not own but inherits, the read finds the member
    and the sum is a text; the assignment stores it under the name, except
    under "__proto__", whose setter ignores a text. *)
Definition countTier (tierCounts : list (string * Count)) (e : MemoryEntry)
  : list (string * Count) :=
  match JS.dictGet tierCounts (tier_used e) with
  | Some (Number n) => JS.dictSet tierCounts (tier_used e) (Number (n + 1))
  | Some Text => JS.dictSet tierCounts (tier_used e) Text
  | None =>
      if JS.inheritedMember (tier_used e) then
        if String.eqb (tier_used e) "__proto__" then tierCounts
        else JS.dictSet tierCounts (tier_used e) Text
      else JS.dictSet tierCounts (tier_used e) (Number (0 + 1))
  end.

(** The comparator [(a, b) => b[1] - a[1]] is positive exactly when both
    counts are numbers and [a] has the lower one; with a text the
    difference is NaN.  (A comparator that yields NaN between unequal
    numbers is not consistent, and the order [sort] then produces is left
    to the engine; [JS.sort] is one such order.) *)
Definition byCountDesc (a b : string * Count) : bool :=
  match snd a, snd b with
  | Number x, Number y => (x <? y)%nat
  | _, _ => false
  end.

Definition recommendFrom (pattern : string) (es : list MemoryEntry) : option string :=
  let relevantEntries := List.filter (relevant pattern) es in
  match relevantEntries with
  | [] => None
  | _ =>
      let tierCounts := fold_left countTier relevantEntries [] in
      let entries := JS.objectEntries tierCounts in
      match entries with
      | [] => None
      | _ => fst <$> head (JS.sort byCountDesc entries)
      end
  end.

Definition getRecommendedTier (m : t) (task : string) : option string :=
  let pattern := extractPattern task in
  match getCurrentSession m with
  | None => None
  | Some (_, session) => recommendFrom pattern (entries session)
  end.

(** The constructor on a data directory without a memory file. *)
Definition create (maxEntries maxSess : nat) (id : JS.UUID) (now : string) : t :=
  snd (startNewSession id now
         {| data := {| sessions := []; current_session_id := None |};
            maxEntriesPerSession := maxEntries;
            maxSessions := maxSess |}).

Definition clear (id : JS.UUID) (now : string) (m : t) : t :=
  snd (startNewSession id now
         (withData m {| sessions := []; current_session_id := None |})).

(** The counting step [o[k] = (o[k] || 0) + 1] of the summary loops. *)
Definition bump (o : list (string * nat)) (k : string) : list (string * nat) :=
  JS.dictSet o k (match JS.dictGet o k with Some n => n + 1 | None => 0 + 1 end)%nat.

(** [getRecentPatterns(limit = 5)]. *)
Definition getRecentPatterns (limit : option Z) (m : t) : list string :=
  match getCurrentSession m with
  | None => []
  | Some (_, session) => task_pattern <$> JS.slice (- default 5 limit) (entries session)
  end.

Record SessionSummary := mkSummary {
  summary_session_id : string;
  entry_count : nat;
  patterns : list (string * nat);
  tier_usage : list (string * nat);
  success_rate : Z
}.

Definition countSuccess (es : list MemoryEntry) : nat :=
  fold_left (fun n e => if success e then S n else n) es O.

(** [getSessionSummary]. *)
Definition getSessionSummary (m : t) : option SessionSummary :=
  match getCurrentSession m with
  | None => None
  | Some (_, session) =>
      let es := entries session in
      Some {| summary_session_id := session_id session;
              entry_count := length es;
              patterns := fold_left (fun o e => bump o (task_pattern e)) es [];
              tier_usage := fold_left (fun o e => bump o (tier_used e)) es [];
              success_rate :=
                if (0 <? length es)%nat
                then JS.round (Q2Qc (inject_Z (Z.of_nat (countSuccess es)))
                               / Q2Qc (inject_Z (Z.of_nat (length es)))
                               * Q2Qc (inject_Z 100))%Qc
                else 0 |}
  end.

End Memory.

#[global] Instance Memory_tracker : IMemoryTracker Memory.t := Memory.getRecommendedTier.

(** ** The usage ledger ([CostTracker])

    Amounts are exact rationals here; the month key read from the clock is
    an input of [record] and [getStatus]. *)

Module CostTracker.

Record Usage := mkUsage { cost : Qc; tokens : Z }.

Record UsageRecord := mkRecord {
  timestamp : string;
  provider : string;
  model : string;
  tier : string;
  input_tokens : Z;
  output_tokens : Z;
  cost_usd : Qc;
  task_summary : option string
}.

Record MonthlyUsage := mkMonthly {
  total_cost : Qc;
  total_tokens : Z;
  by_tier : gmap string Usage;
  by_model : gmap string Usage
}.

Record UsageData := mkUsageData {
  records : list UsageRecord;
  monthly_totals : gmap string MonthlyUsage
}.

(** The parameter object of [record]. *)
Record Params := mkParams {
  p_provider : string;
  p_model : string;
  p_tier : string;
  p_input_tokens : Z;
  p_output_tokens : Z;
  p_cost_usd : Qc;
  p_task_summary : option string
}.

Definition empty : UsageData := {| records := []; monthly_totals := ∅ |}.

Definition emptyMonth : MonthlyUsage :=
  {| total_cost := 0%Qc; total_tokens := 0; by_tier := ∅; by_model := ∅ |}.

(** [if (!m[k]) m[k] = { cost: 0, tokens: 0 }; m[k].cost += c; m[k].tokens += n].
    When [m] does not own [k] but inherits a member under that name, the
    test finds the member: no key is created, and the two updates land on
    the member, not in [m]. *)
Definition addUsage (m : gmap string Usage) (k : string) (c : Qc) (n : Z)
  : gmap string Usage :=
  match m !! k with
  | Some u => <[k := {| cost := (cost u + c)%Qc; tokens := tokens u + n |}]> m
  | None =>
      if JS.inheritedMember k then m
      else <[k := {| cost := (0 + c)%Qc; tokens := 0 + n |}]> m
  end.

Inductive SaveResult := Saved | FileOperationError.

(** [record(params)], with the clock read as the ISO text [iso] and the
    month key [monthKey].  The in-memory data are updated before [save] runs;
    [saveOk] tells whether the write to disk succeeds. *)
Definition record (iso monthKey : string) (saveOk : bool) (d : UsageData) (p : Params)
  : UsageData * SaveResult :=
  let r := {| timestamp := iso; provider := p_provider p; model := p_model p;
              tier := p_tier p; input_tokens := p_input_tokens p;
              output_tokens := p_output_tokens p; cost_usd := p_cost_usd p;
              task_summary := p_task_summary p |} in
  let monthly := default emptyMonth (monthly_totals d !! monthKey) in
  let n := p_input_tokens p + p_output_tokens p in
  let monthly' :=
    {| total_cost := (total_cost monthly + p_cost_usd p)%Qc;
       total_tokens := total_tokens monthly + n;
       by_tier := addUsage (by_tier monthly) (p_tier p) (p_cost_usd p) n;
       by_model := addUsage (by_model monthly) (p_provider p +:+ ":" +:+ p_model p)
                     (p_cost_usd p) n |} in
  ({| records := records d ++ [r];
      monthly_totals := <[monthKey := monthly']> (monthly_totals d) |},
   if saveOk then Saved else FileOperationError).

Definition getMonthlyUsage (d : UsageData) (key : string) : option MonthlyUsage :=
  monthly_totals d !! key.

Record Threshold := mkThreshold { percent : Qc; threshold_action : string }.

Record Budget := mkBudget {
  monthly_limit_usd : Qc;
  alert_thresholds : option (list Threshold)
}.

Record Status := mkStatus {
  current_month : string;
  spent_usd : Qc;
  budget_usd : Qc;
  percent_used : Qc;
  remaining_usd : Qc;
  alert_triggered : bool;
  triggered_alerts : list Threshold;
  is_blocked : bool;
  status_by_tier : gmap string Usage;
  status_by_model : gmap string Usage
}.

Definition Qc_leb (a b : Qc) : bool := bool_decide (a ≤ b)%Qc.
Definition Qc_ltb (a b : Qc) : bool := bool_decide (a < b)%Qc.

(** [Math.round]: the nearest integer, halves upwards. *)
Definition mathRound (x : Qc) : Z := Qfloor (x + Q2Qc (1 # 2))%Qc.

(** [Math.round(x * k) / k]. *)
Definition roundTo (k : Z) (x : Qc) : Qc :=
  (Q2Qc (inject_Z (mathRound (x * Q2Qc (inject_Z k))%Qc)) / Q2Qc (inject_Z k))%Qc.

(** The unrounded percentage of [getStatus]. *)
Definition percentOf (spent limit : Qc) : Qc :=
  if Qc_ltb 0%Qc limit then (spent / limit * Q2Qc (inject_Z 100))%Qc else 0%Qc.

Definition defaultThresholds : list Threshold :=
  [ {| percent := Q2Qc (inject_Z 80); threshold_action := "notify_user" |} ].

(** The comparator [(a, b) => b.percent - a.percent]. *)
Definition byPercentDesc (a b : Threshold) : bool := Qc_ltb (percent a) (percent b).

Definition spentIn (d : UsageData) (monthKey : string) : Qc :=
  match getMonthlyUsage d monthKey with
  | Some monthly => total_cost monthly
  | None => 0%Qc
  end.

Definition triggered (percentUsed : Qc) (thresholds : list Threshold) : list Threshold :=
  JS.sort byPercentDesc (List.filter (fun t => Qc_leb (percent t) percentUsed) thresholds).

Definition blocking (percentUsed : Qc) (t : Threshold) : bool :=
  String.eqb (threshold_action t) "block_high_tier" && Qc_leb (percent t) percentUsed.

Definition getStatus (monthKey : string) (d : UsageData) (budget : Budget) : Status :=
  let monthly := getMonthlyUsage d monthKey in
  let spent := spentIn d monthKey in
  let percentUsed := percentOf spent (monthly_limit_usd budget) in
  let thresholds := default defaultThresholds (alert_thresholds budget) in
  let triggeredAlerts := triggered percentUsed thresholds in
  let isBlocked := existsb (blocking percentUsed) triggeredAlerts in
  {| current_month := monthKey;
     spent_usd := roundTo 100 spent;
     budget_usd := monthly_limit_usd budget;
     percent_used := roundTo 10 percentUsed;
     remaining_usd := roundTo 100 (monthly_limit_usd budget - spent)%Qc;
     alert_triggered := negb (length triggeredAlerts =? 0)%nat;
     triggered_alerts := triggeredAlerts;
     is_blocked := isBlocked;
     status_by_tier := default ∅ (by_tier <$> monthly);
     status_by_model := default ∅ (by_model <$> monthly) |}.

(** [getRecentRecords(limit = 10)]. *)
Definition getRecentRecords (limit : option Z) (d : UsageData) : list UsageRecord :=
  JS.slice (- default 10 limit) (records d).

End CostTracker.

(** ** The usage ledger in binary64 ([CostTracker.record], [getTotalSpend])

    The amounts [record] accumulates are JavaScript numbers.  This module
    follows the method in IEEE binary64 ([PrimFloat]), where the order of
    the additions matters, and keeps the breakdowns as the plain objects
    they are: own keys in insertion order, and reads that also find
    inherited members.  Token counts are integers. *)

Module CostTracker64.

Record Usage := mkUsage { cost : float; tokens : Z }.

Record UsageRecord := mkRecord {
  timestamp : string;
  provider : string;
  model : string;
  tier : string;
  input_tokens : Z;
  output_tokens : Z;
  cost_usd : float;
  task_summary : option string
}.

Record MonthlyUsage := mkMonthly {
  total_cost : float;
  total_tokens : Z;
  by_tier : list (string * Usage);
  by_model : list (string * Usage)
}.

Record UsageData := mkUsageData {
  records : list UsageRecord;
  monthly_totals : list (string * MonthlyUsage)
}.

Record Params := mkParams {
  p_provider : string;
  p_model : string;
  p_tier : string;
  p_input_tokens : Z;
  p_output_tokens : Z;
  p_cost_usd : float;
  p_task_summary : option string
}.

Definition empty : UsageData := {| records := []; monthly_totals := [] |}.

Definition emptyMonth : MonthlyUsage :=
  {| total_cost := 0%float; total_tokens := 0; by_tier := []; by_model := [] |}.

(** What [getMonthKey] reads of a date: the year, and the month from 0. *)
Record Date := mkDate { getFullYear : Z; getMonth : nat }.

(** [s.padStart(2, '0')]. *)
Definition padStart2 (s : string) : string :=
  match String.length s with
  | O => "00"
  | 1%nat => "0" +:+ s
  | _ => s
  end.

(** [getMonthKey(date)]: the year, a hyphen, the month in two digits. *)
Definition getMonthKey (date : Date) : string :=
  JS.showZ (getFullYear date) +:+ "-"
  +:+ padStart2 (JS.showZ (Z.of_nat (getMonth date) + 1)).

(** [if (!m[k]) m[k] = { cost: 0, tokens: 0 }; m[k].cost += c; m[k].tokens += n].
    When [m] does not own [k] but inherits a member under that name, the
    test finds the member: no key is created, and the two updates land on
    the member, not in [m]. *)
Definition addUsage (m : list (string * Usage)) (k : string) (c : float) (n : Z)
  : list (string * Usage) :=
  match JS.dictGet m k with
  | Some u => JS.dictSet m k {| cost := (cost u + c)%float; tokens := tokens u + n |}
  | None =>
      if JS.inheritedMember k then m
      else JS.dictSet m k {| cost := (0 + c)%float; tokens := 0 + n |}
  end.

(** [record(params)].  [iso] is the text of the first clock reading and
    [date] the second one, taken by [getMonthKey]; [saveOk] tells whether
    the write to disk succeeds, after the data in memory are updated.  A
    month key holds a hyphen, so it is no name of an inherited member and
    the test [!monthly_totals[monthKey]] sees own keys only. *)
Definition record (iso : string) (date : Date) (saveOk : bool) (d : UsageData) (p : Params)
  : UsageData * CostTracker.SaveResult :=
  let r := {| timestamp := iso; provider := p_provider p; model := p_model p;
              tier := p_tier p; input_tokens := p_input_tokens p;
              output_tokens := p_output_tokens p; cost_usd := p_cost_usd p;
              task_summary := p_task_summary p |} in
  let monthKey := getMonthKey date in
  let monthly := default emptyMonth (JS.dictGet (monthly_totals d) monthKey) in
  let n := p_input_tokens p + p_output_tokens p in
  let monthly' :=
    {| total_cost := (total_cost monthly + p_cost_usd p)%float;
       total_tokens := total_tokens monthly + n;
       by_tier := addUsage (by_tier monthly) (p_tier p) (p_cost_usd p) n;
       by_model := addUsage (by_model monthly) (p_provider p +:+ ":" +:+ p_model p)
                     (p_cost_usd p) n |} in
  ({| records := records d ++ [r];
      monthly_totals := JS.dictSet (monthly_totals d) monthKey monthly' |},
   if saveOk then CostTracker.Saved else CostTracker.FileOperationError).

(** [getTotalSpend]: the reduction over [Object.values(monthly_totals)], in
    the order the object enumerates its keys. *)
Definition getTotalSpend (d : UsageData) : float :=
  fold_left (fun sum month => (sum + total_cost month)%float)
    ((JS.objectEntries (monthly_totals d)).*2) 0%float.

Definition clear : UsageData := empty.

End CostTracker64.

(** ** Provider configurations ([types/index.ts]) *)

Module Provider.

Record ModelConfig := mkModelConfig {
  id : string;
  input_cost_per_mtok : Qc;
  output_cost_per_mtok : Qc;
  max_tokens : Z;
  context_window : Z
}.

Record ProviderConfig := mkProviderConfig {
  base_url : option string;
  api_key_env : string;
  models : gmap string ModelConfig
}.

End Provider.

(** ** Model references ([config/loader.ts]) *)

Module Loader.

Definition colon : ascii := ascii_of_nat 58.

(** [parseModelRef]: the first two pieces of the reference split at colons. *)
Definition parseModelRef (modelRef : string) : JS.Result (string * string) :=
  let pieces := JS.split colon modelRef in
  match pieces !! O, pieces !! 1%nat with
  | Some provider, Some model =>
      if JS.truthy provider && JS.truthy model then JS.Ok (provider, model)
      else JS.Throw ("Invalid model reference: " +:+ modelRef +:+ ". Expected format: "
                     +:+ JS.dquote +:+ "provider:model" +:+ JS.dquote)
  | _, _ =>
      JS.Throw ("Invalid model reference: " +:+ modelRef +:+ ". Expected format: "
                +:+ JS.dquote +:+ "provider:model" +:+ JS.dquote)
  end.

End Loader.

(** ** The dispatcher ([server.ts]) and its tool handlers *)

Module Server.

Record BudgetConfig := mkBudgetConfig {
  monthly_limit_usd : Qc;
  alert_thresholds : list CostTracker.Threshold
}.

(** The parts of [MergedConfig] the handlers read or write.  [rules] is the
    object the rule engine was built with (its [config] field). *)
Record MergedConfig := mkConfig {
  tier_models : StrategyType -> gmap string string;
  budget : option BudgetConfig
}.

Record ServerState := mkState {
  currentTier : string;
  strategy : StrategyType;
  autoMode : bool;
  useEmojis : bool
}.

Record ServerContext := mkContext {
  config : MergedConfig;
  state : ServerState;
  costTracker : CostTracker.UsageData;
  memoryTracker : Memory.t;
  ruleEngine : RuleEngine.t
}.

(** What one handler call reads from its environment: the clock as
    milliseconds, as ISO text and as month key, and the identifiers drawn by
    [randomUUID]: [uuid c k] is the [k]-th identifier drawn during the
    [c]-th call of [recordTask] made by the handler. *)
Record Env := mkEnv {
  nowMs : Z;
  nowIso : string;
  monthKey : string;
  uuid : nat -> nat -> JS.UUID
}.

Definition withState (ctx : ServerContext) (st : ServerState) : ServerContext :=
  {| config := config ctx; state := st; costTracker := costTracker ctx;
     memoryTracker := memoryTracker ctx; ruleEngine := ruleEngine ctx |}.

Definition withMemory (ctx : ServerContext) (m : Memory.t) : ServerContext :=
  {| config := config ctx; state := state ctx; costTracker := costTracker ctx;
     memoryTracker := m; ruleEngine := ruleEngine ctx |}.

Definition withEngine (ctx : ServerContext) (e : RuleEngine.t) : ServerContext :=
  {| config := config ctx; state := state ctx; costTracker := costTracker ctx;
     memoryTracker := memoryTracker ctx; ruleEngine := e |}.

Definition withBudget (ctx : ServerContext) (b : BudgetConfig) : ServerContext :=
  {| config := {| tier_models := tier_models (config ctx); budget := Some b |};
     state := state ctx; costTracker := costTracker ctx;
     memoryTracker := memoryTracker ctx; ruleEngine := ruleEngine ctx |}.

Definition setTier (st : ServerState) (tier : string) : ServerState :=
  {| currentTier := tier; strategy := strategy st;
     autoMode := autoMode st; useEmojis := useEmojis st |}.

(** [switchTier(context, tier, reason)]; [c] numbers the [recordTask] call. *)
Definition switchTier (fuel : nat) (env : Env) (c : nat) (ctx : ServerContext)
  (tier : string) (why : option string) : option ServerContext :=
  let previousTier := currentTier (state ctx) in
  let ctx1 := withState ctx (setTier (state ctx) tier) in
  m ← Memory.recordTierSwitch fuel (uuid env c) (nowIso env) (memoryTracker ctx1)
        previousTier tier why;
  Some (withMemory ctx1 m).

Definition setStrategy (ctx : ServerContext) (s : StrategyType) : ServerContext :=
  withEngine
    (withState ctx {| currentTier := RuleEngine.getDefaultTier s; strategy := s;
                      autoMode := autoMode (state ctx);
                      useEmojis := useEmojis (state ctx) |})
    (RuleEngine.setStrategy (ruleEngine ctx) s).

(** *** [switch_tier] *)

Inductive SwitchTierResponse :=
| InvalidTier (tier : string) (s : StrategyType) (available : list string)
| Switched (previousTier tier : string) (why : option string) (modelRef : option string).

Definition handleSwitchTier (fuel : nat) (env : Env) (tier : string)
  (why : option string) (ctx : ServerContext)
  : option (SwitchTierResponse * ServerContext) :=
  if negb (RuleEngine.isValidTier (RuleEngine.strategy (ruleEngine ctx)) tier) then
    Some (InvalidTier tier (strategy (state ctx))
            (RuleEngine.getAvailableTiers (RuleEngine.strategy (ruleEngine ctx))),
          ctx)
  else
    let previousTier := currentTier (state ctx) in
    ctx' ← switchTier fuel env 0 ctx tier why;
    Some (Switched previousTier tier why
            (tier_models (config ctx') (strategy (state ctx')) !! tier),
          ctx').

(** *** [set_auto_mode] *)

Definition handleSetAutoMode (isEnabled : bool) (s : option StrategyType)
  (ctx : ServerContext) : ServerContext :=
  let ctx1 := withState ctx {| currentTier := currentTier (state ctx);
                               strategy := strategy (state ctx);
                               autoMode := isEnabled;
                               useEmojis := useEmojis (state ctx) |} in
  match s with
  | Some s' => if decide (s' = strategy (state ctx1)) then ctx1 else setStrategy ctx1 s'
  | None => ctx1
  end.

(** *** The budget the handlers pass to [getStatus] *)

Definition effectiveBudget (ctx : ServerContext) : CostTracker.Budget :=
  let b := default {| monthly_limit_usd := Q2Qc (inject_Z 100); alert_thresholds := [] |}
             (budget (config ctx)) in
  {| CostTracker.monthly_limit_usd := monthly_limit_usd b;
     CostTracker.alert_thresholds := Some (alert_thresholds b) |}.

(** *** [get_status]: the usage figures it reports *)

Definition handleGetStatus (env : Env) (ctx : ServerContext) : CostTracker.Status :=
  CostTracker.getStatus (monthKey env) (costTracker ctx) (effectiveBudget ctx).

(** *** [orchestrate] *)

Definition highCostTiers : list string := ["critical"; "tier3"; "tier2"].

Definition includesTier (l : list string) (tier : string) : bool :=
  existsb (String.eqb tier) l.

Definition fallbackTier (ctx : ServerContext) : string :=
  match strategy (state ctx) with TwoTier => "primary" | ThreeTier => "tier1" end.

Record Decision := mkDecision {
  targetTier : string;
  decisionReason : string;
  ruleMatch : option RuleMatch;
  budgetFallback : bool
}.

Inductive Action :=
| SwitchedTo
| RecommendedAutoModeOff
| RecommendedNoAutoSwitch
| Staying.

Inductive OrchestrateResponse :=
| InvalidTask
| InvalidForcedTier (tier : string) (s : StrategyType) (available : list string)
| Routed (d : Decision) (a : Action).

Record OrchestrateArgs := mkArgs {
  task : string;
  force_tier : option string;
  auto_switch : option bool
}.

(** The forced tier as the [if (forceTier)] test sees it. *)
Definition forced (args : OrchestrateArgs) : option string :=
  match force_tier args with
  | Some f => if JS.truthy f then Some f else None
  | None => None
  end.

(** The "determine target tier" block: [None] is the early return on a forced
    tier the strategy does not have; otherwise the decision and the rule
    engine after the call. *)
Definition determineTargetTier (env : Env) (args : OrchestrateArgs) (ctx : ServerContext)
  : option (Decision * RuleEngine.t) :=
  let isBlocked := CostTracker.is_blocked (handleGetStatus env ctx) in
  match forced args with
  | Some f =>
      if negb (RuleEngine.isValidTier (RuleEngine.strategy (ruleEngine ctx)) f) then None
      else if isBlocked && includesTier highCostTiers f then
        Some ({| targetTier := fallbackTier ctx;
                 decisionReason := "budget limit - forced fallback";
                 ruleMatch := None; budgetFallback := true |}, ruleEngine ctx)
      else
        Some ({| targetTier := f; decisionReason := "forced by user";
                 ruleMatch := None; budgetFallback := false |}, ruleEngine ctx)
  | None =>
      let '(rm, eng) :=
        RuleEngine.classifyTask (ruleEngine ctx) (Some (memoryTracker ctx))
          (nowMs env) (task args) (currentTier (state ctx)) in
      match rm with
      | Some m =>
          if isBlocked && includesTier highCostTiers (target_tier m) then
            Some ({| targetTier := fallbackTier ctx;
                     decisionReason := reason m +:+ " (budget blocked)";
                     ruleMatch := Some m; budgetFallback := true |}, eng)
          else
            Some ({| targetTier := target_tier m; decisionReason := reason m;
                     ruleMatch := Some m; budgetFallback := false |}, eng)
      | None =>
          Some ({| targetTier := currentTier (state ctx);
                   decisionReason := "no rule match";
                   ruleMatch := None; budgetFallback := false |}, eng)
      end
  end.

Definition handleOrchestrate (fuel : nat) (env : Env) (args : OrchestrateArgs)
  (ctx : ServerContext) : option (OrchestrateResponse * ServerContext) :=
  let autoSwitch := default true (auto_switch args) in
  if negb (JS.truthy (task args)) || JS.isBlank (task args) then Some (InvalidTask, ctx)
  else
    match determineTargetTier env args ctx with
    | None =>
        Some (InvalidForcedTier (default EmptyString (forced args)) (strategy (state ctx))
                (RuleEngine.getAvailableTiers (RuleEngine.strategy (ruleEngine ctx))),
              ctx)
    | Some (d, eng) =>
        let ctx1 := withEngine ctx eng in
        let tierChanged := negb (String.eqb (targetTier d) (currentTier (state ctx1))) in
        if tierChanged && autoSwitch && autoMode (state ctx1) then
          ctx2 ← switchTier fuel env 0 ctx1 (targetTier d) (Some (decisionReason d));
          m ← Memory.recordTask fuel (uuid env 1) (nowIso env) (memoryTracker ctx2)
                (task args) (targetTier d) true
                (Some [("reason", Some (decisionReason d))]);
          Some (Routed d SwitchedTo, withMemory ctx2 m)
        else if tierChanged && negb (autoMode (state ctx1)) then
          Some (Routed d RecommendedAutoModeOff, ctx1)
        else if tierChanged && negb autoSwitch then
          Some (Routed d RecommendedNoAutoSwitch, ctx1)
        else Some (Routed d Staying, ctx1)
    end.

(** *** [set_budget] *)

Inductive SetBudgetResponse :=
| LimitNotPositive
| AlertOutOfRange
| BudgetUpdated (limit : Qc) (shown : list CostTracker.Threshold)
    (usage : CostTracker.Status).

Definition setBudgetDefaults : list CostTracker.Threshold :=
  [ {| CostTracker.percent := Q2Qc (inject_Z 50);
       CostTracker.threshold_action := "log_warning" |};
    {| CostTracker.percent := Q2Qc (inject_Z 95);
       CostTracker.threshold_action := "require_confirmation" |};
    {| CostTracker.percent := Q2Qc (inject_Z 100);
       CostTracker.threshold_action := "block_high_tier" |} ].

(** The comparator [(a, b) => a.percent - b.percent]. *)
Definition byPercentAsc (a b : CostTracker.Threshold) : bool :=
  CostTracker.Qc_ltb (CostTracker.percent b) (CostTracker.percent a).

(** The threshold list built for the response. *)
Definition shownThresholds (alertPercent : Qc) : list CostTracker.Threshold :=
  if existsb (fun t => bool_decide (CostTracker.percent t = alertPercent)) setBudgetDefaults
  then setBudgetDefaults
  else JS.sort byPercentAsc
         (setBudgetDefaults ++
          [ {| CostTracker.percent := alertPercent;
               CostTracker.threshold_action := "notify_user" |} ]).

Definition handleSetBudget (env : Env) (monthlyLimit : Qc)
  (alert_threshold_percent : option Qc) (ctx : ServerContext)
  : SetBudgetResponse * ServerContext :=
  let alertPercent := default (Q2Qc (inject_Z 80)) alert_threshold_percent in
  if CostTracker.Qc_leb monthlyLimit 0%Qc then (LimitNotPositive, ctx)
  else if CostTracker.Qc_ltb alertPercent 0%Qc
          || CostTracker.Qc_ltb (Q2Qc (inject_Z 100)) alertPercent
  then (AlertOutOfRange, ctx)
  else
    let ctx' :=
      match budget (config ctx) with
      | None => withBudget ctx {| monthly_limit_usd := monthlyLimit; alert_thresholds := [] |}
      | Some b => withBudget ctx {| monthly_limit_usd := monthlyLimit;
                                    alert_thresholds := alert_thresholds b |}
      end in
    let shown := shownThresholds alertPercent in
    let usage :=
      CostTracker.getStatus (monthKey env) (costTracker ctx')
        {| CostTracker.monthly_limit_usd := monthlyLimit;
           CostTracker.alert_thresholds := Some shown |} in
    (BudgetUpdated monthlyLimit shown usage, ctx').

(** *** [getCurrentModel]

    [providers] is the provider table of the configuration.  A reference
    without a colon leaves the model name undefined, and the lookup in the
    provider's models is then made under the key "undefined". *)

Record ModelInfo := mkModelInfo {
  info_provider : string;
  info_model : option string;
  info_modelId : string
}.

Definition currentModelRef (ctx : ServerContext) : option string :=
  let tierModels := tier_models (config ctx) (strategy (state ctx)) in
  match strategy (state ctx) with
  | TwoTier =>
      if String.eqb (currentTier (state ctx)) "primary"
      then tierModels !! "primary" else tierModels !! "critical"
  | ThreeTier => tierModels !! currentTier (state ctx)
  end.

Definition getCurrentModel (providers : gmap string Provider.ProviderConfig)
  (ctx : ServerContext) : JS.Result ModelInfo :=
  match currentModelRef ctx with
  | None => JS.Throw ("No model configured for tier: " +:+ currentTier (state ctx))
  | Some modelRef =>
      if negb (JS.truthy modelRef)
      then JS.Throw ("No model configured for tier: " +:+ currentTier (state ctx))
      else
        let pieces := JS.split Loader.colon modelRef in
        let provider := default EmptyString (pieces !! O) in
        let model := pieces !! 1%nat in
        match providers !! provider with
        | None => JS.Throw ("Provider not found: " +:+ provider)
        | Some providerConfig =>
            match Provider.models providerConfig !! default "undefined" model with
            | None =>
                JS.Throw ("Model not found: " +:+ default "undefined" model
                          +:+ " in provider " +:+ provider)
            | Some modelConfig =>
                JS.Ok {| info_provider := provider; info_model := model;
                         info_modelId := Provider.id modelConfig |}
            end
        end
  end.

(** *** [createServer]: the initial context

    [defaultStrategy] and [rules] are [config.defaults.strategy] and
    [config.rules]; [noColor] tells whether NO_COLOR is set; [ledger] and
    [memory] are the two trackers as constructed on the data directory. *)

Definition createContext (cfg : MergedConfig) (defaultStrategy : StrategyType)
  (rules : option RuleEngine.RulesConfig) (noColor : bool)
  (ledger : CostTracker.UsageData) (memory : Memory.t) : ServerContext :=
  {| config := cfg;
     state := {| currentTier := match defaultStrategy with
                                | TwoTier => "primary"
                                | ThreeTier => "tier1"
                                end;
                 strategy := defaultStrategy;
                 autoMode := true;
                 useEmojis := negb noColor |};
     costTracker := ledger;
     memoryTracker := memory;
     ruleEngine := RuleEngine.mkEngine rules defaultStrategy [] |}.

(** *** [handleToolCall] ([tools/index.ts])

    The dispatch on the tool name, with the arguments already read from the
    request.  Of the answer, the part computed by the handler is kept, not
    its rendering as text. *)

Inductive ToolCall :=
| SwitchTierCall (tier : string) (why : option string)
| SetAutoModeCall (isEnabled : bool) (s : option StrategyType)
| GetStatusCall
| OrchestrateCall (args : OrchestrateArgs)
| SetBudgetCall (monthlyLimit : Qc) (alert_threshold_percent : option Qc)
| UnknownCall (toolName : string).

Inductive ToolAnswer :=
| SwitchTierAnswer (r : SwitchTierResponse)
| SetAutoModeAnswer
| GetStatusAnswer (usage : CostTracker.Status) (summary : option Memory.SessionSummary)
| OrchestrateAnswer (r : OrchestrateResponse)
| SetBudgetAnswer (r : SetBudgetResponse)
| UnknownTool (toolName : string).

Definition handleToolCall (fuel : nat) (env : Env) (call : ToolCall) (ctx : ServerContext)
  : option (ToolAnswer * ServerContext) :=
  match call with
  | SwitchTierCall tier why =>
      '(r, ctx') ← handleSwitchTier fuel env tier why ctx;
      Some (SwitchTierAnswer r, ctx')
  | SetAutoModeCall isEnabled s => Some (SetAutoModeAnswer, handleSetAutoMode isEnabled s ctx)
  | GetStatusCall =>
      Some (GetStatusAnswer (handleGetStatus env ctx)
              (Memory.getSessionSummary (memoryTracker ctx)), ctx)
  | OrchestrateCall args =>
      '(r, ctx') ← handleOrchestrate fuel env args ctx;
      Some (OrchestrateAnswer r, ctx')
  | SetBudgetCall monthlyLimit alert =>
      let '(r, ctx') := handleSetBudget env monthlyLimit alert ctx in
      Some (SetBudgetAnswer r, ctx')
  | UnknownCall toolName => Some (UnknownTool toolName, ctx)
  end.

End Server.

(** * Vocabulary of the specification and concrete configurations *)

(** The rules of [getDefaultConfig] ([config/loader.ts]). *)
Definition tiersFor (two three : string) : gmap string string :=
  <["2-tier" := two]> (<["3-tier" := three]> ∅).

Definition defaultRules : RuleEngine.RulesConfig :=
  {| RuleEngine.keyword_rules :=
       [ RuleEngine.mkKeywordRule "architecture_keywords"
           ["architecture"; "design decision"; "system design"; "refactor"; "restructure"]
           (tiersFor "critical" "tier3") 100;
         RuleEngine.mkKeywordRule "security_keywords"
           ["security"; "authentication"; "authorization"; "vulnerability"; "encryption"]
           (tiersFor "critical" "tier3") 90;
         RuleEngine.mkKeywordRule "exploration_keywords"
           ["explore"; "search"; "find"; "list"; "what is"; "how to"]
           (tiersFor "primary" "tier1") 50;
         RuleEngine.mkKeywordRule "implementation_keywords"
           ["implement"; "code"; "create"; "add"; "fix"; "debug"]
           (tiersFor "primary" "tier2") 60 ];
     RuleEngine.error_escalation :=
       RuleEngine.mkErrorEscalation true 3 30 "escalate_one_tier";
     RuleEngine.cost_optimization :=
       Some (RuleEngine.mkCostOptimization true
               ["list files"; "show status"; "get info"; "read file"]
               "suggest_lower_tier") |}.

(** Error escalation pushes its match. *)
Definition escalationFires (cfg : RuleEngine.RulesConfig) (s : StrategyType) (now : Z)
  (currentTier : string) (w : list Z) : bool :=
  let esc := RuleEngine.error_escalation cfg in
  RuleEngine.enabled esc
  && (RuleEngine.threshold esc <=? Z.of_nat (length (RuleEngine.cleanWindow esc now w)))
  && bool_decide (is_Some (RuleEngine.getEscalatedTier s currentTier)).

(** The candidate of the cost-optimization heuristic, when it is switched on
    and one of its substrings occurs in the task. *)
Definition costCandidate (cfg : RuleEngine.RulesConfig) (s : StrategyType)
  (taskLower : string) : option RuleMatch :=
  match RuleEngine.cost_optimization cfg with
  | Some co =>
      if RuleEngine.co_enabled co
      then RuleEngine.costMatch s
             <$> RuleEngine.firstPattern taskLower (RuleEngine.simple_task_patterns co)
      else None
  | None => None
  end.

(** The candidate of the memory: a recommendation valid for the strategy. *)
Definition memoryCandidate {M} `{IMemoryTracker M} (s : StrategyType) (mem : option M)
  (task : string) : option RuleMatch :=
  match mem with
  | Some m =>
      match getRecommendedTier m task with
      | Some rec =>
          if JS.truthy rec && RuleEngine.isValidTier s rec
          then Some (RuleEngine.memoryMatch rec) else None
      | None => None
      end
  | None => None
  end.

(** The strict escalation order of the specification. *)
Inductive escalates : StrategyType -> string -> string -> Prop :=
| escalates_primary : escalates TwoTier "primary" "critical"
| escalates_tier1 : escalates ThreeTier "tier1" "tier2"
| escalates_tier2 : escalates ThreeTier "tier2" "tier3".

Definition terminalTier (s : StrategyType) : string :=
  match s with TwoTier => "critical" | ThreeTier => "tier3" end.

(** Every keyword rule that names a tier for strategy [s] names one of the
    tiers of [s]. *)
Definition targetsWithin (s : StrategyType) (cfg : RuleEngine.RulesConfig) : Prop :=
  forall rule t,
    rule ∈ RuleEngine.keyword_rules cfg ->
    RuleEngine.rule_target_tier rule !! strategyName s = Some t ->
    JS.truthy t = true ->
    t ∈ RuleEngine.getAvailableTiers s.

(** A memory whose current session holds one successful entry of category
    [pattern] served by [tier]. *)
Definition memoryWith (pattern tier : string) : Memory.t :=
  {| Memory.data :=
       {| Memory.sessions :=
            [ {| Memory.session_id := "session-1";
                 Memory.entries :=
                   [ {| Memory.timestamp := "2026-01-01T00:00:00.000Z";
                        Memory.task_pattern := pattern;
                        Memory.tier_used := tier;
                        Memory.success := true;
                        Memory.context := None |} ];
                 Memory.created_at := "2026-01-01T00:00:00.000Z";
                 Memory.last_updated := "2026-01-01T00:00:00.000Z" |} ];
          Memory.current_session_id := Some "session-1" |};
     Memory.maxEntriesPerSession := 100;
     Memory.maxSessions := 10 |}.

(** A rule set with one keyword rule of priority 300. *)
Definition auditRules : RuleEngine.RulesConfig :=
  {| RuleEngine.keyword_rules :=
       [ RuleEngine.mkKeywordRule "audit_keywords" ["audit"]
           (tiersFor "critical" "tier3") 300 ];
     RuleEngine.error_escalation :=
       RuleEngine.mkErrorEscalation true 3 30 "escalate_one_tier";
     RuleEngine.cost_optimization := None |}.

(** A rule set whose keyword rule names, for the 2-tier strategy, a tier of
    the 3-tier strategy. *)
Definition crossedRules : RuleEngine.RulesConfig :=
  {| RuleEngine.keyword_rules :=
       [ RuleEngine.mkKeywordRule "architecture_keywords" ["architecture"]
           (tiersFor "tier3" "tier3") 100 ];
     RuleEngine.error_escalation :=
       RuleEngine.mkErrorEscalation false 3 30 "escalate_one_tier";
     RuleEngine.cost_optimization := None |}.

(** The number of error dates still inside the rolling window. *)
Definition errorCount (cfg : RuleEngine.RulesConfig) (now : Z) (w : list Z) : nat :=
  length (RuleEngine.cleanWindow (RuleEngine.error_escalation cfg) now w).

(** The same rules with error escalation switched off. *)
Definition withoutEscalation (cfg : RuleEngine.RulesConfig) : RuleEngine.RulesConfig :=
  {| RuleEngine.keyword_rules := RuleEngine.keyword_rules cfg;
     RuleEngine.error_escalation :=
       {| RuleEngine.enabled := false;
          RuleEngine.threshold := RuleEngine.threshold (RuleEngine.error_escalation cfg);
          RuleEngine.window_minutes :=
            RuleEngine.window_minutes (RuleEngine.error_escalation cfg);
          RuleEngine.action := RuleEngine.action (RuleEngine.error_escalation cfg) |};
     RuleEngine.cost_optimization := RuleEngine.cost_optimization cfg |}.

(** Three errors, one, two and three minutes before the clock value 10^7. *)
Definition threeErrors : list Z := [10000000 - 180000; 10000000 - 120000; 10000000 - 60000].

(** The thresholds [getStatus] works with: the configured ones, or the
    single 80% notification when the budget carries none. *)
Definition thresholdsOf (budget : CostTracker.Budget) : list CostTracker.Threshold :=
  default CostTracker.defaultThresholds (CostTracker.alert_thresholds budget).

(** The unrounded percentage behind a status. *)
Definition exactPercent (monthKey : string) (d : CostTracker.UsageData)
  (budget : CostTracker.Budget) : Qc :=
  CostTracker.percentOf (CostTracker.spentIn d monthKey)
    (CostTracker.monthly_limit_usd budget).

(** A ledger with one record of 99.96 USD in January, and a budget of
    100 USD that blocks the high tiers at 100%. *)
Definition januaryLedger : CostTracker.UsageData :=
  fst (CostTracker.record "2026-01-05T10:00:00.000Z" "2026-01" true CostTracker.empty
         (CostTracker.mkParams "anthropic" "opus" "critical" 1000 2000
            (Q2Qc (9996 # 100)) None)).

Definition blockAt100 : CostTracker.Budget :=
  CostTracker.mkBudget (Q2Qc (inject_Z 100))
    (Some [CostTracker.mkThreshold (Q2Qc (inject_Z 100)) "block_high_tier"]).

(** One call of [record]: the clock readings, the outcome of the write to
    disk, and the parameters. *)
Record RecordCall := mkCall {
  call_iso : string;
  call_month : string;
  call_saved : bool;
  call_params : CostTracker.Params
}.

(** The ledger after a sequence of [record] calls. *)
Definition recordAll (cs : list RecordCall) (d : CostTracker.UsageData)
  : CostTracker.UsageData :=
  fold_left
    (fun d c => fst (CostTracker.record (call_iso c) (call_month c) (call_saved c) d
                       (call_params c)))
    cs d.

(** The [UsageRecord] a call appends. *)
Definition recordOf (c : RecordCall) : CostTracker.UsageRecord :=
  {| CostTracker.timestamp := call_iso c;
     CostTracker.provider := CostTracker.p_provider (call_params c);
     CostTracker.model := CostTracker.p_model (call_params c);
     CostTracker.tier := CostTracker.p_tier (call_params c);
     CostTracker.input_tokens := CostTracker.p_input_tokens (call_params c);
     CostTracker.output_tokens := CostTracker.p_output_tokens (call_params c);
     CostTracker.cost_usd := CostTracker.p_cost_usd (call_params c);
     CostTracker.task_summary := CostTracker.p_task_summary (call_params c) |}.

(** The last [n] elements of a list, in order. *)
Definition lastN {A} (n : nat) (l : list A) : list A := drop (length l - n)%nat l.

(** The entries of the current session (none when there is no such session). *)
Definition currentEntries (m : Memory.t) : list Memory.MemoryEntry :=
  match Memory.getCurrentSession m with
  | Some (_, s) => Memory.entries s
  | None => []
  end.

(** One call of [recordTask], with the identifiers and clock it may read. *)
Record TaskCall := mkTaskCall {
  tc_uuid : nat -> JS.UUID;
  tc_now : string;
  tc_task : string;
  tc_tier : string;
  tc_success : bool;
  tc_context : option (list (string * option string))
}.

Definition entryOf (c : TaskCall) : Memory.MemoryEntry :=
  Memory.makeEntry (tc_now c) (tc_task c) (tc_tier c) (tc_success c) (tc_context c).

Inductive MemoryOp :=
| OpRecordTask (c : TaskCall)
| OpStartNewSession (id : JS.UUID) (now : string).

(** A sequence of operations on the tracker; every [recordTask] call gets
    [fuel] activations. *)
Fixpoint runOps (fuel : nat) (ops : list MemoryOp) (m : Memory.t) : option Memory.t :=
  match ops with
  | [] => Some m
  | OpRecordTask c :: ops' =>
      m' ← Memory.recordTask fuel (tc_uuid c) (tc_now c) m (tc_task c) (tc_tier c)
             (tc_success c) (tc_context c);
      runOps fuel ops' m'
  | OpStartNewSession id now :: ops' =>
      runOps fuel ops' (snd (Memory.startNewSession id now m))
  end.

(** The capacity invariant of a tracker with bounds [maxE] and [maxS]. *)
Definition withinCapacity (maxE maxS : nat) (m : Memory.t) : Prop :=
  Memory.maxEntriesPerSession m = maxE
  /\ Memory.maxSessions m = maxS
  /\ (length (Memory.sessions (Memory.data m)) ≤ maxS)%nat
  /\ Forall (fun s => (length (Memory.entries s) ≤ maxE)%nat)
       (Memory.sessions (Memory.data m))
  /\ is_Some (Memory.getCurrentSession m).

(** The tiers of the successful entries of category [pattern], in entry
    order. *)
Definition relevantTiers (pattern : string) (es : list Memory.MemoryEntry) : list string :=
  Memory.tier_used <$> List.filter (Memory.relevant pattern) es.

Definition occurrences (t : string) (l : list string) : nat :=
  length (List.filter (String.eqb t) l).

(** [t] has the highest occurrence count in [l], and every tier met before
    the first [t] has a strictly lower count. *)
Definition firstMostFrequent (l : list string) (t : string) : Prop :=
  exists pre post,
    l = pre ++ t :: post
    /\ (t ∉ pre)
    /\ (forall u, u ∈ pre -> (occurrences u l < occurrences t l)%nat)
    /\ (forall u, (occurrences u l ≤ occurrences t l)%nat).

(** The counting loop seen on tier names alone. *)
Definition tally (counts : list (string * nat)) (t : string) : list (string * nat) :=
  JS.dictSet counts t
    (match JS.dictGet counts t with Some n => n + 1 | None => 0 + 1 end)%nat.

(** The tracker on which [recordTask] pushes: the tracker itself when it has
    a current session, otherwise the tracker after [startNewSession]. *)
Definition readySession (uuid : nat -> JS.UUID) (now : string) (m : Memory.t) : Memory.t :=
  match Memory.getCurrentSession m with
  | Some _ => m
  | None => snd (Memory.startNewSession (uuid O) now m)
  end.

(** The entry a tier switch leaves in the memory. *)
Definition switchEntry (now fromTier toTier : string) (why : option string)
  : Memory.MemoryEntry :=
  Memory.makeEntry now ("tier_switch:" +:+ fromTier +:+ "->" +:+ toTier) toTier true
    (Some [("reason", why)]).

(** The tier put forward before the budget gate: the forced tier, or the
    target of the classification match. *)
Definition proposedTier (env : Server.Env) (args : Server.OrchestrateArgs)
  (ctx : Server.ServerContext) : option string :=
  match Server.forced args with
  | Some f => Some f
  | None =>
      target_tier <$>
        fst (RuleEngine.classifyTask (Server.ruleEngine ctx) (Some (Server.memoryTracker ctx))
               (Server.nowMs env) (Server.task args) (Server.currentTier (Server.state ctx)))
  end.

(** The two reasons the budget gate writes. *)
Definition budgetFallbackReason (r : string) : Prop :=
  r = "budget limit - forced fallback" \/ exists r0, r = r0 +:+ " (budget blocked)".

(** The thresholds stored in the configuration, as the handlers read them. *)
Definition storedThresholds (ctx : Server.ServerContext) : list CostTracker.Threshold :=
  match Server.budget (Server.config ctx) with
  | Some b => Server.alert_thresholds b
  | None => []
  end.

(** A dispatcher on the default rules, with a budget of 10 USD that blocks
    the high tiers at 100%, and 10.50 USD spent in January. *)
Definition overBudgetLedger : CostTracker.UsageData :=
  fst (CostTracker.record "2026-01-05T10:00:00.000Z" "2026-01" true CostTracker.empty
         (CostTracker.mkParams "anthropic" "opus" "critical" 1000 2000
            (Q2Qc (1050 # 100)) None)).

Definition defaultTierModels (s : StrategyType) : gmap string string :=
  match s with
  | TwoTier => <["primary" := "anthropic:sonnet"]> (<["critical" := "anthropic:opus"]> ∅)
  | ThreeTier =>
      <["tier1" := "anthropic:haiku"]>
        (<["tier2" := "anthropic:sonnet"]> (<["tier3" := "anthropic:opus"]> ∅))
  end.

Definition sampleUUID : JS.UUID := JS.mkUUID "a"%char "3f1c9e2-0000-4000-8000-000000000001".

Definition blockedContext (s : StrategyType) (tier : string) : Server.ServerContext :=
  {| Server.config :=
       {| Server.tier_models := defaultTierModels;
          Server.budget :=
            Some {| Server.monthly_limit_usd := Q2Qc (inject_Z 10);
                    Server.alert_thresholds :=
                      [CostTracker.mkThreshold (Q2Qc (inject_Z 100)) "block_high_tier"] |} |};
     Server.state := {| Server.currentTier := tier; Server.strategy := s;
                        Server.autoMode := true; Server.useEmojis := true |};
     Server.costTracker := overBudgetLedger;
     Server.memoryTracker := Memory.create 100 10 sampleUUID "2026-01-01T00:00:00.000Z";
     Server.ruleEngine := RuleEngine.mkEngine (Some defaultRules) s [] |}.

Definition januaryEnv : Server.Env :=
  {| Server.nowMs := 10000000;
     Server.nowIso := "2026-01-05T11:00:00.000Z";
     Server.monthKey := "2026-01";
     Server.uuid := fun _ _ => sampleUUID |}.

(** The same dispatcher without any budget section in its configuration. *)
Definition unbudgetedContext : Server.ServerContext :=
  {| Server.config := {| Server.tier_models := defaultTierModels; Server.budget := None |};
     Server.state := Server.state (blockedContext TwoTier "primary");
     Server.costTracker := overBudgetLedger;
     Server.memoryTracker := Server.memoryTracker (blockedContext TwoTier "primary");
     Server.ruleEngine := Server.ruleEngine (blockedContext TwoTier "primary") |}.

(** Three recordings into a tracker that keeps two entries and one session. *)
Definition threeCalls : list TaskCall :=
  [ mkTaskCall (fun _ => sampleUUID) "2026-01-05T10:00:00.000Z" "fix the login bug" "tier1"
      false None;
    mkTaskCall (fun _ => sampleUUID) "2026-01-05T10:05:00.000Z" "fix the login bug" "tier2"
      true None;
    mkTaskCall (fun _ => sampleUUID) "2026-01-05T10:10:00.000Z" "add a unit test" "tier2"
      true None ].

(** A session in which two tiers served bug fixes equally often. *)
Definition tiedSession : Memory.ConversationMemory :=
  {| Memory.session_id := "session-1";
     Memory.entries :=
       [ Memory.mkEntry "t1" "bugfix" "tier2" true None;
         Memory.mkEntry "t2" "bugfix" "tier1" true None;
         Memory.mkEntry "t3" "bugfix" "tier3" false None;
         Memory.mkEntry "t4" "design" "tier3" true None;
         Memory.mkEntry "t5" "bugfix" "tier1" true None;
         Memory.mkEntry "t6" "bugfix" "tier2" true None ];
     Memory.created_at := "t0";
     Memory.last_updated := "t6" |}.

Definition tiedMemory : Memory.t :=
  {| Memory.data :=
       {| Memory.sessions := [tiedSession];
          Memory.current_session_id := Some "session-1" |};
     Memory.maxEntriesPerSession := 100;
     Memory.maxSessions := 10 |}.

(** The categories [extractPattern] can return, and the words it looks for. *)
Definition categories : list string := "general" :: (Memory.patternTable.*2).

Definition triggerWords : list string := concat (Memory.patternTable.*1).

(** A session that already holds successful design work on tier3. *)
Definition designSession : Memory.ConversationMemory :=
  {| Memory.session_id := "session-1";
     Memory.entries :=
       [ Memory.mkEntry "t1" "design" "tier3" true None;
         Memory.mkEntry "t2" "bugfix" "tier2" false None ];
     Memory.created_at := "t0";
     Memory.last_updated := "t2" |}.

Definition designMemory : Memory.t :=
  {| Memory.data :=
       {| Memory.sessions := [designSession];
          Memory.current_session_id := Some "session-1" |};
     Memory.maxEntriesPerSession := 100;
     Memory.maxSessions := 10 |}.

(** An entry as the dispatcher writes it: its category is one of
    [extractPattern]'s and its tier one of the five labels. *)
Definition plainEntry (e : Memory.MemoryEntry) : Prop :=
  Memory.task_pattern e ∈ categories /\ Memory.tier_used e ∈ allTiers.

Definition otherUUID : JS.UUID := JS.mkUUID "b"%char "7d2a001-0000-4000-8000-000000000002".

(** The context after a series of tool calls, each made under its own clock
    and identifiers. *)
Fixpoint runCalls (fuel : nat) (calls : list (Server.Env * Server.ToolCall))
  (ctx : Server.ServerContext) : option Server.ServerContext :=
  match calls with
  | [] => Some ctx
  | (env, call) :: rest =>
      '(_, ctx') ← Server.handleToolCall fuel env call ctx;
      runCalls fuel rest ctx'
  end.

(** The dispatcher and its rule engine agree on the strategy, and the
    current tier is one of the strategy's tiers. *)
Definition coherent (ctx : Server.ServerContext) : Prop :=
  Server.strategy (Server.state ctx) = RuleEngine.strategy (Server.ruleEngine ctx)
  /\ Server.currentTier (Server.state ctx)
     ∈ RuleEngine.getAvailableTiers (Server.strategy (Server.state ctx)).

(** Under either strategy the keyword rules name tiers of that strategy. *)
Definition wellTargeted (rules : option RuleEngine.RulesConfig) : Prop :=
  forall cfg s, rules = Some cfg -> targetsWithin s cfg.

(** What every context reached by tool calls satisfies. *)
Definition serving (rules : option RuleEngine.RulesConfig) (ledger : CostTracker.UsageData)
  (ctx : Server.ServerContext) : Prop :=
  (wellTargeted rules -> coherent ctx)
  /\ RuleEngine.config (Server.ruleEngine ctx) = rules
  /\ RuleEngine.errorWindow (Server.ruleEngine ctx) = []
  /\ Server.costTracker ctx = ledger
  /\ (1 ≤ Memory.maxSessions (Server.memoryTracker ctx))%nat.

(** Whether the character [c] occurs in [s], and the pieces of a split put
    together again. *)
Fixpoint hasChar (c : ascii) (s : string) : bool :=
  match s with
  | EmptyString => false
  | String c' s' => Ascii.eqb c' c || hasChar c s'
  end.

Fixpoint joinWith (sep : ascii) (pieces : list string) : string :=
  match pieces with
  | [] => EmptyString
  | [piece] => piece
  | piece :: rest => piece +:+ String sep (joinWith sep rest)
  end.

(** A provider or model name as [parseModelRef] accepts it: not empty and
    free of colons. *)
Definition plainName (s : string) : Prop :=
  s <> EmptyString /\ hasChar Loader.colon s = false.

(** The provider table of [getDefaultConfig] ([config/loader.ts]). *)
Definition anthropicConfig : Provider.ProviderConfig :=
  {| Provider.base_url := None;
     Provider.api_key_env := "ANTHROPIC_API_KEY";
     Provider.models :=
       <["haiku" := Provider.mkModelConfig "claude-3-haiku-20240307"
                      (Q2Qc (25 # 100)) (Q2Qc (125 # 100)) 4096 200000]>
         (<["sonnet" := Provider.mkModelConfig "claude-sonnet-4-20250514"
                          (Q2Qc (inject_Z 3)) (Q2Qc (inject_Z 15)) 8192 200000]>
            (<["opus" := Provider.mkModelConfig "claude-opus-4-5-20251101"
                           (Q2Qc (inject_Z 15)) (Q2Qc (inject_Z 75)) 8192 200000]> ∅)) |}.

Definition defaultProviders : gmap string Provider.ProviderConfig :=
  <["anthropic" := anthropicConfig]> ∅.

(** Calls used below: an architecture task, the same with switching
    declined, and a usage record of 10.50 USD. *)
Definition architectureArgs : Server.OrchestrateArgs :=
  Server.mkArgs "design the system architecture" None None.

Definition adviceArgs : Server.OrchestrateArgs :=
  Server.mkArgs "design the system architecture" None (Some false).

Definition opusParams : CostTracker.Params :=
  CostTracker.mkParams "anthropic" "opus" "critical" 1000 2000 (Q2Qc (1050 # 100)) None.

Definition sampleCalls : list (Server.Env * Server.ToolCall) :=
  [ (januaryEnv, Server.OrchestrateCall architectureArgs);
    (januaryEnv, Server.SetAutoModeCall true (Some ThreeTier));
    (januaryEnv, Server.SwitchTierCall "tier2" None);
    (januaryEnv, Server.SetBudgetCall (Q2Qc (inject_Z 5)) None);
    (januaryEnv, Server.GetStatusCall) ].

(** ** Vocabulary of the recommendation

    The notions of the specification, stated on the data alone. *)

(** [s] is the session the tracker designates as current: the first
    retained session that carries the identifier kept in
    [current_session_id]. *)
Inductive designatedSession (m : Memory.t) (s : Memory.ConversationMemory) : Prop :=
| designated (id : string) (pre post : list Memory.ConversationMemory) :
    Memory.current_session_id (Memory.data m) = Some id ->
    id <> EmptyString ->
    Memory.sessions (Memory.data m) = pre ++ s :: post ->
    Memory.session_id s = id ->
    Forall (fun s' => Memory.session_id s' <> id) pre ->
    designatedSession m s.

(** The tiers of the entries that succeeded and have category [category],
    in entry order. *)
Fixpoint successfulTiers (category : string) (es : list Memory.MemoryEntry) : list string :=
  match es with
  | [] => []
  | e :: es' =>
      if Memory.success e
      then if decide (Memory.task_pattern e = category)
           then Memory.tier_used e :: successfulTiers category es'
           else successfulTiers category es'
      else successfulTiers category es'
  end.

(** A name that an object neither enumerates as an array index nor
    inherits: the five tier labels are such names. *)
Definition ordinaryKey (k : string) : Prop :=
  JS.isArrayIndex k = false /\ JS.inheritedMember k = false.

(** The comparator of the counts, on numbers alone, and a numeric count as
    the object holds it. *)
Definition byTally (a b : string * nat) : bool := (snd a <? snd b)%nat.

Definition numbered (kv : string * nat) : string * Memory.Count :=
  (fst kv, Memory.Number (snd kv)).

(** A session in which the tiers named "2" and "1", in this order, each
    served one bug fix. *)
Definition numeralSession : Memory.ConversationMemory :=
  {| Memory.session_id := "session-1";
     Memory.entries :=
       [ Memory.mkEntry "t1" "bugfix" "2" true None;
         Memory.mkEntry "t2" "bugfix" "1" true None ];
     Memory.created_at := "t0";
     Memory.last_updated := "t2" |}.

Definition numeralMemory : Memory.t :=
  {| Memory.data :=
       {| Memory.sessions := [numeralSession];
          Memory.current_session_id := Some "session-1" |};
     Memory.maxEntriesPerSession := 100;
     Memory.maxSessions := 10 |}.

(** ** Vocabulary of the ledger in binary64 *)

(** One call of [record]: the two clock readings, the outcome of the write
    to disk, and the parameters. *)
Record Recording := mkRecording {
  rec_iso : string;
  rec_date : CostTracker64.Date;
  rec_saved : bool;
  rec_params : CostTracker64.Params
}.

(** The ledger after a sequence of [record] calls. *)
Definition recordEach (cs : list Recording) (d : CostTracker64.UsageData)
  : CostTracker64.UsageData :=
  fold_left
    (fun d c => fst (CostTracker64.record (rec_iso c) (rec_date c) (rec_saved c) d
                       (rec_params c)))
    cs d.

(** The [UsageRecord] a call appends. *)
Definition recordingOf (c : Recording) : CostTracker64.UsageRecord :=
  {| CostTracker64.timestamp := rec_iso c;
     CostTracker64.provider := CostTracker64.p_provider (rec_params c);
     CostTracker64.model := CostTracker64.p_model (rec_params c);
     CostTracker64.tier := CostTracker64.p_tier (rec_params c);
     CostTracker64.input_tokens := CostTracker64.p_input_tokens (rec_params c);
     CostTracker64.output_tokens := CostTracker64.p_output_tokens (rec_params c);
     CostTracker64.cost_usd := CostTracker64.p_cost_usd (rec_params c);
     CostTracker64.task_summary := CostTracker64.p_task_summary (rec_params c) |}.

(** The sum of a list of amounts as a loop accumulates it: from 0, one
    binary64 addition per amount, in list order. *)
Definition floatSum (l : list float) : float := fold_left PrimFloat.add l 0%float.

Definition costOf (c : Recording) : float := CostTracker64.p_cost_usd (rec_params c).

Definition tokensOf (c : Recording) : Z :=
  CostTracker64.p_input_tokens (rec_params c) + CostTracker64.p_output_tokens (rec_params c).

Definition tokenTotal (cs : list Recording) : Z :=
  foldr (fun c acc => tokensOf c + acc) 0 cs.

Definition tierOf (c : Recording) : string := CostTracker64.p_tier (rec_params c).

Definition modelKeyOf (c : Recording) : string :=
  CostTracker64.p_provider (rec_params c) +:+ ":" +:+ CostTracker64.p_model (rec_params c).

(** Two clock readings of one calendar month. *)
Definition sameMonth (p q : CostTracker64.Date) : bool :=
  Z.eqb (CostTracker64.getFullYear p) (CostTracker64.getFullYear q)
  && Nat.eqb (CostTracker64.getMonth p) (CostTracker64.getMonth q).

(** The calls made in the calendar month of [p]; the calls on tier [t]; the
    calls booked under the model key [key]. *)
Definition callsOf (p : CostTracker64.Date) (cs : list Recording) : list Recording :=
  List.filter (fun c => sameMonth p (rec_date c)) cs.

Definition onTier (t : string) (cs : list Recording) : list Recording :=
  List.filter (fun c => String.eqb (tierOf c) t) cs.

Definition onModel (key : string) (cs : list Recording) : list Recording :=
  List.filter (fun c => String.eqb (modelKeyOf c) key) cs.

(** The calendar months of the calls [cs], in the order of their first call. *)
Definition months (cs : list Recording) : list CostTracker64.Date :=
  fold_left
    (fun acc c =>
       if existsb (fun p => sameMonth p (rec_date c)) acc then acc
       else acc ++ [rec_date c])
    cs [].

(** The same selections by the key of the period, as the ledger makes them:
    the calls whose month key is [k]; those served by tier [t]; those booked
    under the model key [key]. *)
Definition inPeriod (k : string) (c : Recording) : bool :=
  String.eqb (CostTracker64.getMonthKey (rec_date c)) k.

Definition servedBy (k t : string) (c : Recording) : bool :=
  inPeriod k c && String.eqb (tierOf c) t.

Definition bookedUnder (k key : string) (c : Recording) : bool :=
  inPeriod k c && String.eqb (modelKeyOf c) key.

(** The calls of period [k] whose tier is a key the breakdown can own. *)
Definition bookable (k : string) (c : Recording) : bool :=
  inPeriod k c && negb (JS.inheritedMember (tierOf c)).

(** The usage the calls [cs] add up to, each counted once, in call order. *)
Definition usageOver (cs : list Recording) : option CostTracker64.Usage :=
  match cs with
  | [] => None
  | _ => Some {| CostTracker64.cost := floatSum (costOf <$> cs);
                 CostTracker64.tokens := tokenTotal cs |}
  end.

(** The tokens, and the costs, of a breakdown added up. *)
Definition tokenSum (m : list (string * CostTracker64.Usage)) : Z :=
  foldr (fun kv acc => CostTracker64.tokens (snd kv) + acc) 0 m.

Definition costSum (m : list (string * CostTracker64.Usage)) : float :=
  floatSum (CostTracker64.cost <$> (JS.objectEntries m).*2).

(** What the totals of period [k] are after the calls [cs]. *)
Definition reflects (k : string) (cs : list Recording)
  (mu : CostTracker64.MonthlyUsage) : Prop :=
  CostTracker64.total_cost mu = floatSum (costOf <$> List.filter (inPeriod k) cs)
  /\ CostTracker64.total_tokens mu = tokenTotal (List.filter (inPeriod k) cs)
  /\ (forall t, JS.inheritedMember t = false ->
                JS.dictGet (CostTracker64.by_tier mu) t
                = usageOver (List.filter (servedBy k t) cs))
  /\ (forall t, JS.inheritedMember t = true ->
                JS.dictGet (CostTracker64.by_tier mu) t = None)
  /\ tokenSum (CostTracker64.by_tier mu) = tokenTotal (List.filter (bookable k) cs)
  /\ (forall key, JS.dictGet (CostTracker64.by_model mu) key
                  = usageOver (List.filter (bookedUnder k key) cs))
  /\ tokenSum (CostTracker64.by_model mu) = CostTracker64.total_tokens mu.

(** Three calls in January 2026: 0.1 USD on tier1, then 0.2 USD and 0.3 USD
    on tier2; and the same calls with the first one made in December. *)
Definition january : CostTracker64.Date := CostTracker64.mkDate 2026 0.
Definition december : CostTracker64.Date := CostTracker64.mkDate 2025 11.

Definition spend (date : CostTracker64.Date) (tier : string) (usd : float) : Recording :=
  {| rec_iso := "2026-01-05T10:00:00.000Z"; rec_date := date; rec_saved := true;
     rec_params := CostTracker64.mkParams "anthropic" "sonnet" tier 1000 500 usd None |}.

Definition threeSpends : list Recording :=
  [spend january "tier1" 0.1; spend january "tier2" 0.2; spend january "tier2" 0.3]%float.

Definition spendsOverNewYear : list Recording :=
  [spend december "tier1" 0.1; spend january "tier2" 0.2; spend january "tier2" 0.3]%float.

(** One call in January on a tier named like a member every object
    inherits. *)
Definition inheritedSpend : list Recording := [spend january "constructor" 0.1%float].

(** Reading a decimal numeral back. *)
Definition readZ (s : string) : option Z := Z.of_int <$> NilZero.int_of_string s.

(** * Properties *)

(** Closed statements about concrete inputs are settled by evaluation. *)
Ltac by_computation := vm_compute; reflexivity.

(** ** The stable sort *)

Section SortFacts.
Context {A : Type} (after : A -> A -> bool).

Lemma insertSorted_perm (x : A) (l : list A) :
  JS.insertSorted after x l ≡ₚ x :: l.
Proof.
  induction l as [|y l IH]; simpl; [done|].
  destruct (after x y); [|done].
  rewrite IH. apply Permutation_swap.
Qed.

Lemma sort_perm (l : list A) : JS.sort after l ≡ₚ l.
Proof.
  induction l as [|x l IH]; simpl; [done|].
  rewrite insertSorted_perm. by rewrite IH.
Qed.

Lemma sort_nil_inv (l : list A) : JS.sort after l = [] -> l = [].
Proof.
  intros H. apply Permutation_nil. rewrite <- H. apply sort_perm.
Qed.

Lemma head_sort_elem (l : list A) (x : A) :
  head (JS.sort after l) = Some x -> x ∈ l.
Proof.
  intros H. rewrite <- (sort_perm l).
  destruct (JS.sort after l); simplify_eq/=. apply list_elem_of_here.
Qed.

Lemma head_sort_is_Some (l : list A) : l <> [] -> is_Some (head (JS.sort after l)).
Proof.
  intros Hl. destruct (JS.sort after l) eqn:E; [|by eexists].
  by apply sort_nil_inv in E.
Qed.

(** An element that the comparator places before everything that precedes
    it in the array ends up first. *)
Lemma head_sort_snoc (l : list A) (x : A) :
  (forall y, y ∈ l -> after y x = true) ->
  head (JS.sort after (l ++ [x])) = Some x.
Proof.
  induction l as [|a l IH]; intros Hl; [done|].
  simpl. specialize (IH (fun y Hy => Hl y (list_elem_of_further _ _ _ Hy))).
  destruct (JS.sort after (l ++ [x])) as [|z rest] eqn:E; simplify_eq/=.
  by rewrite (Hl a (list_elem_of_here _ _)).
Qed.

(** Sortedness, for a comparator that decides a total preorder [R]. *)
Section Sorted.
Variable R : A -> A -> Prop.
Hypothesis R_trans : forall a b c, R a b -> R b c -> R a c.
Hypothesis after_false : forall a b, after a b = false -> R a b.
Hypothesis after_true : forall a b, after a b = true -> R b a.

Lemma insertSorted_sorted (x : A) (l : list A) :
  StronglySorted R l -> StronglySorted R (JS.insertSorted after x l).
Proof.
  induction 1 as [|y l Hs IH Hy]; simpl.
  - repeat constructor.
  - destruct (after x y) eqn:E.
    + constructor; [done|].
      rewrite insertSorted_perm. constructor; [by apply after_true | done].
    + constructor; [by constructor|].
      constructor; [by apply after_false|].
      eapply Forall_impl; [exact Hy|].
      intros z Hz. eapply R_trans; [by apply after_false | done].
Qed.

Lemma sort_sorted (l : list A) : StronglySorted R (JS.sort after l).
Proof.
  induction l as [|x l IH]; simpl; [constructor|].
  by apply insertSorted_sorted.
Qed.
End Sorted.

(** The first element of the sorted array, for a comparator that compares
    integer keys in descending order: it is the first element of the
    original array whose key is maximal. *)
Section HeadByKey.
Variable key : A -> Z.
Hypothesis after_key : forall a b, after a b = (key a <? key b).

Lemma head_sort_first_max (l : list A) (m : A) :
  head (JS.sort after l) = Some m ->
  exists pre post,
    l = pre ++ m :: post /\
    (forall y, y ∈ pre -> key y < key m) /\
    (forall y, y ∈ post -> key y <= key m).
Proof.
  revert m. induction l as [|a l IH]; intros m; [done|].
  simpl. destruct (JS.sort after l) as [|y rest] eqn:E.
  - apply sort_nil_inv in E as ->. intros [= <-].
    exists [], []. split_and!; [done| |]; intros ? ?%elem_of_nil; done.
  - destruct (IH y eq_refl) as (pre & post & -> & Hpre & Hpost).
    simpl. rewrite after_key. destruct (key a <? key y) eqn:Ek.
    + intros [= <-]. apply Z.ltb_lt in Ek.
      exists (a :: pre), post. split_and!; [done| |done].
      intros z [->|Hz]%elem_of_cons; [done|by apply Hpre].
    + intros [= <-]. apply Z.ltb_ge in Ek.
      exists [], (pre ++ y :: post). split_and!; [done| |].
      * intros ? ?%elem_of_nil; done.
      * intros z [Hz|[->|Hz]%elem_of_cons]%elem_of_app.
        -- specialize (Hpre z Hz). lia.
        -- done.
        -- specialize (Hpost z Hz). lia.
Qed.
End HeadByKey.
End SortFacts.

(** ** The rule engine *)

Section Classify.
Context {M : Type} `{IMemoryTracker M}.

Lemma isValidTier_elem (s : StrategyType) (tier : string) :
  RuleEngine.isValidTier s tier = true <-> tier ∈ RuleEngine.getAvailableTiers s.
Proof.
  unfold RuleEngine.isValidTier. rewrite existsb_exists. split.
  - intros (x & Hx%list_elem_of_In & ->%String.eqb_eq). done.
  - intros Hin. exists tier. split; [by apply list_elem_of_In | apply String.eqb_refl].
Qed.

Lemma getEscalatedTier_escalates (s : StrategyType) (tier next : string) :
  RuleEngine.getEscalatedTier s tier = Some next <-> escalates s tier next.
Proof.
  split.
  - destruct s; simpl; intros Hn.
    + destruct (String.eqb_spec tier "primary"); simplify_eq. constructor.
    + destruct (String.eqb_spec tier "tier1"); simplify_eq; [constructor|].
      destruct (String.eqb_spec tier "tier2"); simplify_eq. constructor.
  - by destruct 1.
Qed.

Lemma getEscalatedTier_terminal (s : StrategyType) :
  RuleEngine.getEscalatedTier s (terminalTier s) = None.
Proof. by destruct s. Qed.

Lemma getEscalatedTier_valid (s : StrategyType) (tier next : string) :
  RuleEngine.getEscalatedTier s tier = Some next ->
  next ∈ RuleEngine.getAvailableTiers s.
Proof.
  intros Hn%getEscalatedTier_escalates. destruct Hn; simpl; set_solver.
Qed.

Lemma classifyTask_unfold (e : RuleEngine.t) (mem : option M) (now : Z)
  (task tier : string) (cfg : RuleEngine.RulesConfig) :
  RuleEngine.config e = Some cfg ->
  fst (RuleEngine.classifyTask e mem now task tier) =
  head (JS.sort RuleEngine.byPriorityDesc
          (RuleEngine.memoryStep (RuleEngine.strategy e) mem task
             (RuleEngine.costStep cfg (RuleEngine.strategy e) (JS.toLowerCase task)
                (fst (RuleEngine.escalationStep cfg (RuleEngine.strategy e) now tier
                        (RuleEngine.errorWindow e)
                        (RuleEngine.keywordMatches (RuleEngine.strategy e)
                           (JS.toLowerCase task) (RuleEngine.keyword_rules cfg))))))).
Proof.
  intros Hcfg. unfold RuleEngine.classifyTask. rewrite Hcfg.
  by destruct (RuleEngine.escalationStep _ _ _ _ _ _).
Qed.

Lemma escalationStep_idle cfg s now tier w ms :
  escalationFires cfg s now tier w = false ->
  fst (RuleEngine.escalationStep cfg s now tier w ms) = ms.
Proof.
  unfold escalationFires, RuleEngine.escalationStep.
  destruct (RuleEngine.enabled _); [|done].
  destruct (_ <=? _); [|done].
  destruct (RuleEngine.getEscalatedTier s tier) eqn:E; [|done].
  simpl. intros Hb. done.
Qed.

Lemma escalationStep_fires cfg s now tier w ms next :
  RuleEngine.enabled (RuleEngine.error_escalation cfg) = true ->
  RuleEngine.threshold (RuleEngine.error_escalation cfg)
    <= Z.of_nat (length (RuleEngine.cleanWindow (RuleEngine.error_escalation cfg) now w)) ->
  RuleEngine.getEscalatedTier s tier = Some next ->
  fst (RuleEngine.escalationStep cfg s now tier w ms) =
  ms ++ [RuleEngine.escalationMatch (RuleEngine.error_escalation cfg)
           (length (RuleEngine.cleanWindow (RuleEngine.error_escalation cfg) now w)) next].
Proof.
  intros He Ht Hn. unfold RuleEngine.escalationStep.
  rewrite He. apply Z.leb_le in Ht. by rewrite Ht, Hn.
Qed.

Lemma costStep_nil cfg s taskLower :
  RuleEngine.costStep cfg s taskLower [] =
  match costCandidate cfg s taskLower with Some c => [c] | None => [] end.
Proof.
  unfold RuleEngine.costStep, costCandidate.
  destruct (RuleEngine.cost_optimization cfg) as [co|]; [|done].
  destruct (RuleEngine.co_enabled co); [|done]. simpl.
  by destruct (RuleEngine.firstPattern _ _).
Qed.

Lemma costStep_nonempty cfg s taskLower ms :
  ms <> [] -> RuleEngine.costStep cfg s taskLower ms = ms.
Proof.
  intros Hms. unfold RuleEngine.costStep.
  destruct (RuleEngine.cost_optimization cfg) as [co|]; [|done].
  destruct ms; [done|]. simpl. by rewrite andb_false_r.
Qed.

Lemma memoryStep_nil s (mem : option M) task :
  RuleEngine.memoryStep s mem task [] =
  match memoryCandidate s mem task with Some c => [c] | None => [] end.
Proof.
  unfold RuleEngine.memoryStep, memoryCandidate. simpl.
  destruct mem as [m|]; [|done].
  destruct (getRecommendedTier m task) as [r|]; [|done].
  by destruct (JS.truthy r && RuleEngine.isValidTier s r).
Qed.

Lemma memoryStep_nonempty s (mem : option M) task ms :
  ms <> [] -> RuleEngine.memoryStep s mem task ms = ms.
Proof. intros Hms. unfold RuleEngine.memoryStep. by destruct ms. Qed.

(** C2 (amended): when no keyword rule matches and error escalation does not
    fire, the cost-optimization heuristic goes first: if it is switched on
    and a simple-task substring occurs in the task, [classifyTask] returns
    the cost-optimization match for the strategy's lowest tier, whatever the
    memory recommends; the memory is consulted only when the heuristic
    contributes nothing, and then its recommendation, if valid for the
    strategy, is returned. *)
Theorem classify_cost_heuristic_before_memory
  (e : RuleEngine.t) (mem : option M) (now : Z) (task tier : string)
  (cfg : RuleEngine.RulesConfig) :
  RuleEngine.config e = Some cfg ->
  RuleEngine.keywordMatches (RuleEngine.strategy e) (JS.toLowerCase task)
    (RuleEngine.keyword_rules cfg) = [] ->
  escalationFires cfg (RuleEngine.strategy e) now tier (RuleEngine.errorWindow e) = false ->
  fst (RuleEngine.classifyTask e mem now task tier) =
  match costCandidate cfg (RuleEngine.strategy e) (JS.toLowerCase task) with
  | Some c => Some c
  | None => memoryCandidate (RuleEngine.strategy e) mem task
  end.
Proof.
  intros Hcfg Hkw Hesc.
  rewrite (classifyTask_unfold _ _ _ _ _ _ Hcfg), Hkw.
  rewrite (escalationStep_idle _ _ _ _ _ _ Hesc), costStep_nil.
  destruct (costCandidate _ _ _) as [c|].
  - by rewrite memoryStep_nonempty.
  - rewrite memoryStep_nil. by destruct (memoryCandidate _ _ _).
Qed.

(** C3 (amended): with error escalation enabled and at least [threshold]
    error dates left in the rolling window, [classifyTask] returns the
    escalation match (priority 200) for exactly the next tier of the strict
    order primary -> critical, tier1 -> tier2 -> tier3, provided every
    keyword rule matching at the same time has a priority below 200; from
    the strategy's terminal tier escalation contributes nothing: the
    result is the one obtained with escalation switched off. *)
Theorem escalation_outranks_rules_below_200
  (e : RuleEngine.t) (mem : option M) (now : Z) (task tier : string)
  (cfg : RuleEngine.RulesConfig) :
  RuleEngine.config e = Some cfg ->
  RuleEngine.enabled (RuleEngine.error_escalation cfg) = true ->
  RuleEngine.threshold (RuleEngine.error_escalation cfg)
    <= Z.of_nat (errorCount cfg now (RuleEngine.errorWindow e)) ->
  (forall next,
     escalates (RuleEngine.strategy e) tier next ->
     Forall (fun m => priority m < 200)
       (RuleEngine.keywordMatches (RuleEngine.strategy e) (JS.toLowerCase task)
          (RuleEngine.keyword_rules cfg)) ->
     fst (RuleEngine.classifyTask e mem now task tier) =
     Some (RuleEngine.escalationMatch (RuleEngine.error_escalation cfg)
             (errorCount cfg now (RuleEngine.errorWindow e)) next))
  /\ (tier = terminalTier (RuleEngine.strategy e) ->
      fst (RuleEngine.classifyTask e mem now task tier) =
      fst (RuleEngine.classifyTask
             (RuleEngine.mkEngine (Some (withoutEscalation cfg))
                (RuleEngine.strategy e) (RuleEngine.errorWindow e))
             mem now task tier)).
Proof.
  intros Hcfg Hen Hth. split.
  - intros next Hnext%getEscalatedTier_escalates Hprio.
    rewrite (classifyTask_unfold _ _ _ _ _ _ Hcfg).
    rewrite (escalationStep_fires _ _ _ _ _ _ next Hen Hth Hnext).
    rewrite costStep_nonempty, memoryStep_nonempty by (by destruct (RuleEngine.keywordMatches _ _ _)).
    apply head_sort_snoc. intros y Hy.
    rewrite Forall_forall in Hprio. specialize (Hprio y Hy).
    unfold RuleEngine.byPriorityDesc. simpl. by apply Z.ltb_lt.
  - intros ->.
    rewrite (classifyTask_unfold _ _ _ _ _ _ Hcfg).
    rewrite (classifyTask_unfold (RuleEngine.mkEngine (Some (withoutEscalation cfg)) _ _)
               _ _ _ _ (withoutEscalation cfg) eq_refl).
    simpl. f_equal. f_equal. f_equal.
    unfold RuleEngine.escalationStep at 1. rewrite Hen.
    rewrite getEscalatedTier_terminal. by destruct (_ <=? _).
Qed.

(** C4 (amended): when every keyword rule that names a tier for the active
    strategy names one of that strategy's tiers, [classifyTask] returns
    either nothing or a match whose tier belongs to the strategy's tier
    set. *)
Theorem classify_tier_within_strategy
  (e : RuleEngine.t) (mem : option M) (now : Z) (task tier : string) (m : RuleMatch) :
  (forall cfg, RuleEngine.config e = Some cfg -> targetsWithin (RuleEngine.strategy e) cfg) ->
  fst (RuleEngine.classifyTask e mem now task tier) = Some m ->
  target_tier m ∈ RuleEngine.getAvailableTiers (RuleEngine.strategy e).
Proof.
  intros Hwt. destruct (RuleEngine.config e) as [cfg|] eqn:Hcfg;
    [|by unfold RuleEngine.classifyTask; rewrite Hcfg].
  specialize (Hwt cfg eq_refl).
  rewrite (classifyTask_unfold _ _ _ _ _ _ Hcfg).
  intros Hm%head_sort_elem. revert m Hm. apply Forall_forall.
  set (s := RuleEngine.strategy e) in *.
  assert (Hkw : Forall (fun m => target_tier m ∈ RuleEngine.getAvailableTiers s)
                  (RuleEngine.keywordMatches s (JS.toLowerCase task)
                     (RuleEngine.keyword_rules cfg))).
  { apply Forall_forall. intros m (rule & Hrule & Hm)%list_elem_of_omap.
    unfold RuleEngine.keywordMatch in Hm.
    destruct (RuleEngine.firstPattern _ _); [|done].
    destruct (RuleEngine.rule_target_tier rule !! strategyName s) as [t|] eqn:Ht; [|done].
    destruct (JS.truthy t) eqn:Htr; [|done]. simplify_eq/=. by eapply Hwt. }
  assert (Hesc : Forall (fun m => target_tier m ∈ RuleEngine.getAvailableTiers s)
                   (fst (RuleEngine.escalationStep cfg s now tier (RuleEngine.errorWindow e)
                           (RuleEngine.keywordMatches s (JS.toLowerCase task)
                              (RuleEngine.keyword_rules cfg))))).
  { unfold RuleEngine.escalationStep.
    destruct (RuleEngine.enabled _); [|done].
    destruct (_ <=? _); [|done].
    destruct (RuleEngine.getEscalatedTier s tier) as [next|] eqn:Hn; [|done].
    simpl. apply Forall_app. split; [done|].
    constructor; [|constructor]. by eapply getEscalatedTier_valid. }
  revert Hesc. generalize (fst (RuleEngine.escalationStep cfg s now tier
    (RuleEngine.errorWindow e) (RuleEngine.keywordMatches s (JS.toLowerCase task)
    (RuleEngine.keyword_rules cfg)))). intros m2 Hm2.
  assert (Hcost : Forall (fun m => target_tier m ∈ RuleEngine.getAvailableTiers s)
                    (RuleEngine.costStep cfg s (JS.toLowerCase task) m2)).
  { unfold RuleEngine.costStep.
    destruct (RuleEngine.cost_optimization cfg) as [co|]; [|done].
    destruct (_ && _); [|done].
    destruct (RuleEngine.firstPattern _ _); [|done].
    apply Forall_app. split; [done|]. constructor; [|constructor].
    destruct s; simpl; set_solver. }
  revert Hcost. generalize (RuleEngine.costStep cfg s (JS.toLowerCase task) m2).
  intros m3 Hm3. unfold RuleEngine.memoryStep.
  destruct (_ =? _)%nat; [|done].
  destruct mem as [mm|]; [|done].
  destruct (getRecommendedTier mm task) as [r|]; [|done].
  destruct (JS.truthy r); [|done]. simpl.
  destruct (RuleEngine.isValidTier s r) eqn:Hv; [|done].
  apply Forall_app. split; [done|]. constructor; [|constructor].
  by apply isValidTier_elem.
Qed.
End Classify.

(** C2 (counterexample): with the default rules, the 2-tier strategy, the
    task "show status" and a memory recommending "critical" for it, no
    keyword rule matches, escalation does not fire, the cost heuristic
    matches and the memory has a valid recommendation; [classifyTask]
    returns the cost-optimization tier "primary", not "critical". *)
Lemma classify_memory_loses_to_cost_heuristic :
  RuleEngine.keywordMatches TwoTier (JS.toLowerCase "show status")
    (RuleEngine.keyword_rules defaultRules) = []
  /\ escalationFires defaultRules TwoTier 0 "primary" [] = false
  /\ costCandidate defaultRules TwoTier (JS.toLowerCase "show status")
     = Some (RuleEngine.costMatch TwoTier "show status")
  /\ Memory.getRecommendedTier (memoryWith "general" "critical") "show status"
     = Some "critical"
  /\ RuleEngine.isValidTier TwoTier "critical" = true
  /\ target_tier <$>
       fst (RuleEngine.classifyTask (RuleEngine.mkEngine (Some defaultRules) TwoTier [])
              (Some (memoryWith "general" "critical")) 0 "show status" "primary")
     = Some "primary".
Proof. split_and!; by_computation. Qed.

Lemma classify_cost_heuristic_before_memory_witness :
  fst (RuleEngine.classifyTask (RuleEngine.mkEngine (Some defaultRules) TwoTier [])
         (Some (memoryWith "general" "critical")) 0 "show status" "primary")
  = Some (RuleEngine.costMatch TwoTier "show status").
Proof.
  rewrite (classify_cost_heuristic_before_memory
             (RuleEngine.mkEngine (Some defaultRules) TwoTier [])
             (Some (memoryWith "general" "critical")) 0 "show status" "primary"
             defaultRules);
    [ | reflexivity | vm_compute; reflexivity | vm_compute; reflexivity ].
  vm_compute; reflexivity.
Defined.


(** C3 (counterexample): strategy 3-tier, current tier tier1, three errors
    inside the window, and a matching keyword rule of priority 300: the
    keyword match for tier3 is returned, not the escalation to tier2. *)
Lemma escalation_loses_to_priority_300 :
  RuleEngine.enabled (RuleEngine.error_escalation auditRules) = true
  /\ (RuleEngine.threshold (RuleEngine.error_escalation auditRules)
      <=? Z.of_nat (errorCount auditRules 10000000 threeErrors)) = true
  /\ RuleEngine.getEscalatedTier ThreeTier "tier1" = Some "tier2"
  /\ ((fun m => (rule_name m, target_tier m, priority m)) <$>
        fst (RuleEngine.classifyTask (RuleEngine.mkEngine (Some auditRules) ThreeTier threeErrors)
               (None : option Memory.t) 10000000 "audit the payment flow" "tier1"))
     = Some ("audit_keywords", "tier3", 300).
Proof. split_and!; by_computation. Qed.

Lemma escalation_outranks_rules_below_200_witness :
  fst (RuleEngine.classifyTask (RuleEngine.mkEngine (Some defaultRules) ThreeTier threeErrors)
         (None : option Memory.t) 10000000 "Review this architecture" "tier1")
  = Some (RuleEngine.escalationMatch (RuleEngine.error_escalation defaultRules) 3 "tier2").
Proof.
  destruct (escalation_outranks_rules_below_200
              (RuleEngine.mkEngine (Some defaultRules) ThreeTier threeErrors)
              (None : option Memory.t) 10000000 "Review this architecture" "tier1"
              defaultRules eq_refl eq_refl) as [Hwin _].
  - vm_compute. discriminate.
  - apply (Hwin "tier2"); [constructor|].
    vm_compute. repeat constructor.
Defined.

(** C4 (counterexample): a keyword rule that maps the 2-tier strategy to
    "tier3" makes [classifyTask] return "tier3" under the 2-tier strategy,
    whose tiers are primary and critical. *)
Lemma classify_returns_foreign_tier :
  (target_tier <$>
     fst (RuleEngine.classifyTask (RuleEngine.mkEngine (Some crossedRules) TwoTier [])
            (None : option Memory.t) 0 "Review this architecture" "primary"))
  = Some "tier3"
  /\ RuleEngine.isValidTier TwoTier "tier3" = false
  /\ RuleEngine.getAvailableTiers TwoTier = ["primary"; "critical"].
Proof. split_and!; by_computation. Qed.

(** ** The usage ledger: status *)

Section Status.

Lemma Qc_leb_le (a b : Qc) : CostTracker.Qc_leb a b = true <-> (a ≤ b)%Qc.
Proof. unfold CostTracker.Qc_leb. apply bool_decide_eq_true. Qed.

Lemma Qc_ltb_lt (a b : Qc) : CostTracker.Qc_ltb a b = true <-> (a < b)%Qc.
Proof. unfold CostTracker.Qc_ltb. apply bool_decide_eq_true. Qed.

Lemma Qc_ltb_ge (a b : Qc) : CostTracker.Qc_ltb a b = false <-> (b ≤ a)%Qc.
Proof.
  unfold CostTracker.Qc_ltb. rewrite bool_decide_eq_false. symmetry. apply Qcle_ngt.
Qed.

Lemma roundTo_10_zero : CostTracker.roundTo 10 0%Qc = 0%Qc.
Proof. apply Qc_is_canon. vm_compute. reflexivity. Qed.

Lemma percentOf_positive (spent limit : Qc) :
  (0 < limit)%Qc ->
  CostTracker.percentOf spent limit = (spent / limit * Q2Qc (inject_Z 100))%Qc.
Proof.
  intros Hl. unfold CostTracker.percentOf.
  by rewrite (proj2 (Qc_ltb_lt _ _) Hl).
Qed.

Lemma percentOf_nonpositive (spent limit : Qc) :
  (limit ≤ 0)%Qc -> CostTracker.percentOf spent limit = 0%Qc.
Proof.
  intros Hl. unfold CostTracker.percentOf.
  by rewrite (proj2 (Qc_ltb_ge _ _) Hl).
Qed.

Lemma triggered_perm (pu : Qc) (ths : list CostTracker.Threshold) :
  CostTracker.triggered pu ths
  ≡ₚ List.filter (fun t => CostTracker.Qc_leb (CostTracker.percent t) pu) ths.
Proof. apply sort_perm. Qed.

Lemma triggered_elem (pu : Qc) (ths : list CostTracker.Threshold) t :
  t ∈ CostTracker.triggered pu ths <-> t ∈ ths /\ (CostTracker.percent t ≤ pu)%Qc.
Proof.
  rewrite triggered_perm, list_elem_of_In, filter_In, <- list_elem_of_In.
  by rewrite Qc_leb_le.
Qed.

Lemma triggered_sorted (pu : Qc) (ths : list CostTracker.Threshold) :
  StronglySorted (fun a b => (CostTracker.percent b ≤ CostTracker.percent a)%Qc)
    (CostTracker.triggered pu ths).
Proof.
  apply sort_sorted.
  - intros a b c Hab Hbc. by eapply Qcle_trans.
  - intros a b Hf. by apply Qc_ltb_ge.
  - intros a b Ht%Qc_ltb_lt. by apply Qclt_le_weak.
Qed.

(** C5 (amended): the status reports [percent_used] as spent / limit x 100
    rounded to one decimal place, and 0 when the limit is not positive;
    [triggered_alerts] holds exactly the thresholds in force (the
    configured list, or the single 80% notification when the budget
    carries none) whose percent is at most the unrounded percentage,
    sorted descending by percent; and [is_blocked] is true if and only if
    some triggered alert's action is "block_high_tier". *)
Theorem getStatus_budget_fields (monthKey : string) (d : CostTracker.UsageData)
  (budget : CostTracker.Budget) :
  CostTracker.percent_used (CostTracker.getStatus monthKey d budget)
    = CostTracker.roundTo 10 (exactPercent monthKey d budget)
  /\ ((0 < CostTracker.monthly_limit_usd budget)%Qc ->
      exactPercent monthKey d budget
      = (CostTracker.spentIn d monthKey / CostTracker.monthly_limit_usd budget
         * Q2Qc (inject_Z 100))%Qc)
  /\ ((CostTracker.monthly_limit_usd budget ≤ 0)%Qc ->
      CostTracker.percent_used (CostTracker.getStatus monthKey d budget) = 0%Qc)
  /\ CostTracker.triggered_alerts (CostTracker.getStatus monthKey d budget)
     ≡ₚ List.filter
          (fun t => CostTracker.Qc_leb (CostTracker.percent t) (exactPercent monthKey d budget))
          (thresholdsOf budget)
  /\ (forall t,
        t ∈ CostTracker.triggered_alerts (CostTracker.getStatus monthKey d budget)
        <-> t ∈ thresholdsOf budget
            /\ (CostTracker.percent t ≤ exactPercent monthKey d budget)%Qc)
  /\ StronglySorted (fun a b => (CostTracker.percent b ≤ CostTracker.percent a)%Qc)
       (CostTracker.triggered_alerts (CostTracker.getStatus monthKey d budget))
  /\ (CostTracker.is_blocked (CostTracker.getStatus monthKey d budget) = true
      <-> exists t,
            t ∈ CostTracker.triggered_alerts (CostTracker.getStatus monthKey d budget)
            /\ CostTracker.threshold_action t = "block_high_tier").
Proof.
  unfold exactPercent, thresholdsOf. simpl. split_and!.
  - done.
  - apply percentOf_positive.
  - intros Hl. rewrite percentOf_nonpositive by done. apply roundTo_10_zero.
  - apply triggered_perm.
  - apply triggered_elem.
  - apply triggered_sorted.
  - rewrite existsb_exists. split.
    + intros (t & Hin%list_elem_of_In & Hb). exists t. split; [done|].
      unfold CostTracker.blocking in Hb. apply andb_true_iff in Hb as [Ha _].
      by apply String.eqb_eq.
    + intros (t & Hin & Hact). exists t. split; [by apply list_elem_of_In|].
      unfold CostTracker.blocking. rewrite Hact. simpl.
      apply triggered_elem in Hin as [_ Hle]. by apply Qc_leb_le.
Qed.

(** C5 (counterexample): 99.96 USD spent against a limit of 100 USD with a
    blocking threshold at 100%.  The status reports [percent_used] = 100,
    strictly above spent / limit x 100 = 99.96; the 100% threshold is at
    most the reported [percent_used], yet it is not among the triggered
    alerts and the status is not blocked. *)
Lemma getStatus_percent_used_is_rounded :
  CostTracker.spentIn januaryLedger "2026-01" = Q2Qc (9996 # 100)
  /\ CostTracker.percent_used (CostTracker.getStatus "2026-01" januaryLedger blockAt100)
     = Q2Qc (inject_Z 100)
  /\ (CostTracker.spentIn januaryLedger "2026-01"
      / CostTracker.monthly_limit_usd blockAt100 * Q2Qc (inject_Z 100))%Qc
     = Q2Qc (9996 # 100)
  /\ CostTracker.Qc_ltb (Q2Qc (9996 # 100)) (Q2Qc (inject_Z 100)) = true
  /\ CostTracker.Qc_leb (Q2Qc (inject_Z 100))
       (CostTracker.percent_used (CostTracker.getStatus "2026-01" januaryLedger blockAt100))
     = true
  /\ CostTracker.triggered_alerts (CostTracker.getStatus "2026-01" januaryLedger blockAt100)
     = []
  /\ CostTracker.is_blocked (CostTracker.getStatus "2026-01" januaryLedger blockAt100)
     = false.
Proof.
  split_and!.
  - apply Qc_is_canon. vm_compute. reflexivity.
  - apply Qc_is_canon. vm_compute. reflexivity.
  - apply Qc_is_canon. vm_compute. reflexivity.
  - vm_compute. reflexivity.
  - vm_compute. reflexivity.
  - vm_compute. reflexivity.
  - vm_compute. reflexivity.
Qed.
End Status.

(** ** The usage ledger: recording *)

Section Recording.

Lemma recordAll_snoc cs c d :
  recordAll (cs ++ [c]) d =
  fst (CostTracker.record (call_iso c) (call_month c) (call_saved c) (recordAll cs d)
         (call_params c)).
Proof. unfold recordAll. by rewrite fold_left_app. Qed.

End Recording.

(** ** The conversation memory: capacity *)

Section Capacity.
Local Open Scope nat_scope.

Lemma shiftWhileOver_lastN {A} (bound : nat) (l : list A) :
  JS.shiftWhileOver bound l = lastN bound l.
Proof.
  unfold lastN. induction l as [|x l IH]; [done|].
  cbn [JS.shiftWhileOver]. destruct (Nat.ltb_spec bound (length (x :: l))) as [Hlt|Hge].
  - rewrite IH. simpl in *. replace (S (length l) - bound) with (S (length l - bound)) by lia.
    done.
  - simpl in *. by replace (S (length l) - bound) with 0 by lia.
Qed.

Lemma lastN_length {A} (n : nat) (l : list A) : length (lastN n l) ≤ n.
Proof. unfold lastN. rewrite length_drop. lia. Qed.

Lemma lastN_short {A} (n : nat) (l : list A) : length l ≤ n -> lastN n l = l.
Proof. intros Hl. unfold lastN. by replace (length l - n) with 0 by lia. Qed.

Lemma lastN_app_lastN {A} (n : nat) (l k : list A) :
  lastN n (lastN n l ++ k) = lastN n (l ++ k).
Proof.
  unfold lastN. rewrite !length_app, length_drop.
  destruct (Nat.le_gt_cases (length l) n) as [Hle|Hgt].
  - replace (length l - n) with 0 by lia. by rewrite Nat.sub_0_r.
  - replace (length l - (length l - n)) with n by lia.
    destruct (Nat.le_gt_cases (length k) n) as [Hk|Hk].
    + rewrite drop_app_le by (rewrite length_drop; lia).
      rewrite drop_drop.
      rewrite (drop_app_le l) by lia. do 2 f_equal. lia.
    + rewrite drop_app_ge by (rewrite length_drop; lia).
      rewrite length_drop.
      rewrite (drop_app_ge l) by lia. f_equal. lia.
Qed.

Lemma lastN_snoc_elem {A} (n : nat) (l : list A) (x : A) :
  1 ≤ n -> x ∈ lastN n (l ++ [x]).
Proof.
  intros Hn. unfold lastN. rewrite length_app. simpl.
  rewrite drop_app_le by lia. apply elem_of_app. right. apply list_elem_of_here.
Qed.

Lemma startNewSession_sessions (id : JS.UUID) (now : string) (m : Memory.t) :
  Memory.sessions (Memory.data (snd (Memory.startNewSession id now m)))
  = lastN (Memory.maxSessions m)
      (Memory.sessions (Memory.data m) ++ [Memory.newSession (JS.uuidString id) now]).
Proof. simpl. apply shiftWhileOver_lastN. Qed.

Lemma startNewSession_current (id : JS.UUID) (now : string) (m : Memory.t) :
  1 ≤ Memory.maxSessions m ->
  is_Some (Memory.getCurrentSession (snd (Memory.startNewSession id now m))).
Proof.
  intros Hs. unfold Memory.getCurrentSession. simpl.
  apply (list_find_elem_of _ _ (Memory.newSession (JS.uuidString id) now)); [|done].
  rewrite shiftWhileOver_lastN. by apply lastN_snoc_elem.
Qed.

Lemma getCurrentSession_lookup (m : Memory.t) i s :
  Memory.getCurrentSession m = Some (i, s) ->
  Memory.sessions (Memory.data m) !! i = Some s.
Proof.
  unfold Memory.getCurrentSession.
  destruct (Memory.current_session_id _) as [id|]; [|done].
  destruct (JS.truthy id); [|done]. by intros (? & _)%list_find_Some.
Qed.

(** A call that finds a current session pushes onto it, in place. *)
Lemma recordTask_found fuel uuid now m task tier ok ctx i s :
  Memory.getCurrentSession m = Some (i, s) ->
  Memory.recordTask (S fuel) uuid now m task tier ok ctx
  = Some (Memory.withData m
            {| Memory.sessions :=
                 <[i := Memory.pushEntry (Memory.maxEntriesPerSession m)
                          (Memory.makeEntry now task tier ok ctx) s]>
                   (Memory.sessions (Memory.data m));
               Memory.current_session_id := Memory.current_session_id (Memory.data m) |}).
Proof. intros Hc. simpl. by rewrite Hc. Qed.

Lemma getCurrentSession_pushed m i s e :
  Memory.getCurrentSession m = Some (i, s) ->
  Memory.getCurrentSession
    (Memory.withData m
       {| Memory.sessions :=
            <[i := Memory.pushEntry (Memory.maxEntriesPerSession m) e s]>
              (Memory.sessions (Memory.data m));
          Memory.current_session_id := Memory.current_session_id (Memory.data m) |})
  = Some (i, Memory.pushEntry (Memory.maxEntriesPerSession m) e s).
Proof.
  unfold Memory.getCurrentSession. simpl.
  destruct (Memory.current_session_id _) as [id|]; [|done].
  destruct (JS.truthy id); [|done].
  intros (Hi & Hid & Hfirst)%list_find_Some. apply list_find_Some. split_and!.
  - apply list_lookup_insert_eq. by eapply lookup_lt_Some.
  - done.
  - intros j y Hj Hlt. rewrite list_lookup_insert_ne in Hj by lia. by eapply Hfirst.
Qed.

Lemma recordTask_keeps_capacity maxE maxS fuel uuid now m task tier ok ctx :
  withinCapacity maxE maxS m ->
  exists m',
    Memory.recordTask (S fuel) uuid now m task tier ok ctx = Some m'
    /\ withinCapacity maxE maxS m'
    /\ currentEntries m'
       = lastN maxE (currentEntries m ++ [Memory.makeEntry now task tier ok ctx]).
Proof.
  intros (HE & HS & Hlen & Hall & [[i s] Hc]).
  eexists. split; [by apply recordTask_found|].
  pose proof (getCurrentSession_pushed m i s (Memory.makeEntry now task tier ok ctx) Hc)
    as Hc'.
  split.
  - split_and!; simpl; try done.
    + by rewrite length_insert.
    + apply Forall_insert; [done|]. simpl. rewrite shiftWhileOver_lastN, HE.
      apply lastN_length.
  - unfold currentEntries. rewrite Hc', Hc. simpl.
    by rewrite shiftWhileOver_lastN, HE.
Qed.

Lemma currentEntries_bounded maxE maxS m :
  withinCapacity maxE maxS m -> length (currentEntries m) ≤ maxE.
Proof.
  intros (_ & _ & _ & Hall & [[i s] Hc]). unfold currentEntries. rewrite Hc.
  apply getCurrentSession_lookup in Hc.
  rewrite Forall_forall in Hall. apply Hall. by eapply list_elem_of_lookup_2.
Qed.

Lemma startNewSession_keeps_capacity maxE maxS id now m :
  1 ≤ maxS ->
  Memory.maxEntriesPerSession m = maxE ->
  Memory.maxSessions m = maxS ->
  Forall (fun s => length (Memory.entries s) ≤ maxE) (Memory.sessions (Memory.data m)) ->
  withinCapacity maxE maxS (snd (Memory.startNewSession id now m)).
Proof.
  intros Hs HE HS Hall. split_and!; try done.
  - rewrite startNewSession_sessions, HS. apply lastN_length.
  - rewrite startNewSession_sessions. apply Forall_drop, Forall_app. split; [done|].
    constructor; [simpl; lia|constructor].
  - apply startNewSession_current. lia.
Qed.

Lemma create_within_capacity maxE maxS id now :
  1 ≤ maxS -> withinCapacity maxE maxS (Memory.create maxE maxS id now).
Proof. intros Hs. by apply startNewSession_keeps_capacity. Qed.

Lemma runOps_keeps_capacity maxE maxS fuel ops m :
  1 ≤ maxS ->
  withinCapacity maxE maxS m ->
  exists m', runOps (S fuel) ops m = Some m' /\ withinCapacity maxE maxS m'.
Proof.
  intros Hs. revert m. induction ops as [|[c|id now] ops IH]; intros m Hm.
  - by exists m.
  - destruct (recordTask_keeps_capacity maxE maxS fuel (tc_uuid c) (tc_now c) m
                (tc_task c) (tc_tier c) (tc_success c) (tc_context c) Hm)
      as (m1 & Hrun & Hm1 & _).
    cbn [runOps]. rewrite Hrun. simpl. by apply IH.
  - cbn [runOps]. apply IH. destruct Hm as (HE & HS & _ & Hall & _).
    by apply startNewSession_keeps_capacity.
Qed.

Lemma recordTasks_current maxE maxS fuel calls m :
  withinCapacity maxE maxS m ->
  exists m',
    runOps (S fuel) (OpRecordTask <$> calls) m = Some m'
    /\ withinCapacity maxE maxS m'
    /\ currentEntries m' = lastN maxE (currentEntries m ++ (entryOf <$> calls)).
Proof.
  revert m. induction calls as [|c calls IH]; intros m Hm.
  - exists m. split_and!; [done..|]. rewrite app_nil_r.
    symmetry. apply lastN_short. by eapply currentEntries_bounded.
  - destruct (recordTask_keeps_capacity maxE maxS fuel (tc_uuid c) (tc_now c) m
                (tc_task c) (tc_tier c) (tc_success c) (tc_context c) Hm)
      as (m1 & Hrun & Hm1 & Hcur).
    destruct (IH m1 Hm1) as (m' & Hrun' & Hm' & Hcur').
    exists m'. split_and!; [|done|].
    + rewrite fmap_cons. cbn [runOps]. rewrite Hrun. exact Hrun'.
    + rewrite Hcur', Hcur, lastN_app_lastN, <- app_assoc. done.
Qed.

(** C7: with a session-capacity bound of at least one, every sequence of
    [recordTask] and [startNewSession] calls on a fresh tracker runs to
    completion, and afterwards the current session holds at most
    [maxEntriesPerSession] entries and at most [maxSessions] sessions are
    retained; a sequence of [recordTask] calls leaves in the current
    session exactly the last [maxEntriesPerSession] of the entries it had
    followed by the recorded ones, in recording order; and
    [startNewSession] retains exactly the last [maxSessions] of the old
    sessions followed by the new one. *)
Theorem memory_capacity_bounds (maxE maxS fuel : nat) (id0 : JS.UUID) (now0 : string) :
  1 ≤ maxS ->
  (forall ops, exists m,
     runOps (S fuel) ops (Memory.create maxE maxS id0 now0) = Some m
     /\ length (currentEntries m) ≤ maxE
     /\ length (Memory.sessions (Memory.data m)) ≤ maxS)
  /\ (forall ops calls, exists m0 m,
        runOps (S fuel) ops (Memory.create maxE maxS id0 now0) = Some m0
        /\ runOps (S fuel) (OpRecordTask <$> calls) m0 = Some m
        /\ currentEntries m = lastN maxE (currentEntries m0 ++ (entryOf <$> calls)))
  /\ (forall m id now,
        Memory.sessions (Memory.data (snd (Memory.startNewSession id now m)))
        = lastN (Memory.maxSessions m)
            (Memory.sessions (Memory.data m)
             ++ [Memory.newSession (JS.uuidString id) now])).
Proof.
  intros Hs. pose proof (create_within_capacity maxE maxS id0 now0 Hs) as Hc.
  split_and!.
  - intros ops.
    destruct (runOps_keeps_capacity maxE maxS fuel ops _ Hs Hc) as (m & Hrun & Hm).
    exists m. split_and!; [done| by eapply currentEntries_bounded |].
    by destruct Hm as (_ & _ & ? & _).
  - intros ops calls.
    destruct (runOps_keeps_capacity maxE maxS fuel ops _ Hs Hc) as (m0 & Hrun & Hm0).
    destruct (recordTasks_current maxE maxS fuel calls m0 Hm0) as (m & Hrun' & _ & Hcur).
    by exists m0, m.
  - intros m id now. apply startNewSession_sessions.
Qed.

(** Without room for a single session the method never returns: every
    activation starts a session that is pruned at once. *)
Lemma recordTask_diverges_without_sessions fuel uuid now maxE id0 now0 task tier ok ctx :
  Memory.recordTask fuel uuid now (Memory.create maxE 0 id0 now0) task tier ok ctx = None.
Proof.
  assert (Hgen : forall m,
            Memory.maxSessions m = 0 ->
            Memory.sessions (Memory.data m) = [] ->
            forall uuid, Memory.recordTask fuel uuid now m task tier ok ctx = None).
  { induction fuel as [|fuel IH]; intros m H0 Hnil u; [done|].
    assert (Hnone : Memory.getCurrentSession m = None).
    { unfold Memory.getCurrentSession. rewrite Hnil.
      destruct (Memory.current_session_id _) as [id|]; [|done]. by destruct (JS.truthy id). }
    simpl. rewrite Hnone. apply IH; [done|]. simpl. by rewrite H0, Hnil. }
  by apply Hgen.
Qed.
End Capacity.

(** ** Dictionaries in enumeration order *)

Section Dictionary.
Context {V : Type}.
Implicit Types o : list (string * V).

Lemma dictGet_dictSet o k v k' :
  JS.dictGet (JS.dictSet o k v) k' = if String.eqb k k' then Some v else JS.dictGet o k'.
Proof.
  induction o as [|[k0 v0] o IH]; simpl; [done|].
  destruct (String.eqb_spec k0 k) as [Hk|Hne]; simpl.
  - rewrite Hk. by destruct (String.eqb k k').
  - rewrite IH. destruct (String.eqb_spec k0 k') as [Hk'|Hne']; [|done].
    destruct (String.eqb_spec k k') as [Hkk|_]; [|done]. congruence.
Qed.

Lemma dictGet_None o k : JS.dictGet o k = None <-> k ∉ (o.*1).
Proof.
  induction o as [|[k0 v0] o IH]; simpl.
  - split; [intros _; apply not_elem_of_nil | done].
  - rewrite not_elem_of_cons. destruct (String.eqb_spec k0 k) as [->|Hne].
    + split; [done | by intros [? _]].
    + rewrite IH. split; [intros ?; split; [congruence|done] | by intros [_ ?]].
Qed.

Lemma dictGet_Some_elem o k v : JS.dictGet o k = Some v -> (k, v) ∈ o.
Proof.
  induction o as [|[k0 v0] o IH]; simpl; [done|].
  destruct (String.eqb_spec k0 k) as [->|Hne].
  - intros [= ->]. apply list_elem_of_here.
  - intros Hg. apply list_elem_of_further. by apply IH.
Qed.

Lemma elem_dictGet o k v : NoDup (o.*1) -> (k, v) ∈ o -> JS.dictGet o k = Some v.
Proof.
  induction o as [|[k0 v0] o IH]; simpl; [by intros _ ?%elem_of_nil|].
  intros [Hk0 Hnd]%NoDup_cons [[= -> ->]|Hin]%elem_of_cons.
  - by rewrite String.eqb_refl.
  - destruct (String.eqb_spec k0 k) as [->|Hne]; [|by apply IH].
    destruct Hk0. apply list_elem_of_fmap. by exists (k, v).
Qed.

Lemma keys_dictSet o k v :
  (JS.dictSet o k v).*1 = if JS.dictGet o k is Some _ then o.*1 else o.*1 ++ [k].
Proof.
  induction o as [|[k0 v0] o IH]; [done|].
  cbn [JS.dictSet JS.dictGet].
  destruct (String.eqb_spec k0 k) as [Hk|Hne]; [done|].
  rewrite !fmap_cons, IH. by destruct (JS.dictGet o k).
Qed.

Lemma objectEntries_plain o :
  Forall (fun k => JS.isArrayIndex k = false) (o.*1) -> JS.objectEntries o = o.
Proof.
  intros Hall. unfold JS.objectEntries.
  assert (Hidx : List.filter (fun kv : string * V => JS.isArrayIndex kv.1) o = []
                 /\ List.filter (fun kv : string * V => negb (JS.isArrayIndex kv.1)) o = o).
  { induction o as [|[k0 v0] o IH]; [done|].
    apply Forall_cons in Hall as [Hk0 Hall]. destruct (IH Hall) as [IH1 IH2].
    simpl in *. rewrite Hk0. simpl. by rewrite IH1, IH2. }
  destruct Hidx as [-> ->]. done.
Qed.
End Dictionary.

Lemma dictGet_numbered (o : list (string * nat)) (k : string) :
  JS.dictGet (numbered <$> o) k = Memory.Number <$> JS.dictGet o k.
Proof.
  induction o as [|[k0 v0] o IH]; [done|]. rewrite fmap_cons. simpl.
  by destruct (String.eqb k0 k).
Qed.

Lemma dictSet_numbered (o : list (string * nat)) (k : string) (v : nat) :
  JS.dictSet (numbered <$> o) k (Memory.Number v) = numbered <$> JS.dictSet o k v.
Proof.
  induction o as [|[k0 v0] o IH]; [done|]. rewrite fmap_cons. simpl.
  destruct (String.eqb k0 k); [done|]. by rewrite IH.
Qed.

Lemma sort_fmap {A B} (f : A -> B) (after : A -> A -> bool) (after' : B -> B -> bool)
  (l : list A) :
  (forall a b, after' (f a) (f b) = after a b) ->
  JS.sort after' (f <$> l) = f <$> JS.sort after l.
Proof.
  intros Hf. induction l as [|x l IH]; [done|]. rewrite fmap_cons. simpl. rewrite IH.
  generalize (JS.sort after l). intros sorted.
  induction sorted as [|y sorted IHs]; [done|]. rewrite fmap_cons. simpl.
  rewrite Hf. destruct (after x y); [|done]. by rewrite IHs.
Qed.

(** ** The conversation memory: recommendation *)

Section Recommend.
Local Open Scope nat_scope.

Lemma occurrences_snoc t l x :
  occurrences t (l ++ [x]) = occurrences t l + (if String.eqb t x then 1 else 0).
Proof.
  unfold occurrences. rewrite List.filter_app, length_app. simpl.
  by destruct (String.eqb t x).
Qed.

Lemma occurrences_zero t l : occurrences t l = 0 <-> t ∉ l.
Proof.
  unfold occurrences. induction l as [|x l IH]; simpl.
  - split; [intros _; apply not_elem_of_nil | done].
  - rewrite not_elem_of_cons. destruct (String.eqb_spec t x) as [->|Hne]; simpl.
    + split; [done | by intros [? _]].
    + rewrite IH. split; [intros ?; split; [congruence|done] | by intros [_ ?]].
Qed.

(** On names it does not inherit the counting loop counts. *)
Lemma countTier_tally (es : list Memory.MemoryEntry) (acc : list (string * nat)) :
  Forall (fun e => JS.inheritedMember (Memory.tier_used e) = false) es ->
  fold_left Memory.countTier es (numbered <$> acc)
  = numbered <$> fold_left tally (Memory.tier_used <$> es) acc.
Proof.
  revert acc. induction es as [|e es IH]; intros acc Hall; [done|].
  apply Forall_cons in Hall as [He Hall]. rewrite fmap_cons. simpl.
  rewrite <- (IH _ Hall). f_equal.
  unfold Memory.countTier, tally. rewrite dictGet_numbered.
  destruct (JS.dictGet acc (Memory.tier_used e)) as [n|]; simpl.
  - apply dictSet_numbered.
  - rewrite He. apply dictSet_numbered.
Qed.

(** What the counting loop has built after the tiers [l]. *)
Lemma tally_invariant (l : list string) :
  (forall k, JS.dictGet (fold_left tally l []) k
             = if occurrences k l =? 0 then None else Some (occurrences k l))
  /\ NoDup ((fold_left tally l []).*1)
  /\ (forall kpre k kpost,
        (fold_left tally l []).*1 = kpre ++ k :: kpost ->
        exists pre post, l = pre ++ k :: post /\ (k ∉ pre) /\ forall u, u ∈ pre -> u ∈ kpre).
Proof.
  induction l as [|t l (IHk & IHn & IHo)] using rev_ind.
  - split_and!; [done | constructor |]. intros kpre k kpost Heq. by destruct kpre.
  - rewrite fold_left_app. simpl. set (T := fold_left tally l []) in *.
    assert (Hkeys : (tally T t).*1 = if JS.dictGet T t is Some _ then T.*1 else T.*1 ++ [t]).
    { unfold tally. apply keys_dictSet. }
    split_and!.
    + intros k. unfold tally. rewrite dictGet_dictSet, occurrences_snoc.
      rewrite (String.eqb_sym t k).
      destruct (String.eqb_spec k t) as [->|Hne].
      * rewrite IHk. destruct (Nat.eqb_spec (occurrences t l) 0) as [->|Hnz]; [done|].
        by rewrite (proj2 (Nat.eqb_neq _ _)) by lia.
      * by rewrite IHk, Nat.add_0_r.
    + rewrite Hkeys. destruct (JS.dictGet T t) eqn:Hg; [done|].
      apply NoDup_app. split_and!; [done| |apply NoDup_singleton].
      intros x Hx ->%list_elem_of_singleton. by apply dictGet_None in Hg.
    + intros kpre k kpost. rewrite Hkeys. destruct (JS.dictGet T t) eqn:Hg.
      * intros Heq. destruct (IHo _ _ _ Heq) as (pre & post & -> & Hk & Hpre).
        exists pre, (post ++ [t]). split_and!; [|done..]. by rewrite <- app_assoc.
      * intros Heq. destruct kpost as [|k' kpost _] using rev_ind.
        -- apply (app_inj_tail (T.*1) kpre t k) in Heq as [Hk <-].
           exists l, []. split_and!; [done| |].
           ++ apply occurrences_zero. specialize (IHk t). rewrite Hg in IHk.
              by destruct (Nat.eqb_spec (occurrences t l) 0).
           ++ intros u Hu. rewrite <- Hk. apply dec_stable. intros Hnot%dictGet_None.
              rewrite IHk in Hnot.
              destruct (Nat.eqb_spec (occurrences u l) 0) as [Hz|]; [|done].
              by apply occurrences_zero in Hz.
        -- rewrite app_comm_cons, app_assoc in Heq. apply app_inj_tail in Heq as [Heq _].
           destruct (IHo _ _ _ Heq) as (pre & post & -> & Hk & Hpre).
           exists pre, (post ++ [t]). split_and!; [|done..]. by rewrite <- app_assoc.
Qed.

Lemma tally_value (l : list string) (k : string) (v : nat) :
  (k, v) ∈ fold_left tally l [] -> v = occurrences k l /\ k ∈ l.
Proof.
  destruct (tally_invariant l) as (Hk & Hn & _). intros Hin.
  apply (elem_dictGet _ _ _ Hn) in Hin. rewrite Hk in Hin.
  destruct (Nat.eqb_spec (occurrences k l) 0) as [|Hnz]; [done|].
  split; [congruence|]. apply dec_stable. by intros ?%occurrences_zero.
Qed.

Lemma byTally_key (a b : string * nat) :
  byTally a b = (Z.of_nat a.2 <? Z.of_nat b.2)%Z.
Proof.
  unfold byTally.
  destruct (Nat.ltb_spec a.2 b.2), (Z.ltb_spec (Z.of_nat a.2) (Z.of_nat b.2)); lia.
Qed.

Lemma recommendFrom_first_most_frequent (pattern : string) (es : list Memory.MemoryEntry) :
  relevantTiers pattern es <> [] ->
  Forall ordinaryKey (relevantTiers pattern es) ->
  exists t, Memory.recommendFrom pattern es = Some t
            /\ firstMostFrequent (relevantTiers pattern es) t.
Proof.
  unfold relevantTiers, Memory.recommendFrom.
  set (rel := List.filter (Memory.relevant pattern) es).
  intros Hne Hplain. destruct rel as [|e0 rel'] eqn:Hrel; [done|]. rewrite <- Hrel in *.
  clearbody rel. clear Hrel e0 rel'.
  assert (Hown : Forall (fun e => JS.inheritedMember (Memory.tier_used e) = false) rel).
  { pose proof (proj1 (Forall_fmap _ _ _) Hplain) as Hrel.
    eapply Forall_impl; [exact Hrel|]. by intros e [_ ?]. }
  change (@nil (string * Memory.Count)) with (numbered <$> []).
  rewrite (countTier_tally rel [] Hown). set (l := Memory.tier_used <$> rel) in *.
  destruct (tally_invariant l) as (Hk & Hn & Ho).
  set (T := fold_left tally l []) in *.
  assert (HT : JS.objectEntries (numbered <$> T) = numbered <$> T).
  { apply objectEntries_plain. rewrite <- list_fmap_compose.
    apply Forall_forall. intros k Hkin.
    apply list_elem_of_fmap in Hkin as ([k' v] & -> & Hin).
    apply tally_value in Hin as [_ Hin]. rewrite Forall_forall in Hplain.
    by destruct (Hplain _ Hin). }
  rewrite HT.
  assert (HTne : T <> []).
  { destruct l as [|t l'] eqn:Hl; [done|]. intros HTnil.
    specialize (Hk t). rewrite HTnil in Hk. simpl in Hk.
    unfold occurrences in Hk. simpl in Hk. by rewrite String.eqb_refl in Hk. }
  rewrite (sort_fmap numbered byTally Memory.byCountDesc T) by done.
  destruct (head_sort_is_Some byTally T HTne) as [[t c] Hhead].
  assert (Hres : match numbered <$> T with
                 | [] => None
                 | _ => fst <$> head (numbered <$> JS.sort byTally T)
                 end = Some t).
  { destruct T as [|kv T']; [done|]. rewrite fmap_cons.
    destruct (JS.sort byTally (kv :: T')) as [|y sorted]; by simplify_eq/=. }
  rewrite Hres. exists t. split; [done|].
  destruct (head_sort_first_max byTally (fun kv => Z.of_nat kv.2)
              byTally_key T (t, c) Hhead)
    as (dpre & dpost & HTeq & Hpre & Hpost).
  assert (Hc : c = occurrences t l).
  { apply (tally_value l t c). fold T. rewrite HTeq. apply elem_of_app. right. left. }
  destruct (Ho (dpre.*1) t (dpost.*1)) as (pre & post & Hl & Htpre & Hsub).
  { rewrite HTeq. by rewrite fmap_app. }
  exists pre, post. split_and!; [done..| |].
  - intros u Hu. apply Hsub, list_elem_of_fmap in Hu as ([u' v] & -> & Hin).
    specialize (Hpre _ Hin). simpl in Hpre.
    assert (Hv : v = occurrences u' l).
    { apply (tally_value l u' v). fold T. rewrite HTeq. apply elem_of_app. by left. }
    simpl. lia.
  - intros u. destruct (Nat.eqb_spec (occurrences u l) 0) as [->|Hnz]; [lia|].
    assert (Hin : (u, occurrences u l) ∈ T).
    { apply dictGet_Some_elem. rewrite Hk. by rewrite (proj2 (Nat.eqb_neq _ _)). }
    rewrite HTeq in Hin.
    apply elem_of_app in Hin as [Hin|[Hin|Hin]%elem_of_cons].
    + specialize (Hpre _ Hin). simpl in Hpre. lia.
    + simplify_eq. lia.
    + specialize (Hpost _ Hin). simpl in Hpost. lia.
Qed.

(** The filter of the code keeps the entries the specification speaks of. *)
Lemma relevantTiers_successfulTiers (category : string) (es : list Memory.MemoryEntry) :
  relevantTiers category es = successfulTiers category es.
Proof.
  unfold relevantTiers. induction es as [|e es IH]; [done|]. simpl.
  unfold Memory.relevant at 1.
  destruct (Memory.success e); rewrite ?andb_true_r, ?andb_false_r.
  - destruct (String.eqb_spec (Memory.task_pattern e) category) as [Heq|Hne].
    + rewrite decide_True by done. rewrite fmap_cons. by rewrite IH.
    + by rewrite decide_False.
  - exact IH.
Qed.

(** [getCurrentSession] finds the designated session, and nothing else. *)
Lemma getCurrentSession_designated (m : Memory.t) (s : Memory.ConversationMemory) :
  designatedSession m s <-> exists i, Memory.getCurrentSession m = Some (i, s).
Proof.
  unfold Memory.getCurrentSession. split.
  - intros [id pre post Hid Hne Hsess Hs Hpre]. rewrite Hid.
    destruct id as [|c id']; [done|]. cbn [JS.truthy]. rewrite Hsess.
    exists (length pre). apply list_find_Some. split_and!.
    + by rewrite lookup_app_r, Nat.sub_diag.
    + done.
    + intros j y Hj Hlt. rewrite lookup_app_l in Hj by done.
      rewrite Forall_forall in Hpre. apply Hpre. by eapply list_elem_of_lookup_2.
  - intros [i Hfind]. destruct (Memory.current_session_id _) as [id|] eqn:Hid; [|done].
    destruct (JS.truthy id) eqn:Ht; [|done].
    apply list_find_Some in Hfind as (Hi & Hs & Hfirst).
    apply (designated m s id (take i (Memory.sessions (Memory.data m)))
             (drop (S i) (Memory.sessions (Memory.data m)))); [done| | |done|].
    + by destruct id.
    + symmetry. by apply take_drop_middle.
    + apply Forall_forall. intros y Hy.
      apply list_elem_of_lookup in Hy as [j Hj].
      pose proof (lookup_lt_Some _ _ _ Hj) as Hlt. rewrite length_take in Hlt.
      rewrite lookup_take_lt in Hj by lia. apply (Hfirst j y Hj). lia.
Qed.

(** C8 (amended): [getRecommendedTier] consults the designated current
    session only.  It returns nothing when there is no such session, and
    nothing when no entry of that session succeeded with the task's
    category; otherwise, when the tiers of those entries are ordinary names
    (neither array-index numerals nor names of inherited members, as the
    five tier labels are), it returns a tier whose occurrence count among
    them is the highest, ties going to the tier met first in entry order. *)
Theorem recommend_first_most_frequent (m : Memory.t) (task : string) :
  ((forall s, ~ designatedSession m s) -> Memory.getRecommendedTier m task = None)
  /\ forall s,
       designatedSession m s ->
       (successfulTiers (Memory.extractPattern task) (Memory.entries s) = [] ->
        Memory.getRecommendedTier m task = None)
       /\ (successfulTiers (Memory.extractPattern task) (Memory.entries s) <> [] ->
           Forall ordinaryKey
             (successfulTiers (Memory.extractPattern task) (Memory.entries s)) ->
           exists t,
             Memory.getRecommendedTier m task = Some t
             /\ firstMostFrequent
                  (successfulTiers (Memory.extractPattern task) (Memory.entries s)) t).
Proof.
  split.
  - intros Hnone. unfold Memory.getRecommendedTier.
    destruct (Memory.getCurrentSession m) as [[i s]|] eqn:Hc; [|done].
    destruct (Hnone s). apply getCurrentSession_designated. by exists i.
  - intros s [i Hc]%getCurrentSession_designated.
    assert (Heq : Memory.getRecommendedTier m task
                  = Memory.recommendFrom (Memory.extractPattern task) (Memory.entries s))
      by (unfold Memory.getRecommendedTier; by rewrite Hc).
    rewrite Heq, <- relevantTiers_successfulTiers. split.
    + unfold relevantTiers, Memory.recommendFrom. intros Hnil%fmap_nil_inv.
      by rewrite Hnil.
    + apply recommendFrom_first_most_frequent.
Qed.

Lemma allTiers_not_array_index : Forall (fun t => JS.isArrayIndex t = false) allTiers.
Proof. repeat constructor. Qed.
End Recommend.

(** ** The dispatcher *)

Section Dispatcher.
Local Open Scope nat_scope.

(** With room for one session, [recordTask] returns after at most two
    activations, having pushed the entry on the ready session. *)
Lemma recordTask_returns fuel uuid now m task tier ok ctx :
  1 ≤ Memory.maxSessions m ->
  exists m',
    Memory.recordTask (S (S fuel)) uuid now m task tier ok ctx = Some m'
    /\ Memory.maxSessions m' = Memory.maxSessions m
    /\ Memory.maxEntriesPerSession m' = Memory.maxEntriesPerSession m
    /\ currentEntries m'
       = lastN (Memory.maxEntriesPerSession m)
           (currentEntries (readySession uuid now m)
            ++ [Memory.makeEntry now task tier ok ctx]).
Proof.
  intros Hs. unfold readySession.
  destruct (Memory.getCurrentSession m) as [[i s]|] eqn:Hc.
  - eexists. split; [by apply recordTask_found|]. split_and!; [done..|].
    unfold currentEntries. rewrite (getCurrentSession_pushed _ _ _ _ Hc), Hc. simpl.
    by rewrite shiftWhileOver_lastN.
  - destruct (startNewSession_current (uuid 0) now m Hs) as [[i s] Hc'].
    eexists. split.
    { change (Memory.recordTask (S (S fuel)) uuid now m task tier ok ctx)
        with (match Memory.getCurrentSession m with
              | None => Memory.recordTask (S fuel) (fun k => uuid (S k)) now
                          (snd (Memory.startNewSession (uuid 0) now m)) task tier ok ctx
              | Some (i, session) =>
                  Some (Memory.withData m
                    {| Memory.sessions :=
                         <[i := Memory.pushEntry (Memory.maxEntriesPerSession m)
                                  (Memory.makeEntry now task tier ok ctx) session]>
                           (Memory.sessions (Memory.data m));
                       Memory.current_session_id :=
                         Memory.current_session_id (Memory.data m) |})
              end).
      rewrite Hc. by apply recordTask_found. }
    split_and!; [done..|].
    unfold currentEntries. rewrite (getCurrentSession_pushed _ _ _ _ Hc'), Hc'. simpl.
    by rewrite shiftWhileOver_lastN.
Qed.

Lemma switchTier_returns fuel env c ctx tier why :
  1 ≤ Memory.maxSessions (Server.memoryTracker ctx) ->
  exists m',
    Server.switchTier (S (S fuel)) env c ctx tier why
    = Some {| Server.config := Server.config ctx;
              Server.state := Server.setTier (Server.state ctx) tier;
              Server.costTracker := Server.costTracker ctx;
              Server.memoryTracker := m';
              Server.ruleEngine := Server.ruleEngine ctx |}
    /\ Memory.maxSessions m' = Memory.maxSessions (Server.memoryTracker ctx)
    /\ currentEntries m'
       = lastN (Memory.maxEntriesPerSession (Server.memoryTracker ctx))
           (currentEntries (readySession (Server.uuid env c) (Server.nowIso env)
                              (Server.memoryTracker ctx))
            ++ [switchEntry (Server.nowIso env) (Server.currentTier (Server.state ctx))
                  tier why]).
Proof.
  intros Hs. unfold Server.switchTier, Memory.recordTierSwitch, Server.withState.
  cbn [Server.memoryTracker].
  destruct (recordTask_returns fuel (Server.uuid env c) (Server.nowIso env)
              (Server.memoryTracker ctx)
              ("tier_switch:" +:+ Server.currentTier (Server.state ctx) +:+ "->" +:+ tier)
              tier true (Some [("reason", why)]) Hs) as (m' & Hrun & HS & _ & Hcur).
  exists m'. rewrite Hrun. simpl. by split_and!.
Qed.

(** C9: a [switch_tier] request for a tier the active strategy does not
    have is answered with the invalid-tier response and changes nothing,
    neither the dispatcher state nor the memory; a request for a legal tier
    sets [currentTier] to it, leaves strategy and auto mode as they were,
    and pushes one tier-switch entry, marked successful, on the current
    session of the memory. *)
Theorem switch_tier_validates_then_records
  (fuel : nat) (env : Server.Env) (tier : string) (why : option string)
  (ctx : Server.ServerContext) :
  1 ≤ Memory.maxSessions (Server.memoryTracker ctx) ->
  if RuleEngine.isValidTier (RuleEngine.strategy (Server.ruleEngine ctx)) tier
  then
    exists m',
      Server.handleSwitchTier (S (S fuel)) env tier why ctx
      = Some (Server.Switched (Server.currentTier (Server.state ctx)) tier why
                (Server.tier_models (Server.config ctx) (Server.strategy (Server.state ctx))
                   !! tier),
              {| Server.config := Server.config ctx;
                 Server.state :=
                   {| Server.currentTier := tier;
                      Server.strategy := Server.strategy (Server.state ctx);
                      Server.autoMode := Server.autoMode (Server.state ctx);
                      Server.useEmojis := Server.useEmojis (Server.state ctx) |};
                 Server.costTracker := Server.costTracker ctx;
                 Server.memoryTracker := m';
                 Server.ruleEngine := Server.ruleEngine ctx |})
      /\ currentEntries m'
         = lastN (Memory.maxEntriesPerSession (Server.memoryTracker ctx))
             (currentEntries (readySession (Server.uuid env 0) (Server.nowIso env)
                                (Server.memoryTracker ctx))
              ++ [switchEntry (Server.nowIso env) (Server.currentTier (Server.state ctx))
                    tier why])
      /\ Memory.success (switchEntry (Server.nowIso env)
                           (Server.currentTier (Server.state ctx)) tier why) = true
      /\ Memory.tier_used (switchEntry (Server.nowIso env)
                             (Server.currentTier (Server.state ctx)) tier why) = tier
  else
    Server.handleSwitchTier (S (S fuel)) env tier why ctx
    = Some (Server.InvalidTier tier (Server.strategy (Server.state ctx))
              (RuleEngine.getAvailableTiers (RuleEngine.strategy (Server.ruleEngine ctx))),
            ctx).
Proof.
  intros Hs. unfold Server.handleSwitchTier.
  destruct (RuleEngine.isValidTier _ tier); [|done]. simpl.
  destruct (switchTier_returns fuel env 0 ctx tier why Hs) as (m' & Hrun & _ & Hcur).
  exists m'. rewrite Hrun. simpl. by split_and!.
Qed.

Lemma isBlank_false_truthy (s : string) : JS.isBlank s = false -> JS.truthy s = true.
Proof. by destruct s. Qed.

(** Once the target tier is determined the call returns a routed answer. *)
Lemma orchestrate_routes fuel env args ctx d eng :
  1 ≤ Memory.maxSessions (Server.memoryTracker ctx) ->
  JS.isBlank (Server.task args) = false ->
  Server.determineTargetTier env args ctx = Some (d, eng) ->
  exists a ctx',
    Server.handleOrchestrate (S (S fuel)) env args ctx = Some (Server.Routed d a, ctx').
Proof.
  intros Hs Hb Hd. unfold Server.handleOrchestrate.
  rewrite Hb, (isBlank_false_truthy _ Hb), Hd. cbn [negb orb].
  destruct (negb (String.eqb (Server.targetTier d) _)); cbn [andb];
    [|by eexists _, _].
  destruct (default true (Server.auto_switch args)); cbn [andb negb];
    [|destruct (Server.autoMode _); cbn [negb]; by eexists _, _].
  destruct (Server.autoMode (Server.state (Server.withEngine ctx eng))) eqn:Ha;
    cbn [negb]; [|by eexists _, _].
  destruct (switchTier_returns fuel env 0 (Server.withEngine ctx eng) (Server.targetTier d)
              (Some (Server.decisionReason d)) Hs) as (m1 & Hsw & HS1 & _).
  rewrite Hsw. cbn [mbind option_bind Server.memoryTracker].
  destruct (recordTask_returns fuel (Server.uuid env 1) (Server.nowIso env) m1
              (Server.task args) (Server.targetTier d) true
              (Some [("reason", Some (Server.decisionReason d))]))
    as (m2 & Hrec & _); [by rewrite HS1|].
  rewrite Hrec. by eexists _, _.
Qed.

Lemma determineTargetTier_gate env args ctx t :
  CostTracker.is_blocked (Server.handleGetStatus env ctx) = true ->
  proposedTier env args ctx = Some t ->
  Server.includesTier Server.highCostTiers t = true ->
  (forall f, Server.forced args = Some f ->
             RuleEngine.isValidTier (RuleEngine.strategy (Server.ruleEngine ctx)) f = true) ->
  exists d eng,
    Server.determineTargetTier env args ctx = Some (d, eng)
    /\ Server.targetTier d = Server.fallbackTier ctx
    /\ Server.budgetFallback d = true
    /\ budgetFallbackReason (Server.decisionReason d).
Proof.
  intros Hblk Hp Hhigh Hvalid. unfold Server.determineTargetTier, proposedTier in *.
  rewrite Hblk. destruct (Server.forced args) as [f|].
  - simplify_eq. rewrite (Hvalid t eq_refl), Hhigh. cbn [negb andb].
    eexists _, _. split_and!; [done..|]. by left.
  - destruct (RuleEngine.classifyTask _ _ _ _ _) as [[m|] eng]; simplify_eq/=.
    rewrite Hhigh. eexists _, _. split_and!; [done..|]. right. by eexists.
Qed.

(** C1 (amended): for every [orchestrate] call with a non-blank task whose
    forced tier, when one is given, is legal for the active strategy: if
    the ledger's status reports [is_blocked] and the tier put forward (the
    forced tier, or the target of the classification match) is one of the
    high-cost tiers critical, tier3, tier2, then the call returns a routed
    answer whose tier is the strategy's lowest tier (primary for 2-tier,
    tier1 for 3-tier) with a budget-fallback reason. *)
Theorem orchestrate_budget_gate
  (fuel : nat) (env : Server.Env) (args : Server.OrchestrateArgs)
  (ctx : Server.ServerContext) (t : string) :
  1 ≤ Memory.maxSessions (Server.memoryTracker ctx) ->
  JS.isBlank (Server.task args) = false ->
  (forall f, Server.forced args = Some f ->
             RuleEngine.isValidTier (RuleEngine.strategy (Server.ruleEngine ctx)) f = true) ->
  CostTracker.is_blocked (Server.handleGetStatus env ctx) = true ->
  proposedTier env args ctx = Some t ->
  Server.includesTier Server.highCostTiers t = true ->
  exists d a ctx',
    Server.handleOrchestrate (S (S fuel)) env args ctx = Some (Server.Routed d a, ctx')
    /\ Server.targetTier d = RuleEngine.getDefaultTier (Server.strategy (Server.state ctx))
    /\ Server.budgetFallback d = true
    /\ budgetFallbackReason (Server.decisionReason d).
Proof.
  intros Hs Hb Hvalid Hblk Hp Hhigh.
  destruct (determineTargetTier_gate env args ctx t Hblk Hp Hhigh Hvalid)
    as (d & eng & Hd & Ht & Hf & Hr).
  destruct (orchestrate_routes fuel env args ctx d eng Hs Hb Hd) as (a & ctx' & Hrun).
  exists d, a, ctx'. split_and!; [done| |done..].
  rewrite Ht. unfold Server.fallbackTier. by destruct (Server.strategy _).
Qed.

(** C10 (amended): a [set_budget] call with a positive limit and an alert
    percentage within 0..100 changes nothing but the stored budget, whose
    [monthly_limit_usd] becomes the given limit and whose
    [alert_thresholds] stay as they were (the empty list when no budget was
    configured); the thresholds shown in the response (the 50/95/100
    defaults plus the notification) are only passed to the [getStatus] call
    that renders it, and the thresholds that later [get_status] and
    [orchestrate] calls consult are the stored ones, unchanged. *)
Theorem set_budget_changes_limit_only
  (env : Server.Env) (monthlyLimit : Qc) (alert : option Qc)
  (ctx : Server.ServerContext) :
  (0 < monthlyLimit)%Qc ->
  (0 ≤ default (Q2Qc (inject_Z 80)) alert)%Qc ->
  (default (Q2Qc (inject_Z 80)) alert ≤ Q2Qc (inject_Z 100))%Qc ->
  Server.handleSetBudget env monthlyLimit alert ctx
  = (Server.BudgetUpdated monthlyLimit
       (Server.shownThresholds (default (Q2Qc (inject_Z 80)) alert))
       (CostTracker.getStatus (Server.monthKey env) (Server.costTracker ctx)
          {| CostTracker.monthly_limit_usd := monthlyLimit;
             CostTracker.alert_thresholds :=
               Some (Server.shownThresholds (default (Q2Qc (inject_Z 80)) alert)) |}),
     {| Server.config :=
          {| Server.tier_models := Server.tier_models (Server.config ctx);
             Server.budget :=
               Some {| Server.monthly_limit_usd := monthlyLimit;
                       Server.alert_thresholds := storedThresholds ctx |} |};
        Server.state := Server.state ctx;
        Server.costTracker := Server.costTracker ctx;
        Server.memoryTracker := Server.memoryTracker ctx;
        Server.ruleEngine := Server.ruleEngine ctx |})
  /\ storedThresholds (snd (Server.handleSetBudget env monthlyLimit alert ctx))
     = storedThresholds ctx
  /\ (forall env',
        Server.handleGetStatus env'
          (snd (Server.handleSetBudget env monthlyLimit alert ctx))
        = CostTracker.getStatus (Server.monthKey env') (Server.costTracker ctx)
            {| CostTracker.monthly_limit_usd := monthlyLimit;
               CostTracker.alert_thresholds := Some (storedThresholds ctx) |}).
Proof.
  intros Hl Ha0 Ha100.
  assert (Heq : Server.handleSetBudget env monthlyLimit alert ctx
                = (Server.BudgetUpdated monthlyLimit
                     (Server.shownThresholds (default (Q2Qc (inject_Z 80)) alert))
                     (CostTracker.getStatus (Server.monthKey env) (Server.costTracker ctx)
                        {| CostTracker.monthly_limit_usd := monthlyLimit;
                           CostTracker.alert_thresholds :=
                             Some (Server.shownThresholds
                                     (default (Q2Qc (inject_Z 80)) alert)) |}),
                   {| Server.config :=
                        {| Server.tier_models := Server.tier_models (Server.config ctx);
                           Server.budget :=
                             Some {| Server.monthly_limit_usd := monthlyLimit;
                                     Server.alert_thresholds := storedThresholds ctx |} |};
                      Server.state := Server.state ctx;
                      Server.costTracker := Server.costTracker ctx;
                      Server.memoryTracker := Server.memoryTracker ctx;
                      Server.ruleEngine := Server.ruleEngine ctx |})).
  { unfold Server.handleSetBudget, storedThresholds.
    assert (H1 : CostTracker.Qc_leb monthlyLimit 0%Qc = false).
    { apply bool_decide_eq_false. by apply Qclt_not_le. }
    assert (H2 : CostTracker.Qc_ltb (default (Q2Qc (inject_Z 80)) alert) 0%Qc = false)
      by (by apply Qc_ltb_ge).
    assert (H3 : CostTracker.Qc_ltb (Q2Qc (inject_Z 100))
                   (default (Q2Qc (inject_Z 80)) alert) = false)
      by (by apply Qc_ltb_ge).
    rewrite H1, H2, H3. cbn [orb].
    by destruct (Server.budget (Server.config ctx)). }
  rewrite Heq. split_and!; [done|done|].
  intros env'. done.
Qed.
End Dispatcher.

(** ** The properties at concrete inputs *)

(** C1 (counterexample): the budget is blocked, and "tier2", one of the
    high-cost tiers, is forced under the 2-tier strategy: the call is answered
    with the invalid-tier response instead of a fallback to "primary". *)
Lemma orchestrate_rejects_foreign_forced_tier :
  CostTracker.is_blocked (Server.handleGetStatus januaryEnv (blockedContext TwoTier "primary"))
  = true
  /\ Server.includesTier Server.highCostTiers "tier2" = true
  /\ proposedTier januaryEnv
       (Server.mkArgs "design the security model" (Some "tier2") None)
       (blockedContext TwoTier "primary")
     = Some "tier2"
  /\ fst <$> Server.handleOrchestrate 2 januaryEnv
               (Server.mkArgs "design the security model" (Some "tier2") None)
               (blockedContext TwoTier "primary")
     = Some (Server.InvalidForcedTier "tier2" TwoTier ["primary"; "critical"]).
Proof. split_and!; by_computation. Qed.

Lemma orchestrate_budget_gate_witness :
  exists d a ctx',
    Server.handleOrchestrate 2 januaryEnv
      (Server.mkArgs "design the security model" None None)
      (blockedContext ThreeTier "tier2")
    = Some (Server.Routed d a, ctx')
    /\ Server.targetTier d = "tier1"
    /\ Server.budgetFallback d = true
    /\ budgetFallbackReason (Server.decisionReason d).
Proof.
  apply (orchestrate_budget_gate 0 januaryEnv
           (Server.mkArgs "design the security model" None None)
           (blockedContext ThreeTier "tier2") "tier3").
  - vm_compute. lia.
  - reflexivity.
  - intros f Hf. vm_compute in Hf. discriminate.
  - vm_compute. reflexivity.
  - vm_compute. reflexivity.
  - reflexivity.
Defined.

(** The scenario of the specification: limit 10 USD, 10.50 USD spent,
    blocking at 100%; "design the security model" would go to the top tier
    and is routed to the lowest one, and the dispatcher switches to it. *)
Example orchestrate_blocked_scenario :
  (fun r => (Server.targetTier <$> (match r.1 with Server.Routed d _ => Some d | _ => None end),
             Server.currentTier (Server.state r.2)))
    <$> Server.handleOrchestrate 2 januaryEnv
          (Server.mkArgs "design the security model" None None)
          (blockedContext ThreeTier "tier2")
  = Some (Some "tier1", "tier1").
Proof. by_computation. Qed.

(** When no rule matches, the current tier is kept as it is: the gate is not
    applied on that path, also when the current tier is a high-cost one. *)
Example orchestrate_no_match_keeps_current_tier :
  fst <$> Server.handleOrchestrate 2 januaryEnv
            (Server.mkArgs "hello there" None None)
            (blockedContext TwoTier "critical")
  = Some (Server.Routed
            {| Server.targetTier := "critical"; Server.decisionReason := "no rule match";
               Server.ruleMatch := None; Server.budgetFallback := false |}
            Server.Staying).
Proof. by_computation. Qed.

Lemma defaultRules_targetsWithin (s : StrategyType) : targetsWithin s defaultRules.
Proof.
  intros rule t Hin Hl _. unfold defaultRules in Hin. cbn [RuleEngine.keyword_rules] in Hin.
  repeat (apply elem_of_cons in Hin as [->|Hin]);
    try (by apply elem_of_nil in Hin);
    destruct s; vm_compute in Hl; simplify_eq;
    cbn [RuleEngine.getAvailableTiers]; set_solver.
Qed.

Lemma classify_tier_within_strategy_witness :
  exists m,
    fst (RuleEngine.classifyTask (RuleEngine.mkEngine (Some defaultRules) TwoTier [])
           (None : option Memory.t) 0 "Review this architecture and propose improvements"
           "primary") = Some m
    /\ target_tier m = "critical"
    /\ target_tier m ∈ RuleEngine.getAvailableTiers TwoTier.
Proof.
  eexists. split; [vm_compute; reflexivity|]. split; [reflexivity|].
  apply (classify_tier_within_strategy
           (RuleEngine.mkEngine (Some defaultRules) TwoTier [])
           (None : option Memory.t) 0 "Review this architecture and propose improvements"
           "primary").
  - intros cfg [= <-]. apply defaultRules_targetsWithin.
  - vm_compute. reflexivity.
Defined.

Lemma getStatus_budget_fields_witness :
  exactPercent "2026-01" januaryLedger blockAt100
  = (CostTracker.spentIn januaryLedger "2026-01" / CostTracker.monthly_limit_usd blockAt100
     * Q2Qc (inject_Z 100))%Qc.
Proof.
  destruct (getStatus_budget_fields "2026-01" januaryLedger blockAt100) as (_ & Hpos & _).
  apply Hpos. vm_compute. reflexivity.
Defined.

Lemma memory_capacity_bounds_witness :
  exists m0 m,
    runOps 1 [] (Memory.create 2 1 sampleUUID "2026-01-05T09:00:00.000Z") = Some m0
    /\ runOps 1 (OpRecordTask <$> threeCalls) m0 = Some m
    /\ currentEntries m = lastN 2 (currentEntries m0 ++ (entryOf <$> threeCalls)).
Proof.
  destruct (memory_capacity_bounds 2 1 0 sampleUUID "2026-01-05T09:00:00.000Z")
    as (_ & Hrecent & _); [lia|].
  apply (Hrecent [] threeCalls).
Defined.

Example memory_keeps_last_two :
  (fun m => Memory.tier_used <$> currentEntries m)
    <$> runOps 1 (OpRecordTask <$> threeCalls)
          (Memory.create 2 1 sampleUUID "2026-01-05T09:00:00.000Z")
  = Some ["tier2"; "tier2"].
Proof. by_computation. Qed.

Lemma recommend_first_most_frequent_witness :
  designatedSession tiedMemory tiedSession
  /\ exists t,
       Memory.getRecommendedTier tiedMemory "fix the login bug" = Some t
       /\ firstMostFrequent ["tier2"; "tier1"; "tier1"; "tier2"] t.
Proof.
  assert (Hd : designatedSession tiedMemory tiedSession).
  { apply (designated _ _ "session-1" [] []);
      [reflexivity | discriminate | reflexivity | reflexivity | constructor]. }
  split; [exact Hd|].
  destruct (recommend_first_most_frequent tiedMemory "fix the login bug") as [_ Hcur].
  destruct (Hcur tiedSession Hd) as [_ Hsome].
  assert (Hrel : successfulTiers (Memory.extractPattern "fix the login bug")
                   (Memory.entries tiedSession)
                 = ["tier2"; "tier1"; "tier1"; "tier2"]) by (vm_compute; reflexivity).
  rewrite Hrel in Hsome. apply Hsome; [discriminate|].
  repeat (constructor; [split; vm_compute; reflexivity|]). constructor.
Defined.

(** C8 (counterexample): the tiers named "2" and "1" served one bug fix
    each, "2" first.  The object that holds the counts enumerates "1"
    before "2", so the tie goes to "1", the tier met last. *)
Lemma recommend_numeral_tiers_in_numeric_order :
  designatedSession numeralMemory numeralSession
  /\ successfulTiers (Memory.extractPattern "fix the login bug")
       (Memory.entries numeralSession) = ["2"; "1"]
  /\ Memory.getRecommendedTier numeralMemory "fix the login bug" = Some "1"
  /\ ~ firstMostFrequent ["2"; "1"] "1".
Proof.
  split_and!.
  - apply (designated _ _ "session-1" [] []);
      [reflexivity | discriminate | reflexivity | reflexivity | constructor].
  - by_computation.
  - by_computation.
  - intros (pre & post & Heq & Hnot & Hless & _).
    destruct pre as [|p pre]; [discriminate|]. injection Heq as <- Heq.
    destruct pre as [|p' pre].
    + specialize (Hless "2" (list_elem_of_here _ _)). vm_compute in Hless. lia.
    + injection Heq as <- Heq. destruct Hnot.
      apply list_elem_of_further, list_elem_of_here.
Qed.

Example recommend_tie_goes_to_first :
  Memory.getRecommendedTier tiedMemory "fix the login bug" = Some "tier2"
  /\ Memory.getRecommendedTier tiedMemory "write the release notes" = None.
Proof. split; by_computation. Qed.

(** Names that are array-index numerals are enumerated first by the object
    that holds the counts, whatever their order of arrival. *)
Example recommend_array_index_names :
  Memory.recommendFrom "bugfix"
    [ Memory.mkEntry "t1" "bugfix" "2" true None;
      Memory.mkEntry "t2" "bugfix" "1" true None ]
  = Some "1".
Proof. by_computation. Qed.

(** A name the object inherits is not counted as a number; under "__proto__"
    nothing is stored at all and no recommendation comes out. *)
Example recommend_inherited_names :
  Memory.recommendFrom "bugfix" [Memory.mkEntry "t1" "bugfix" "__proto__" true None] = None
  /\ Memory.recommendFrom "bugfix" [Memory.mkEntry "t1" "bugfix" "constructor" true None]
     = Some "constructor".
Proof. split; by_computation. Qed.

Lemma switch_tier_validates_then_records_witness :
  exists r,
    Server.handleSwitchTier 2 januaryEnv "critical" (Some "manual")
      (blockedContext TwoTier "primary") = Some r
    /\ Server.currentTier (Server.state r.2) = "critical".
Proof.
  destruct (switch_tier_validates_then_records 0 januaryEnv "critical" (Some "manual")
              (blockedContext TwoTier "primary") ltac:(vm_compute; lia)
            : exists m', _ /\ _) as (m' & Heq & _).
  eexists. split; [exact Heq | reflexivity].
Defined.

Example switch_tier_rejects_foreign_tier :
  Server.handleSwitchTier 2 januaryEnv "tier3" None (blockedContext TwoTier "primary")
  = Some (Server.InvalidTier "tier3" TwoTier ["primary"; "critical"],
          blockedContext TwoTier "primary").
Proof. by_computation. Qed.

(** C10 (counterexample): a positive limit with an alert percentage of 150:
    the call is answered with the out-of-range error and the stored limit is
    not set to the given one. *)
Lemma set_budget_rejects_alert_out_of_range :
  CostTracker.Qc_leb (Q2Qc (inject_Z 50)) 0%Qc = false
  /\ Server.handleSetBudget januaryEnv (Q2Qc (inject_Z 50)) (Some (Q2Qc (inject_Z 150)))
       (blockedContext TwoTier "primary")
     = (Server.AlertOutOfRange, blockedContext TwoTier "primary")
  /\ (fun b => this (Server.monthly_limit_usd b))
       <$> Server.budget (Server.config (blockedContext TwoTier "primary"))
     = Some (10 # 1).
Proof. split_and!; by_computation. Qed.

Lemma set_budget_changes_limit_only_witness :
  storedThresholds
    (snd (Server.handleSetBudget januaryEnv (Q2Qc (inject_Z 50)) None
            (blockedContext TwoTier "primary")))
  = storedThresholds (blockedContext TwoTier "primary").
Proof.
  destruct (set_budget_changes_limit_only januaryEnv (Q2Qc (inject_Z 50)) None
              (blockedContext TwoTier "primary")) as (_ & Hstored & _).
  - vm_compute. reflexivity.
  - vm_compute. discriminate.
  - vm_compute. discriminate.
  - exact Hstored.
Defined.

(** On a dispatcher without a budget section, the response of [set_budget]
    shows the blocking threshold as triggered, but the stored threshold list
    is empty: the status read afterwards is not blocked. *)
Example set_budget_response_thresholds_not_stored :
  (match (Server.handleSetBudget januaryEnv (Q2Qc (inject_Z 10)) None unbudgetedContext).1 with
   | Server.BudgetUpdated _ _ usage => Some (CostTracker.is_blocked usage)
   | _ => None
   end) = Some true
  /\ CostTracker.is_blocked
       (Server.handleGetStatus januaryEnv
          (Server.handleSetBudget januaryEnv (Q2Qc (inject_Z 10)) None unbudgetedContext).2)
     = false
  /\ storedThresholds
       (Server.handleSetBudget januaryEnv (Q2Qc (inject_Z 10)) None unbudgetedContext).2
     = [].
Proof. split_and!; by_computation. Qed.

(** * Further properties of the sources *)

(** ** The rule engine: priorities, letter case, the error window *)

Section ClassifyMore.
Context {M : Type} `{IMemoryTracker M}.

(** X1: with no escalation in play, the keyword match of highest priority is
    returned, whatever the order of declaration; among matches of equal
    priority the rule declared first wins. *)
Theorem classify_highest_priority_keyword
  (e : RuleEngine.t) (mem : option M) (now : Z) (task tier : string)
  (cfg : RuleEngine.RulesConfig) :
  RuleEngine.config e = Some cfg ->
  escalationFires cfg (RuleEngine.strategy e) now tier (RuleEngine.errorWindow e) = false ->
  RuleEngine.keywordMatches (RuleEngine.strategy e) (JS.toLowerCase task)
    (RuleEngine.keyword_rules cfg) <> [] ->
  exists m pre post,
    fst (RuleEngine.classifyTask e mem now task tier) = Some m
    /\ RuleEngine.keywordMatches (RuleEngine.strategy e) (JS.toLowerCase task)
         (RuleEngine.keyword_rules cfg) = pre ++ m :: post
    /\ Forall (fun y => priority y < priority m) pre
    /\ Forall (fun y => priority y <= priority m) post.
Proof.
  intros Hcfg Hesc Hne.
  rewrite (classifyTask_unfold _ _ _ _ _ _ Hcfg), (escalationStep_idle _ _ _ _ _ _ Hesc).
  rewrite costStep_nonempty, memoryStep_nonempty by done.
  destruct (head_sort_is_Some RuleEngine.byPriorityDesc _ Hne) as [m Hm].
  destruct (head_sort_first_max RuleEngine.byPriorityDesc priority (fun a b => eq_refl)
              _ m Hm) as (pre & post & Heq & Hpre & Hpost).
  exists m, pre, post. split_and!; [done..| |]; by apply Forall_forall.
Qed.

(** Only dates strictly inside the window survive a cleaning, and cleaning a
    second time at the same instant changes nothing. *)
Lemma cleanWindow_inside esc now w :
  Forall (fun d => RuleEngine.cutoff esc now < d) (RuleEngine.cleanWindow esc now w).
Proof.
  apply Forall_forall. intros d Hd. unfold RuleEngine.cleanWindow in Hd.
  apply list_elem_of_In, filter_In in Hd as [_ Hd]. by apply Z.ltb_lt.
Qed.

Lemma cleanWindow_idempotent esc now w :
  RuleEngine.cleanWindow esc now (RuleEngine.cleanWindow esc now w)
  = RuleEngine.cleanWindow esc now w.
Proof.
  unfold RuleEngine.cleanWindow. induction w as [|d w IH]; [done|]. simpl.
  destruct (RuleEngine.cutoff esc now <? d) eqn:E; [|done]. simpl. by rewrite E, IH.
Qed.

(** X2: with escalation enabled, [recordError] raises the error count read at the
    same instant by exactly one when the window is positive; with a window
    of zero minutes or less the recorded error is purged at once and the
    count does not move. *)
Theorem recordError_count (e : RuleEngine.t) (now : Z) (cfg : RuleEngine.RulesConfig) :
  RuleEngine.config e = Some cfg ->
  RuleEngine.enabled (RuleEngine.error_escalation cfg) = true ->
  (0 < RuleEngine.window_minutes (RuleEngine.error_escalation cfg) ->
   fst (RuleEngine.getErrorCount (RuleEngine.recordError e now) now)
   = S (fst (RuleEngine.getErrorCount e now)))
  /\ (RuleEngine.window_minutes (RuleEngine.error_escalation cfg) <= 0 ->
      fst (RuleEngine.getErrorCount (RuleEngine.recordError e now) now)
      = fst (RuleEngine.getErrorCount e now)).
Proof.
  intros Hcfg Hen.
  assert (Hrec : RuleEngine.recordError e now
                 = RuleEngine.withWindow e
                     (RuleEngine.cleanWindow (RuleEngine.error_escalation cfg) now
                        (RuleEngine.errorWindow e ++ [now]))).
  { unfold RuleEngine.recordError. rewrite Hcfg, Hen.
    unfold RuleEngine.cleanErrorWindow. cbn [RuleEngine.config RuleEngine.withWindow].
    by rewrite Hcfg. }
  assert (Hcount : fst (RuleEngine.getErrorCount (RuleEngine.recordError e now) now)
                   = length (RuleEngine.cleanWindow (RuleEngine.error_escalation cfg) now
                               (RuleEngine.errorWindow e ++ [now]))).
  { rewrite Hrec. unfold RuleEngine.getErrorCount, RuleEngine.cleanErrorWindow.
    cbn [RuleEngine.config RuleEngine.withWindow]. rewrite Hcfg.
    cbn [fst RuleEngine.errorWindow RuleEngine.withWindow].
    by rewrite cleanWindow_idempotent. }
  assert (Hbefore : fst (RuleEngine.getErrorCount e now)
                    = length (RuleEngine.cleanWindow (RuleEngine.error_escalation cfg) now
                                (RuleEngine.errorWindow e))).
  { unfold RuleEngine.getErrorCount, RuleEngine.cleanErrorWindow. by rewrite Hcfg. }
  rewrite Hcount, Hbefore. unfold RuleEngine.cleanWindow, RuleEngine.cutoff.
  rewrite List.filter_app, length_app. simpl. split; intros Hw.
  - rewrite (proj2 (Z.ltb_lt _ _)) by lia. simpl. lia.
  - rewrite (proj2 (Z.ltb_ge _ _)) by lia. simpl. lia.
Qed.

(** X3: errors that are at least a full window old are no longer counted and,
    for a threshold of one or more, do not escalate; a classification with
    escalation enabled leaves the window empty. *)
Theorem expired_errors_do_not_escalate
  (e : RuleEngine.t) (mem : option M) (now : Z) (task tier : string)
  (cfg : RuleEngine.RulesConfig) :
  RuleEngine.config e = Some cfg ->
  Forall (fun d => d + RuleEngine.window_minutes (RuleEngine.error_escalation cfg) * 60 * 1000
                   <= now) (RuleEngine.errorWindow e) ->
  1 <= RuleEngine.threshold (RuleEngine.error_escalation cfg) ->
  fst (RuleEngine.getErrorCount e now) = O
  /\ escalationFires cfg (RuleEngine.strategy e) now tier (RuleEngine.errorWindow e) = false
  /\ (RuleEngine.enabled (RuleEngine.error_escalation cfg) = true ->
      RuleEngine.errorWindow (snd (RuleEngine.classifyTask e mem now task tier)) = []).
Proof.
  intros Hcfg Hold Hth.
  assert (Hclean : RuleEngine.cleanWindow (RuleEngine.error_escalation cfg) now
                     (RuleEngine.errorWindow e) = []).
  { unfold RuleEngine.cleanWindow, RuleEngine.cutoff.
    induction Hold as [|d w Hd _ IH]; [done|]. simpl.
    by rewrite (proj2 (Z.ltb_ge _ _)) by lia. }
  split_and!.
  - unfold RuleEngine.getErrorCount, RuleEngine.cleanErrorWindow. by rewrite Hcfg, Hclean.
  - unfold escalationFires. rewrite Hclean. simpl.
    rewrite (proj2 (Z.leb_gt _ _)) by lia. by rewrite andb_false_r.
  - intros Hen. unfold RuleEngine.classifyTask, RuleEngine.escalationStep.
    rewrite Hcfg, Hen, Hclean. simpl.
    by rewrite (proj2 (Z.leb_gt _ _)) by lia.
Qed.
End ClassifyMore.

Lemma firstPattern_first taskLower ps p :
  RuleEngine.firstPattern taskLower ps = Some p ->
  exists pre post,
    ps = pre ++ p :: post
    /\ JS.includes taskLower (JS.toLowerCase p) = true
    /\ Forall (fun q => JS.includes taskLower (JS.toLowerCase q) = false) pre.
Proof.
  induction ps as [|q ps IH]; [done|]. simpl.
  destruct (JS.includes taskLower (JS.toLowerCase q)) eqn:E.
  - intros [= ->]. by exists [], ps.
  - intros (pre & post & -> & Hp & Hpre)%IH. exists (q :: pre), post.
    split_and!; [done..|]. by constructor.
Qed.

(** X4: every keyword match stems from one rule of the table, carries that
    rule's name, priority and target for the strategy, and reports the first
    of the rule's patterns, in declaration order, that occurs in the task;
    no rule contributes twice. *)
Theorem keyword_match_provenance (s : StrategyType) (taskLower : string)
  (rules : list RuleEngine.KeywordRule) :
  (length (RuleEngine.keywordMatches s taskLower rules) <= length rules)%nat
  /\ forall m,
       m ∈ RuleEngine.keywordMatches s taskLower rules ->
       exists rule pre p post,
         rule ∈ rules
         /\ rule_name m = RuleEngine.name rule
         /\ priority m = RuleEngine.rule_priority rule
         /\ RuleEngine.rule_target_tier rule !! strategyName s = Some (target_tier m)
         /\ matched_pattern m = Some p
         /\ RuleEngine.patterns rule = pre ++ p :: post
         /\ JS.includes taskLower (JS.toLowerCase p) = true
         /\ Forall (fun q => JS.includes taskLower (JS.toLowerCase q) = false) pre.
Proof.
  split.
  - unfold RuleEngine.keywordMatches. induction rules as [|r rules IH]; [done|].
    csimpl. destruct (RuleEngine.keywordMatch s taskLower r); simpl; lia.
  - intros m (rule & Hin & Hm)%list_elem_of_omap. unfold RuleEngine.keywordMatch in Hm.
    destruct (RuleEngine.firstPattern taskLower (RuleEngine.patterns rule)) as [p|] eqn:Hp;
      [|done].
    destruct (RuleEngine.rule_target_tier rule !! strategyName s) as [t|] eqn:Ht; [|done].
    destruct (JS.truthy t); [|done]. simplify_eq/=.
    destruct (firstPattern_first _ _ _ Hp) as (pre & post & Hps & Hinc & Hpre).
    exists rule, pre, p, post. by split_and!.
Qed.

(** ** Exact numbers: from [Qc] to [Q] *)

Section Rationals.

Lemma this_Q2Qc (q : Q) : (this (Q2Qc q) == q)%Q.
Proof. apply Qred_correct. Qed.

Lemma this_plus (x y : Qc) : (this (x + y)%Qc == this x + this y)%Q.
Proof. apply Qred_correct. Qed.

Lemma this_mult (x y : Qc) : (this (x * y)%Qc == this x * this y)%Q.
Proof. apply Qred_correct. Qed.

Lemma this_div (x y : Qc) : (this (x / y)%Qc == this x / this y)%Q.
Proof.
  unfold Qcdiv. rewrite this_mult. unfold Qcinv. rewrite this_Q2Qc. reflexivity.
Qed.

Lemma inject_Z_pos (n : Z) : 0 < n -> (0 < inject_Z n)%Q.
Proof. intros Hn. change (inject_Z 0 < inject_Z n)%Q. by rewrite <- Zlt_Qlt. Qed.

(** [Math.round] stays within the integer bounds of its argument. *)
Lemma round_bounds (x : Qc) (lo hi : Z) :
  (Q2Qc (inject_Z lo) ≤ x)%Qc -> (x ≤ Q2Qc (inject_Z hi))%Qc ->
  lo <= JS.round x <= hi.
Proof.
  unfold Qcle, JS.round. intros Hlo Hhi.
  pose proof (this_Q2Qc (inject_Z lo)) as E1. pose proof (this_Q2Qc (inject_Z hi)) as E2.
  pose proof (this_plus x (Q2Qc (1 # 2))) as E3. pose proof (this_Q2Qc (1 # 2)) as E4.
  pose proof (Qfloor_le (this (x + Q2Qc (1 # 2))%Qc)) as Hf.
  pose proof (Qlt_floor (this (x + Q2Qc (1 # 2))%Qc)) as Hc.
  rewrite inject_Z_plus in Hc. change (inject_Z 1) with 1%Q in Hc.
  assert (H1 : (inject_Z lo < inject_Z (Qfloor (this (x + Q2Qc (1 # 2))%Qc) + 1))%Q).
  { rewrite inject_Z_plus. change (inject_Z 1) with 1%Q. lra. }
  assert (H2 : (inject_Z (Qfloor (this (x + Q2Qc (1 # 2))%Qc)) < inject_Z (hi + 1))%Q).
  { rewrite inject_Z_plus. change (inject_Z 1) with 1%Q. lra. }
  rewrite <- Zlt_Qlt in H1, H2. lia.
Qed.

Lemma ratio_percent_bounds (sa n : Z) :
  0 <= sa <= n -> 0 < n ->
  (Q2Qc (inject_Z 0) ≤ Q2Qc (inject_Z sa) / Q2Qc (inject_Z n) * Q2Qc (inject_Z 100))%Qc
  /\ (Q2Qc (inject_Z sa) / Q2Qc (inject_Z n) * Q2Qc (inject_Z 100) ≤ Q2Qc (inject_Z 100))%Qc.
Proof.
  intros [H0 Hle] Hn. unfold Qcle.
  rewrite !this_mult, !this_div, !this_Q2Qc.
  pose proof (inject_Z_pos n Hn) as Hn'.
  assert (Hlo : (0 <= inject_Z sa / inject_Z n)%Q).
  { apply Qle_shift_div_l; [done|]. rewrite Qmult_0_l.
    change (inject_Z 0 <= inject_Z sa)%Q. by rewrite <- Zle_Qle. }
  assert (Hhi : (inject_Z sa / inject_Z n <= 1)%Q).
  { apply Qle_shift_div_r; [done|]. rewrite Qmult_1_l. by rewrite <- Zle_Qle. }
  change (inject_Z 100) with 100%Q. change (inject_Z 0) with 0%Q.
  set (r := (inject_Z sa / inject_Z n)%Q) in *. split; lra.
Qed.

End Rationals.

(** ** The conversation memory: categories, summaries, the learning loop *)

Section MemoryMore.
Local Open Scope nat_scope.

Lemma lowerAscii_idempotent (c : ascii) : JS.lowerAscii (JS.lowerAscii c) = JS.lowerAscii c.
Proof. destruct c as [[] [] [] [] [] [] [] []]; reflexivity. Qed.

Lemma toLowerCase_idempotent (s : string) :
  JS.toLowerCase (JS.toLowerCase s) = JS.toLowerCase s.
Proof. induction s as [|c s IH]; [done|]. simpl. by rewrite lowerAscii_idempotent, IH. Qed.

Lemma extractPattern_lower (task : string) :
  Memory.extractPattern (JS.toLowerCase task) = Memory.extractPattern task.
Proof. unfold Memory.extractPattern. by rewrite toLowerCase_idempotent. Qed.

(** X5: classification does not depend on the letter case of the task: neither
    the keyword and simple-task tests nor the memory's category do. *)
Theorem classify_ignores_letter_case
  (e : RuleEngine.t) (mem : option Memory.t) (now : Z) (task tier : string) :
  RuleEngine.classifyTask e mem now (JS.toLowerCase task) tier
  = RuleEngine.classifyTask e mem now task tier.
Proof.
  unfold RuleEngine.classifyTask. destruct (RuleEngine.config e) as [cfg|]; [|done].
  rewrite toLowerCase_idempotent.
  assert (Hmem : forall ms,
            RuleEngine.memoryStep (RuleEngine.strategy e) mem (JS.toLowerCase task) ms
            = RuleEngine.memoryStep (RuleEngine.strategy e) mem task ms).
  { intros ms. unfold RuleEngine.memoryStep. destruct mem as [m|]; [|done].
    unfold getRecommendedTier, Memory_tracker, Memory.getRecommendedTier.
    by rewrite extractPattern_lower. }
  destruct (RuleEngine.escalationStep _ _ _ _ _ _) as [m2 w]. by rewrite Hmem.
Qed.

Lemma firstCategory_spec (lowered : string) (tbl : list (list string * string)) :
  Memory.firstCategory lowered tbl ∈ "general" :: (tbl.*2)
  /\ ("general" ∉ tbl.*2 ->
      (Memory.firstCategory lowered tbl = "general"
       <-> Forall (fun w => JS.includes lowered w = false) (concat (tbl.*1)))).
Proof.
  induction tbl as [|[alts pattern] tbl [IHin IHgen]]; simpl.
  - split; [apply list_elem_of_here|]. intros _. split; [constructor|done].
  - destruct (existsb (JS.includes lowered) alts) eqn:E.
    + split; [apply list_elem_of_further, list_elem_of_here|].
      intros Hnot%not_elem_of_cons. split; [intros ->; by destruct Hnot|].
      intros [Halts _]%Forall_app. apply existsb_exists in E as (w & Hw%list_elem_of_In & Hinc).
      rewrite Forall_forall in Halts. specialize (Halts w Hw). congruence.
    + split.
      * apply elem_of_cons in IHin as [->|IHin]; [apply list_elem_of_here|].
        by do 2 apply list_elem_of_further.
      * intros [_ Hnot]%not_elem_of_cons. rewrite (IHgen Hnot), Forall_app.
        split; [|by intros [_ ?]]. intros Hrest. split; [|done].
        apply Forall_forall. intros w Hw%list_elem_of_In.
        destruct (JS.includes lowered w) eqn:Ew; [|done].
        assert (Hex : existsb (JS.includes lowered) alts = true)
          by (apply existsb_exists; eauto).
        congruence.
Qed.

(** X6: [extractPattern] always answers with one of the eleven categories, and
    with "general" exactly when none of the trigger words occurs in the
    lower-cased task. *)
Theorem extractPattern_category (task : string) :
  Memory.extractPattern task ∈ categories
  /\ (Memory.extractPattern task = "general"
      <-> Forall (fun w => JS.includes (JS.toLowerCase task) w = false) triggerWords).
Proof.
  destruct (firstCategory_spec (JS.toLowerCase task) Memory.patternTable) as [Hin Hgen].
  split; [exact Hin|]. apply Hgen.
  intros Hin'. vm_compute in Hin'. repeat (apply elem_of_cons in Hin' as [Hin'|Hin']; [done|]).
  by apply elem_of_nil in Hin'.
Qed.

Lemma getRecommendedTier_current (m : Memory.t) (task : string) :
  Memory.getRecommendedTier m task
  = Memory.recommendFrom (Memory.extractPattern task) (currentEntries m).
Proof.
  unfold Memory.getRecommendedTier, currentEntries.
  by destruct (Memory.getCurrentSession m) as [[i s]|].
Qed.

Lemma filter_nil_Forall {A} (f : A -> bool) (l : list A) :
  List.filter f l = [] <-> Forall (fun x => f x = false) l.
Proof.
  induction l as [|x l IH]; simpl; [by split; [constructor|]|].
  destruct (f x) eqn:E.
  - split; [done|]. intros [Hx _]%Forall_cons. congruence.
  - rewrite IH. split; [by constructor | by intros [_ ?]%Forall_cons].
Qed.

Lemma allTiers_not_proto (tier : string) : tier ∈ allTiers -> tier <> "__proto__".
Proof.
  unfold allTiers. intros Hin ->.
  repeat (apply elem_of_cons in Hin as [Hin|Hin]; [discriminate|]).
  by apply elem_of_nil in Hin.
Qed.

Lemma recommendFrom_single pattern es e :
  Memory.tier_used e <> "__proto__" ->
  List.filter (Memory.relevant pattern) es = [e] ->
  Memory.recommendFrom pattern es = Some (Memory.tier_used e).
Proof.
  intros Hproto Hf. unfold Memory.recommendFrom. rewrite Hf.
  cbn [fold_left]. unfold Memory.countTier. cbn [JS.dictGet].
  destruct (JS.inheritedMember (Memory.tier_used e)).
  - rewrite (proj2 (String.eqb_neq _ _) Hproto). unfold JS.objectEntries. simpl.
    by destruct (JS.isArrayIndex (Memory.tier_used e)).
  - unfold JS.objectEntries. simpl. by destruct (JS.isArrayIndex (Memory.tier_used e)).
Qed.

(** The entry pushed last decides the recommendation of its category when
    its tier is one of the five labels and the session held no successful
    entry of that category. *)
Lemma recommend_after_push (n : nat) (old : list Memory.MemoryEntry) (e : Memory.MemoryEntry) :
  1 ≤ n ->
  Memory.success e = true ->
  Memory.tier_used e ∈ allTiers ->
  relevantTiers (Memory.task_pattern e) old = [] ->
  Memory.recommendFrom (Memory.task_pattern e) (lastN n (old ++ [e]))
  = Some (Memory.tier_used e).
Proof.
  intros Hn Hok Htier Hnone. apply recommendFrom_single; [by apply allTiers_not_proto|].
  unfold lastN. rewrite length_app. simpl. rewrite drop_app_le by lia.
  rewrite List.filter_app. simpl.
  assert (He : Memory.relevant (Memory.task_pattern e) e = true)
    by (unfold Memory.relevant; by rewrite String.eqb_refl, Hok).
  rewrite He.
  assert (Hold : List.filter (Memory.relevant (Memory.task_pattern e))
                   (drop (length old + 1 - n) old) = []).
  { apply filter_nil_Forall, Forall_drop, filter_nil_Forall.
    unfold relevantTiers in Hnone. by apply fmap_nil_inv in Hnone. }
  by rewrite Hold.
Qed.

(** X7: recording a successful task on one of the five tiers and asking at once
    for a recommendation for the same task returns the tier just used, when
    the session had no successful entry of that category before. *)
Theorem record_success_then_recommend
  (fuel : nat) (uuid : nat -> JS.UUID) (now : string) (m : Memory.t) (task tier : string)
  (ctx : option (list (string * option string))) :
  1 ≤ Memory.maxSessions m ->
  1 ≤ Memory.maxEntriesPerSession m ->
  tier ∈ allTiers ->
  relevantTiers (Memory.extractPattern task) (currentEntries (readySession uuid now m)) = [] ->
  exists m',
    Memory.recordTask (S (S fuel)) uuid now m task tier true ctx = Some m'
    /\ Memory.getRecommendedTier m' task = Some tier.
Proof.
  intros Hs He Htier Hnone.
  destruct (recordTask_returns fuel uuid now m task tier true ctx Hs)
    as (m' & Hrun & _ & _ & Hcur).
  exists m'. split; [done|]. rewrite getRecommendedTier_current, Hcur.
  by apply (recommend_after_push _ _ (Memory.makeEntry now task tier true ctx)).
Qed.

(** X8: a failed task is recorded but never counts: while the session has room,
    recording it changes no recommendation. *)
Theorem failed_task_changes_no_recommendation
  (fuel : nat) (uuid : nat -> JS.UUID) (now : string) (m : Memory.t) (task tier : string)
  (ctx : option (list (string * option string))) (i : nat) (s : Memory.ConversationMemory) :
  Memory.getCurrentSession m = Some (i, s) ->
  length (Memory.entries s) < Memory.maxEntriesPerSession m ->
  exists m',
    Memory.recordTask (S fuel) uuid now m task tier false ctx = Some m'
    /\ currentEntries m' = Memory.entries s ++ [Memory.makeEntry now task tier false ctx]
    /\ forall task', Memory.getRecommendedTier m' task' = Memory.getRecommendedTier m task'.
Proof.
  intros Hc Hroom. eexists. split; [by apply recordTask_found|].
  assert (Hcur : currentEntries
                   (Memory.withData m
                      {| Memory.sessions :=
                           <[i := Memory.pushEntry (Memory.maxEntriesPerSession m)
                                    (Memory.makeEntry now task tier false ctx) s]>
                             (Memory.sessions (Memory.data m));
                         Memory.current_session_id :=
                           Memory.current_session_id (Memory.data m) |})
                 = Memory.entries s ++ [Memory.makeEntry now task tier false ctx]).
  { unfold currentEntries. rewrite (getCurrentSession_pushed _ _ _ _ Hc). simpl.
    rewrite shiftWhileOver_lastN. apply lastN_short. rewrite length_app. simpl. lia. }
  split; [done|]. intros task'.
  rewrite !getRecommendedTier_current, Hcur. unfold currentEntries. rewrite Hc.
  unfold Memory.recommendFrom. rewrite List.filter_app. simpl.
  replace (Memory.relevant (Memory.extractPattern task')
             (Memory.makeEntry now task tier false ctx)) with false
    by (unfold Memory.relevant; simpl; by rewrite andb_false_r).
  by rewrite app_nil_r.
Qed.
End MemoryMore.

(** ** Slices, summaries and fresh sessions *)

Section Summaries.
Local Open Scope nat_scope.

(** [l.slice(-k)]: the last [k] elements for a positive [k]; the whole array
    for [k = 0] (as [-0] is [0]); and for a negative [k] the array without
    its first [-k] elements. *)
Lemma slice_negated {A} (k : Z) (l : list A) :
  JS.slice (- k) l
  = if (0 <? k)%Z then lastN (Z.to_nat k) l else drop (Z.to_nat (- k)) l.
Proof.
  unfold JS.slice, lastN. destruct (Z.ltb_spec 0 k) as [Hpos|Hneg].
  - rewrite (proj2 (Z.ltb_lt _ _)) by lia. f_equal. lia.
  - rewrite (proj2 (Z.ltb_ge _ _)) by lia.
    destruct (Z.le_gt_cases (- k) (Z.of_nat (length l))) as [Hle|Hgt].
    + f_equal. lia.
    + rewrite !drop_ge by lia. done.
Qed.

Lemma lastN_lastN {A} (k n : nat) (l : list A) : k ≤ n -> lastN k (lastN n l) = lastN k l.
Proof.
  intros Hkn. unfold lastN. rewrite length_drop, drop_drop. f_equal. lia.
Qed.

Lemma sum_dictSet (o : list (string * nat)) (k : string) (v : nat) :
  sum_list ((JS.dictSet o k v).*2) + default 0 (JS.dictGet o k) = sum_list (o.*2) + v.
Proof.
  induction o as [|[k0 v0] o IH]; [simpl; lia|].
  cbn [JS.dictSet JS.dictGet]. destruct (String.eqb k0 k); rewrite !fmap_cons; simpl; lia.
Qed.

Lemma sum_bump (o : list (string * nat)) (k : string) :
  sum_list ((Memory.bump o k).*2) = S (sum_list (o.*2)).
Proof.
  unfold Memory.bump.
  pose proof (sum_dictSet o k
                (match JS.dictGet o k with Some n => n + 1 | None => 0 + 1 end)) as Hs.
  destruct (JS.dictGet o k); simpl in *; lia.
Qed.

Lemma sum_bump_all {A} (f : A -> string) (es : list A) (acc : list (string * nat)) :
  sum_list ((fold_left (fun o e => Memory.bump o (f e)) es acc).*2)
  = sum_list (acc.*2) + length es.
Proof.
  revert acc. induction es as [|e es IH]; intros acc; simpl; [lia|].
  rewrite IH, sum_bump. lia.
Qed.

Lemma countSuccess_le_acc (es : list Memory.MemoryEntry) (n : nat) :
  n ≤ fold_left (fun n e => if Memory.success e then S n else n) es n ≤ n + length es.
Proof.
  revert n. induction es as [|e es IH]; intros n; simpl; [lia|].
  destruct (Memory.success e); [specialize (IH (S n)) | specialize (IH n)]; lia.
Qed.

(** X9: the session summary is consistent.  For a session whose entries carry
    categories of [extractPattern] and tiers among the five labels (the
    counters are plain objects keyed by these names), the entry count is the
    number of entries of the current session, the per-category counts and
    the per-tier counts each add up to it, and the success rate is a whole
    percentage between 0 and 100, 0 for an empty session. *)
Theorem session_summary_consistent (m : Memory.t) (sm : Memory.SessionSummary) :
  Forall plainEntry (currentEntries m) ->
  Memory.getSessionSummary m = Some sm ->
  Memory.entry_count sm = length (currentEntries m)
  /\ sum_list ((Memory.patterns sm).*2) = Memory.entry_count sm
  /\ sum_list ((Memory.tier_usage sm).*2) = Memory.entry_count sm
  /\ (0 <= Memory.success_rate sm <= 100)%Z
  /\ (currentEntries m = [] -> Memory.success_rate sm = 0%Z).
Proof.
  intros _. unfold Memory.getSessionSummary, currentEntries.
  destruct (Memory.getCurrentSession m) as [[i s]|]; [|done]. intros [= <-]. simpl.
  split; [done|]. split; [by rewrite sum_bump_all|]. split; [by rewrite sum_bump_all|].
  split.
  - destruct (Nat.ltb_spec 0 (length (Memory.entries s))) as [Hpos|Hzero]; [|lia].
    pose proof (countSuccess_le_acc (Memory.entries s) 0) as Hc.
    destruct (ratio_percent_bounds (Z.of_nat (Memory.countSuccess (Memory.entries s)))
                (Z.of_nat (length (Memory.entries s)))) as [Hlo Hhi];
      [unfold Memory.countSuccess; lia | lia |].
    by apply round_bounds.
  - by intros ->.
Qed.

Lemma list_find_snoc_fresh {A} (P : A -> Prop) `{!forall x, Decision (P x)}
  (l : list A) (x : A) :
  Forall (fun y => ~ P y) l -> P x -> list_find P (l ++ [x]) = Some (length l, x).
Proof.
  intros Hl Hx. apply list_find_Some. split_and!.
  - by rewrite lookup_app_r, Nat.sub_diag.
  - done.
  - intros j y Hj Hlt. rewrite lookup_app_l in Hj by done.
    rewrite Forall_forall in Hl. apply Hl. by eapply list_elem_of_lookup_2.
Qed.

Lemma startNewSession_fresh_current (id : JS.UUID) (now : string) (m : Memory.t) :
  1 ≤ Memory.maxSessions m ->
  Forall (fun s => Memory.session_id s <> JS.uuidString id) (Memory.sessions (Memory.data m)) ->
  exists j, Memory.getCurrentSession (snd (Memory.startNewSession id now m))
            = Some (j, Memory.newSession (JS.uuidString id) now).
Proof.
  intros Hs Hfresh. unfold Memory.getCurrentSession, Memory.startNewSession.
  cbn [snd Memory.data Memory.withData Memory.sessions Memory.current_session_id
       Memory.maxSessions].
  rewrite shiftWhileOver_lastN. unfold lastN.
  rewrite length_app. cbn [length]. rewrite drop_app_le by lia.
  change (JS.truthy (JS.uuidString id)) with true. cbv iota.
  eexists. apply list_find_snoc_fresh; [|done]. by apply Forall_drop.
Qed.

(** X10: a session started under an identifier that no retained session carries
    begins empty: it has no entries, gives no recommendation for any task,
    and its summary counts zero entries. *)
Theorem fresh_session_has_no_history
  (id : JS.UUID) (now : string) (m : Memory.t) (task : string) (limit : option Z) :
  1 ≤ Memory.maxSessions m ->
  Forall (fun s => Memory.session_id s <> JS.uuidString id) (Memory.sessions (Memory.data m)) ->
  currentEntries (snd (Memory.startNewSession id now m)) = []
  /\ Memory.getRecommendedTier (snd (Memory.startNewSession id now m)) task = None
  /\ Memory.getRecentPatterns limit (snd (Memory.startNewSession id now m)) = []
  /\ Memory.entry_count <$> Memory.getSessionSummary (snd (Memory.startNewSession id now m))
     = Some 0.
Proof.
  intros Hs Hfresh.
  destruct (startNewSession_fresh_current id now m Hs Hfresh) as [j Hcur].
  assert (Hempty : currentEntries (snd (Memory.startNewSession id now m)) = [])
    by (unfold currentEntries; by rewrite Hcur).
  split; [done|]. split; [|split].
  - by rewrite getRecommendedTier_current, Hempty.
  - unfold Memory.getRecentPatterns. rewrite Hcur. simpl. unfold JS.slice. simpl.
    by rewrite drop_nil.
  - unfold Memory.getSessionSummary. by rewrite Hcur.
Qed.

Lemma create_currentEntries maxE maxS id now :
  1 ≤ maxS -> currentEntries (Memory.create maxE maxS id now) = [].
Proof.
  intros Hs. unfold Memory.create.
  edestruct (startNewSession_fresh_current id now) as [j Hcur]; [| |unfold currentEntries; by rewrite Hcur].
  - done.
  - by constructor.
Qed.
End Summaries.

(** ** The usage ledger: totals, recent records, rounding, alerts *)

Section LedgerMore.

Lemma recordAll_records (cs : list RecordCall) (d : CostTracker.UsageData) :
  CostTracker.records (recordAll cs d) = CostTracker.records d ++ (recordOf <$> cs).
Proof.
  induction cs as [|c cs IH] using rev_ind; [by rewrite app_nil_r|].
  rewrite recordAll_snoc. simpl. by rewrite IH, fmap_app, app_assoc.
Qed.

(** X15: [getRecentRecords] returns the records of the latest calls in call
    order: the last [limit] ones (ten by default).  A limit of 0 returns
    every record, and a negative limit [-n] returns all but the first [n]. *)
Theorem recent_records_are_the_latest (cs : list RecordCall) (limit : option Z) :
  CostTracker.getRecentRecords limit (recordAll cs CostTracker.empty)
  = recordOf <$> (if 0 <? default 10 limit
                  then lastN (Z.to_nat (default 10 limit)) cs
                  else drop (Z.to_nat (- default 10 limit)) cs).
Proof.
  unfold CostTracker.getRecentRecords. rewrite recordAll_records. simpl.
  rewrite slice_negated. destruct (0 <? default 10 limit).
  - unfold lastN. by rewrite fmap_drop, length_fmap.
  - by rewrite fmap_drop.
Qed.

Lemma spentIn_record iso mk ok d p k :
  CostTracker.spentIn (fst (CostTracker.record iso mk ok d p)) k
  = if String.eqb mk k then (CostTracker.spentIn d k + CostTracker.p_cost_usd p)%Qc
    else CostTracker.spentIn d k.
Proof.
  unfold CostTracker.spentIn, CostTracker.getMonthlyUsage. simpl.
  destruct (String.eqb_spec mk k) as [Heq|Hne].
  - rewrite Heq, lookup_insert_eq. simpl.
    by destruct (CostTracker.monthly_totals d !! k).
  - by rewrite lookup_insert_ne.
Qed.

Lemma percentOf_mono (s s' l : Qc) :
  (s ≤ s')%Qc -> (CostTracker.percentOf s l ≤ CostTracker.percentOf s' l)%Qc.
Proof.
  intros Hs. unfold CostTracker.percentOf.
  destruct (CostTracker.Qc_ltb 0 l) eqn:El; [|apply Qcle_refl].
  apply Qc_ltb_lt in El. apply Qcmult_le_compat_r; [|done].
  unfold Qcdiv. apply Qcmult_le_compat_r; [done|].
  apply Qclt_le_weak. unfold Qclt in *. change (this 0%Qc) with 0%Q in *.
  unfold Qcinv. rewrite this_Q2Qc. by apply Qinv_lt_0_compat.
Qed.

Lemma is_blocked_iff k d budget :
  CostTracker.is_blocked (CostTracker.getStatus k d budget) = true
  <-> exists t, t ∈ thresholdsOf budget
                /\ CostTracker.threshold_action t = "block_high_tier"
                /\ (CostTracker.percent t ≤ exactPercent k d budget)%Qc.
Proof.
  simpl. rewrite existsb_exists. fold (thresholdsOf budget). fold (exactPercent k d budget).
  split.
  - intros (t & Hin%list_elem_of_In%triggered_elem & Hb). exists t.
    unfold CostTracker.blocking in Hb. apply andb_true_iff in Hb as [Ha%String.eqb_eq Hp].
    by destruct Hin.
  - intros (t & Hin & Ha & Hp). exists t. split.
    + apply list_elem_of_In, triggered_elem. done.
    + unfold CostTracker.blocking. rewrite Ha. simpl. by apply Qc_leb_le.
Qed.

(** X17: spending never lifts an alert: after a call of non-negative cost is
    recorded, in whatever month, every alert that was triggered for a month
    is still triggered and a blocked budget is still blocked; a call booked
    in another month leaves the month's status as it was. *)
Theorem recording_keeps_alerts (iso mk : string) (ok : bool) (d : CostTracker.UsageData)
  (p : CostTracker.Params) (k : string) (budget : CostTracker.Budget) :
  (0 ≤ CostTracker.p_cost_usd p)%Qc ->
  let d' := fst (CostTracker.record iso mk ok d p) in
  (forall t, t ∈ CostTracker.triggered_alerts (CostTracker.getStatus k d budget) ->
             t ∈ CostTracker.triggered_alerts (CostTracker.getStatus k d' budget))
  /\ (CostTracker.is_blocked (CostTracker.getStatus k d budget) = true ->
      CostTracker.is_blocked (CostTracker.getStatus k d' budget) = true)
  /\ (mk <> k -> CostTracker.getStatus k d' budget = CostTracker.getStatus k d budget).
Proof.
  intros Hcost d'.
  assert (Hspent : (CostTracker.spentIn d k ≤ CostTracker.spentIn d' k)%Qc).
  { subst d'. rewrite spentIn_record. destruct (String.eqb mk k); [|apply Qcle_refl].
    rewrite <- (Qcplus_0_r (CostTracker.spentIn d k)) at 1.
    by apply Qcplus_le_compat; [apply Qcle_refl|]. }
  assert (Hpct : (exactPercent k d budget ≤ exactPercent k d' budget)%Qc)
    by (by apply percentOf_mono).
  split; [|split].
  - intros t. cbn [CostTracker.getStatus CostTracker.triggered_alerts].
    fold (exactPercent k d budget). fold (exactPercent k d' budget).
    rewrite !triggered_elem. intros [Hin Hp]. split; [done|]. by eapply Qcle_trans.
  - rewrite !is_blocked_iff. intros (t & Hin & Ha & Hp). exists t.
    split_and!; [done..|]. by eapply Qcle_trans.
  - intros Hne. subst d'. unfold CostTracker.getStatus, CostTracker.spentIn,
      CostTracker.getMonthlyUsage. simpl. by rewrite lookup_insert_ne.
Qed.
End LedgerMore.

(** ** The memory after recordings and tier switches *)

Section MemoryRecent.
Local Open Scope nat_scope.

Lemma getRecentPatterns_current (limit : option Z) (m : Memory.t) :
  Memory.getRecentPatterns limit m
  = Memory.task_pattern <$> JS.slice (- default 5 limit)%Z (currentEntries m).
Proof.
  unfold Memory.getRecentPatterns, currentEntries.
  destruct (Memory.getCurrentSession m) as [[i s]|]; [done|].
  unfold JS.slice. by rewrite drop_nil.
Qed.

Lemma fmap_lastN {A B} (f : A -> B) (n : nat) (l : list A) :
  f <$> lastN n l = lastN n (f <$> l).
Proof. unfold lastN. by rewrite fmap_drop, length_fmap. Qed.

(** X11: after a run of [recordTask] calls, [getRecentPatterns] returns the
    categories of the latest entries, oldest first: the last [limit] (five by
    default) of the categories the session held followed by those of the
    recorded tasks, for a positive limit within the entry bound. *)
Theorem recent_patterns_after_recording
  (maxE maxS fuel : nat) (calls : list TaskCall) (m : Memory.t) (limit : option Z) :
  withinCapacity maxE maxS m ->
  (0 < default 5 limit)%Z ->
  Z.to_nat (default 5%Z limit) ≤ maxE ->
  exists m',
    runOps (S fuel) (OpRecordTask <$> calls) m = Some m'
    /\ Memory.getRecentPatterns limit m'
       = lastN (Z.to_nat (default 5%Z limit))
           ((Memory.task_pattern <$> currentEntries m)
            ++ ((fun c => Memory.extractPattern (tc_task c)) <$> calls)).
Proof.
  intros Hm Hpos Hle.
  destruct (recordTasks_current maxE maxS fuel calls m Hm) as (m' & Hrun & _ & Hcur).
  exists m'. split; [done|].
  rewrite getRecentPatterns_current, slice_negated, (proj2 (Z.ltb_lt _ _)) by done.
  rewrite Hcur, lastN_lastN, fmap_lastN, fmap_app, <- list_fmap_compose by done.
  done.
Qed.

Lemma tier_switch_is_general (fromTier toTier : string) :
  fromTier ∈ allTiers -> toTier ∈ allTiers ->
  Memory.extractPattern ("tier_switch:" +:+ fromTier +:+ "->" +:+ toTier) = "general".
Proof.
  unfold allTiers. intros Hf Ht.
  repeat (apply elem_of_cons in Hf as [->|Hf]);
    [..|by apply elem_of_nil in Hf];
    (repeat (apply elem_of_cons in Ht as [->|Ht]);
      [..|by apply elem_of_nil in Ht]); by_computation.
Qed.

Lemma availableTiers_allTiers (s : StrategyType) (tier : string) :
  tier ∈ RuleEngine.getAvailableTiers s -> tier ∈ allTiers.
Proof.
  unfold allTiers. destruct s; simpl; intros Hin;
    repeat (apply elem_of_cons in Hin as [->|Hin]);
    try (by apply elem_of_nil in Hin); set_solver.
Qed.

(** X12: a tier switch is remembered as a successful task of category "general":
    after [switch_tier] to a legal tier, a session that held no successful
    general task recommends the new tier for every task of that category. *)
Theorem tier_switch_teaches_general_tasks
  (fuel : nat) (env : Server.Env) (tier : string) (why : option string)
  (ctx : Server.ServerContext) (task : string) :
  1 ≤ Memory.maxSessions (Server.memoryTracker ctx) ->
  1 ≤ Memory.maxEntriesPerSession (Server.memoryTracker ctx) ->
  Server.currentTier (Server.state ctx) ∈ allTiers ->
  RuleEngine.isValidTier (RuleEngine.strategy (Server.ruleEngine ctx)) tier = true ->
  Memory.extractPattern task = "general" ->
  relevantTiers "general"
    (currentEntries (readySession (Server.uuid env 0) (Server.nowIso env)
                       (Server.memoryTracker ctx))) = [] ->
  exists r ctx',
    Server.handleSwitchTier (S (S fuel)) env tier why ctx = Some (r, ctx')
    /\ Server.currentTier (Server.state ctx') = tier
    /\ Memory.getRecommendedTier (Server.memoryTracker ctx') task = Some tier.
Proof.
  intros Hs He Hcur Hvalid Htask Hnone. unfold Server.handleSwitchTier.
  rewrite Hvalid. cbn [negb].
  destruct (switchTier_returns fuel env 0 ctx tier why Hs) as (m' & Hrun & _ & Hm').
  rewrite Hrun. cbn [mbind option_bind]. eexists _, _. split; [done|]. split; [done|].
  cbn [Server.memoryTracker]. rewrite getRecommendedTier_current, Hm', Htask.
  assert (Htier : tier ∈ allTiers)
    by (by eapply availableTiers_allTiers, isValidTier_elem).
  assert (Hpat : Memory.task_pattern
                   (switchEntry (Server.nowIso env) (Server.currentTier (Server.state ctx))
                      tier why) = "general")
    by (by apply tier_switch_is_general).
  rewrite <- Hpat at 1.
  apply (recommend_after_push _ _ (switchEntry _ _ _ _)); [done..|]. by rewrite Hpat.
Qed.
End MemoryRecent.

(** ** The dispatcher over series of tool calls *)

Section Calls.
Local Open Scope nat_scope.

Lemma recordTask_result_current fuel uuid now m task tier ok ctx m' :
  Memory.recordTask fuel uuid now m task tier ok ctx = Some m' ->
  is_Some (Memory.getCurrentSession m').
Proof.
  revert uuid m. induction fuel as [|fuel IH]; intros uuid m; [done|].
  simpl. destruct (Memory.getCurrentSession m) as [[i s]|] eqn:Hc.
  - intros [= <-]. rewrite (getCurrentSession_pushed _ _ _ _ Hc). by eexists.
  - apply IH.
Qed.

Lemma classify_target_available (e : RuleEngine.t) (mem : option Memory.t) (now : Z)
  (task tier : string) (m : RuleMatch) :
  (forall cfg, RuleEngine.config e = Some cfg -> targetsWithin (RuleEngine.strategy e) cfg) ->
  fst (RuleEngine.classifyTask e mem now task tier) = Some m ->
  target_tier m ∈ RuleEngine.getAvailableTiers (RuleEngine.strategy e).
Proof.
  intros Hwt. destruct (RuleEngine.config e) as [cfg|] eqn:Hcfg;
    [|by unfold RuleEngine.classifyTask; rewrite Hcfg].
  specialize (Hwt cfg eq_refl).
  rewrite (classifyTask_unfold _ _ _ _ _ _ Hcfg).
  intros Hm%head_sort_elem. revert m Hm. apply Forall_forall.
  set (s := RuleEngine.strategy e) in *.
  assert (Hkw : Forall (fun m => target_tier m ∈ RuleEngine.getAvailableTiers s)
                  (RuleEngine.keywordMatches s (JS.toLowerCase task)
                     (RuleEngine.keyword_rules cfg))).
  { apply Forall_forall. intros m (rule & Hrule & Hm)%list_elem_of_omap.
    unfold RuleEngine.keywordMatch in Hm.
    destruct (RuleEngine.firstPattern _ _); [|done].
    destruct (RuleEngine.rule_target_tier rule !! strategyName s) as [t|] eqn:Ht; [|done].
    destruct (JS.truthy t) eqn:Htr; [|done]. simplify_eq/=. by eapply Hwt. }
  assert (Hesc : Forall (fun m => target_tier m ∈ RuleEngine.getAvailableTiers s)
                   (fst (RuleEngine.escalationStep cfg s now tier (RuleEngine.errorWindow e)
                           (RuleEngine.keywordMatches s (JS.toLowerCase task)
                              (RuleEngine.keyword_rules cfg))))).
  { unfold RuleEngine.escalationStep.
    destruct (RuleEngine.enabled _); [|done].
    destruct (_ <=? _)%Z; [|done].
    destruct (RuleEngine.getEscalatedTier s tier) as [next|] eqn:Hn; [|done].
    simpl. apply Forall_app. split; [done|].
    constructor; [|constructor]. by eapply getEscalatedTier_valid. }
  revert Hesc. generalize (fst (RuleEngine.escalationStep cfg s now tier
    (RuleEngine.errorWindow e) (RuleEngine.keywordMatches s (JS.toLowerCase task)
    (RuleEngine.keyword_rules cfg)))). intros m2 Hm2.
  assert (Hcost : Forall (fun m => target_tier m ∈ RuleEngine.getAvailableTiers s)
                    (RuleEngine.costStep cfg s (JS.toLowerCase task) m2)).
  { unfold RuleEngine.costStep.
    destruct (RuleEngine.cost_optimization cfg) as [co|]; [|done].
    destruct (_ && _); [|done].
    destruct (RuleEngine.firstPattern _ _); [|done].
    apply Forall_app. split; [done|]. constructor; [|constructor].
    destruct s; simpl; set_solver. }
  revert Hcost. generalize (RuleEngine.costStep cfg s (JS.toLowerCase task) m2).
  intros m3 Hm3. unfold RuleEngine.memoryStep.
  destruct (_ =? _)%nat; [|done].
  destruct mem as [mm|]; [|done].
  destruct (getRecommendedTier mm task) as [r|]; [|done].
  destruct (JS.truthy r); [|done]. simpl.
  destruct (RuleEngine.isValidTier s r) eqn:Hv; [|done].
  apply Forall_app. split; [done|]. constructor; [|constructor].
  by apply isValidTier_elem.
Qed.

(** A classification changes nothing of the engine but its error window,
    which it can only shorten. *)
Lemma classify_engine (e : RuleEngine.t) (mem : option Memory.t) (now : Z)
  (task tier : string) :
  RuleEngine.config (snd (RuleEngine.classifyTask e mem now task tier)) = RuleEngine.config e
  /\ RuleEngine.strategy (snd (RuleEngine.classifyTask e mem now task tier))
     = RuleEngine.strategy e
  /\ (RuleEngine.errorWindow e = [] ->
      RuleEngine.errorWindow (snd (RuleEngine.classifyTask e mem now task tier)) = []).
Proof.
  unfold RuleEngine.classifyTask. destruct (RuleEngine.config e) as [cfg|] eqn:Hcfg; [|done].
  destruct (RuleEngine.escalationStep _ _ _ _ _ _) as [m2 w] eqn:E.
  cbn [snd RuleEngine.config RuleEngine.strategy RuleEngine.errorWindow RuleEngine.withWindow].
  split_and!; [done..|]. intros Hw. rewrite Hw in E.
  unfold RuleEngine.escalationStep in E.
  destruct (RuleEngine.enabled _); [|by simplify_eq].
  cbn [RuleEngine.cleanWindow List.filter] in E.
  destruct (_ <=? _)%Z; [|by simplify_eq].
  destruct (RuleEngine.getEscalatedTier _ _); by simplify_eq.
Qed.

Lemma fallbackTier_available (ctx : Server.ServerContext) :
  Server.fallbackTier ctx ∈ RuleEngine.getAvailableTiers (Server.strategy (Server.state ctx)).
Proof. unfold Server.fallbackTier. destruct (Server.strategy _); simpl; set_solver. Qed.

Lemma determineTargetTier_serving rules ledger env args ctx d eng :
  serving rules ledger ctx ->
  Server.determineTargetTier env args ctx = Some (d, eng) ->
  (wellTargeted rules ->
   Server.targetTier d ∈ RuleEngine.getAvailableTiers (Server.strategy (Server.state ctx)))
  /\ RuleEngine.config eng = rules
  /\ RuleEngine.strategy eng = RuleEngine.strategy (Server.ruleEngine ctx)
  /\ RuleEngine.errorWindow eng = [].
Proof.
  intros (Hcoh & Hcfg & Hwin & _ & _). unfold Server.determineTargetTier.
  destruct (Server.forced args) as [f|].
  - destruct (RuleEngine.isValidTier _ f) eqn:Hv; [|done]. cbn [negb].
    destruct (_ && _); intros [= <- <-]; cbn [Server.targetTier];
      (split_and!; [|done..]); intros Hwt; destruct (Hcoh Hwt) as [Hs Ht].
    + apply fallbackTier_available.
    + rewrite Hs. by apply isValidTier_elem.
  - destruct (RuleEngine.classifyTask _ _ _ _ _) as [rm eng'] eqn:Hc.
    pose proof (classify_engine (Server.ruleEngine ctx) (Some (Server.memoryTracker ctx))
                  (Server.nowMs env) (Server.task args)
                  (Server.currentTier (Server.state ctx))) as He.
    pose proof (classify_target_available (Server.ruleEngine ctx)
                  (Some (Server.memoryTracker ctx)) (Server.nowMs env) (Server.task args)
                  (Server.currentTier (Server.state ctx))) as Ht.
    rewrite Hc in He, Ht. cbn [fst snd] in He, Ht. destruct He as (He1 & He2 & He3).
    assert (Heng : RuleEngine.config eng' = rules
                   /\ RuleEngine.strategy eng' = RuleEngine.strategy (Server.ruleEngine ctx)
                   /\ RuleEngine.errorWindow eng' = [])
      by (split_and!; [congruence | done | by apply He3]).
    destruct rm as [m|].
    + destruct (_ && _); intros [= <- <-]; cbn [Server.targetTier];
        (split; [|done]); intros Hwt; destruct (Hcoh Hwt) as [Hs Hcur].
      * apply fallbackTier_available.
      * rewrite Hs. apply Ht; [|done]. intros cfg Hcfg'. apply Hwt. congruence.
    + intros [= <- <-]. cbn [Server.targetTier]. split; [|done].
      intros Hwt. by destruct (Hcoh Hwt).
Qed.

Lemma createContext_serving cfg s rules noColor ledger memory :
  1 ≤ Memory.maxSessions memory ->
  serving rules ledger (Server.createContext cfg s rules noColor ledger memory).
Proof.
  intros Hs. split_and!; try done. intros _. split; [done|]. destruct s; simpl; set_solver.
Qed.

Lemma handleToolCall_serving rules ledger fuel env call ctx :
  serving rules ledger ctx ->
  exists r ctx',
    Server.handleToolCall (S (S fuel)) env call ctx = Some (r, ctx')
    /\ serving rules ledger ctx'.
Proof.
  intros Hserv. pose proof Hserv as (Hcoh & Hcfg & Hwin & Hled & Hs).
  destruct call as [tier why|isEnabled s| |args|monthlyLimit alert|toolName];
    cbn [Server.handleToolCall]; try (by eexists _, _).
  - unfold Server.handleSwitchTier.
    destruct (RuleEngine.isValidTier _ tier) eqn:Hv; cbn [negb]; [|by eexists _, _].
    destruct (switchTier_returns fuel env 0 ctx tier why Hs) as (m' & Hrun & HS & _).
    rewrite Hrun. cbn [mbind option_bind].
    eexists _, _. split; [done|]. split_and!; cbn; try done; [|lia].
    intros Hwt. destruct (Hcoh Hwt) as [Hst Hcur]. split; [done|].
    cbn. rewrite Hst. by apply isValidTier_elem.
  - eexists _, _. split; [done|]. unfold Server.handleSetAutoMode.
    destruct s as [s'|]; [|by split_and!].
    cbn [Server.state Server.withState Server.strategy].
    destruct (decide (s' = Server.strategy (Server.state ctx))); [by split_and!|].
    split_and!; cbn; try done. intros _. split; [done|]. destruct s'; simpl; set_solver.
  - unfold Server.handleOrchestrate.
    destruct (negb (JS.truthy (Server.task args)) || JS.isBlank (Server.task args));
      [by eexists _, _|].
    destruct (Server.determineTargetTier env args ctx) as [[d eng]|] eqn:Hd;
      [|by eexists _, _].
    destruct (determineTargetTier_serving _ _ _ _ _ _ _ Hserv Hd)
      as (Htarget & Hecfg & Hestrat & Hewin).
    assert (Hidle : serving rules ledger (Server.withEngine ctx eng)).
    { split_and!; cbn; try done. intros Hwt. destruct (Hcoh Hwt) as [Hst Hcur].
      split; [cbn; congruence | done]. }
    destruct (negb (String.eqb (Server.targetTier d) _)); cbn [andb];
      [|by eexists _, _].
    destruct (default true (Server.auto_switch args)); cbn [andb negb];
      [|destruct (Server.autoMode _); cbn [negb]; by eexists _, _].
    destruct (Server.autoMode (Server.state (Server.withEngine ctx eng))) eqn:Ha;
      cbn [negb]; [|by eexists _, _].
    destruct (switchTier_returns fuel env 0 (Server.withEngine ctx eng) (Server.targetTier d)
                (Some (Server.decisionReason d)) Hs) as (m1 & Hsw & HS1 & _).
    rewrite Hsw. cbn [mbind option_bind Server.memoryTracker].
    destruct (recordTask_returns fuel (Server.uuid env 1) (Server.nowIso env) m1
                (Server.task args) (Server.targetTier d) true
                (Some [("reason", Some (Server.decisionReason d))]))
      as (m2 & Hrec & HS2 & _); [by rewrite HS1|].
    rewrite Hrec. cbn [mbind option_bind].
    eexists _, _. split; [done|]. split_and!; cbn; try done.
    + intros Hwt. destruct (Hcoh Hwt) as [Hst Hcur]. split; [cbn; congruence|].
      cbn. by apply Htarget.
    + cbn in HS1. lia.
  - unfold Server.handleSetBudget.
    destruct (CostTracker.Qc_leb monthlyLimit 0); [by eexists _, _|].
    destruct (_ || _); [by eexists _, _|].
    eexists _, _. split; [done|].
    by destruct (Server.budget (Server.config ctx)).
Qed.

Lemma runCalls_serving rules ledger fuel calls ctx :
  serving rules ledger ctx ->
  exists ctx', runCalls (S (S fuel)) calls ctx = Some ctx' /\ serving rules ledger ctx'.
Proof.
  revert ctx. induction calls as [|[env call] calls IH]; intros ctx Hserv; [by exists ctx|].
  destruct (handleToolCall_serving rules ledger fuel env call ctx Hserv)
    as (r & ctx1 & Hrun & Hserv1).
  cbn [runCalls]. rewrite Hrun. cbn [mbind option_bind]. by apply IH.
Qed.

(** X18: every series of tool calls made on a freshly created server is
    answered, and leaves the dispatcher and its rule engine on the same
    strategy with a current tier that belongs to it, as long as the keyword
    rules name, for each strategy, only tiers of that strategy. *)
Theorem tool_calls_keep_dispatcher_coherent
  (cfg : Server.MergedConfig) (s : StrategyType) (rules : option RuleEngine.RulesConfig)
  (noColor : bool) (ledger : CostTracker.UsageData) (memory : Memory.t) (fuel : nat)
  (calls : list (Server.Env * Server.ToolCall)) :
  wellTargeted rules ->
  1 ≤ Memory.maxSessions memory ->
  exists ctx',
    runCalls (S (S fuel)) calls (Server.createContext cfg s rules noColor ledger memory)
    = Some ctx'
    /\ Server.strategy (Server.state ctx') = RuleEngine.strategy (Server.ruleEngine ctx')
    /\ RuleEngine.isValidTier (Server.strategy (Server.state ctx'))
         (Server.currentTier (Server.state ctx')) = true.
Proof.
  intros Hwt Hs.
  destruct (runCalls_serving rules ledger fuel calls _
              (createContext_serving cfg s rules noColor ledger memory Hs))
    as (ctx' & Hrun & Hcoh & _).
  exists ctx'. destruct (Hcoh Hwt) as [Hst Hcur]. split_and!; [done..|].
  by apply isValidTier_elem.
Qed.

(** X19: no tool call records usage or an error: after any series of tool calls
    the ledger is the one the server started with, the engine still holds
    the rules it was built with and an empty error window, and so, for a
    threshold of one or more, error escalation never fires. *)
Theorem tool_calls_never_record_usage_or_errors
  (cfg : Server.MergedConfig) (s : StrategyType) (rules : option RuleEngine.RulesConfig)
  (noColor : bool) (ledger : CostTracker.UsageData) (memory : Memory.t) (fuel : nat)
  (calls : list (Server.Env * Server.ToolCall)) :
  1 ≤ Memory.maxSessions memory ->
  exists ctx',
    runCalls (S (S fuel)) calls (Server.createContext cfg s rules noColor ledger memory)
    = Some ctx'
    /\ Server.costTracker ctx' = ledger
    /\ RuleEngine.config (Server.ruleEngine ctx') = rules
    /\ RuleEngine.errorWindow (Server.ruleEngine ctx') = []
    /\ forall rc now tier,
         rules = Some rc ->
         (1 <= RuleEngine.threshold (RuleEngine.error_escalation rc))%Z ->
         escalationFires rc (RuleEngine.strategy (Server.ruleEngine ctx')) now tier
           (RuleEngine.errorWindow (Server.ruleEngine ctx')) = false.
Proof.
  intros Hs.
  destruct (runCalls_serving rules ledger fuel calls _
              (createContext_serving cfg s rules noColor ledger memory Hs))
    as (ctx' & Hrun & _ & Hcfg & Hwin & Hled & _).
  exists ctx'. split_and!; [done..|].
  intros rc now tier _ Hth. unfold escalationFires. rewrite Hwin. simpl.
  rewrite (proj2 (Z.leb_gt _ _)) by lia. by rewrite andb_false_r.
Qed.
End Calls.

(** ** Orchestration: switching and advising *)

Section Orchestrate.
Local Open Scope nat_scope.

(** X20: when the decision differs from the current tier, auto mode is on and the
    caller did not decline switching, [orchestrate] switches: the current
    tier becomes the target and the session gains two entries, the tier
    switch and then the task itself, both marked successful on the target
    tier. *)
Theorem orchestrate_switch_is_remembered
  (fuel : nat) (env : Server.Env) (args : Server.OrchestrateArgs)
  (ctx : Server.ServerContext) (d : Server.Decision) (eng : RuleEngine.t) :
  1 ≤ Memory.maxSessions (Server.memoryTracker ctx) ->
  JS.isBlank (Server.task args) = false ->
  Server.determineTargetTier env args ctx = Some (d, eng) ->
  Server.targetTier d <> Server.currentTier (Server.state ctx) ->
  Server.autoMode (Server.state ctx) = true ->
  Server.auto_switch args <> Some false ->
  exists ctx',
    Server.handleOrchestrate (S (S fuel)) env args ctx
    = Some (Server.Routed d Server.SwitchedTo, ctx')
    /\ Server.state ctx' = Server.setTier (Server.state ctx) (Server.targetTier d)
    /\ Server.ruleEngine ctx' = eng
    /\ currentEntries (Server.memoryTracker ctx')
       = lastN (Memory.maxEntriesPerSession (Server.memoryTracker ctx))
           (currentEntries (readySession (Server.uuid env 0) (Server.nowIso env)
                              (Server.memoryTracker ctx))
            ++ [ switchEntry (Server.nowIso env) (Server.currentTier (Server.state ctx))
                   (Server.targetTier d) (Some (Server.decisionReason d));
                 Memory.makeEntry (Server.nowIso env) (Server.task args)
                   (Server.targetTier d) true
                   (Some [("reason", Some (Server.decisionReason d))]) ]).
Proof.
  intros Hs Hb Hd Hne Hauto Hsw. unfold Server.handleOrchestrate.
  rewrite Hb, (isBlank_false_truthy _ Hb), Hd. cbn [negb orb].
  cbn [Server.state Server.withEngine]. rewrite (proj2 (String.eqb_neq _ _) Hne), Hauto.
  assert (Hdef : default true (Server.auto_switch args) = true)
    by (by destruct (Server.auto_switch args) as [[]|]).
  rewrite Hdef. cbn [negb andb].
  unfold Server.switchTier, Memory.recordTierSwitch.
  cbn [Server.state Server.withState Server.withEngine Server.memoryTracker].
  destruct (recordTask_returns fuel (Server.uuid env 0) (Server.nowIso env)
              (Server.memoryTracker ctx)
              ("tier_switch:" +:+ Server.currentTier (Server.state ctx) +:+ "->"
               +:+ Server.targetTier d)
              (Server.targetTier d) true (Some [("reason", Some (Server.decisionReason d))])
              Hs) as (m1 & Hrun1 & HS1 & HE1 & Hcur1).
  rewrite Hrun1. cbn [mbind option_bind Server.memoryTracker Server.withMemory].
  destruct (recordTask_returns fuel (Server.uuid env 1) (Server.nowIso env) m1
              (Server.task args) (Server.targetTier d) true
              (Some [("reason", Some (Server.decisionReason d))]))
    as (m2 & Hrun2 & _ & _ & Hcur2); [by rewrite HS1|].
  rewrite Hrun2. cbn [mbind option_bind]. eexists. split; [done|].
  cbn [Server.state Server.ruleEngine Server.memoryTracker Server.withMemory].
  split_and!; [done..|].
  assert (Hready : readySession (Server.uuid env 1) (Server.nowIso env) m1 = m1).
  { unfold readySession.
    by destruct (recordTask_result_current _ _ _ _ _ _ _ _ _ Hrun1) as [? ->]. }
  rewrite Hcur2, Hready, HE1, Hcur1, lastN_app_lastN, <- app_assoc. done.
Qed.

(** X21: with auto mode off, or when the caller passes [auto_switch = false],
    [orchestrate] only advises: it answers for any well-formed call, and the
    current tier, the dispatcher state, the memory, the ledger and the
    configuration are left as they were. *)
Theorem orchestrate_advises_without_switching
  (fuel : nat) (env : Server.Env) (args : Server.OrchestrateArgs)
  (ctx : Server.ServerContext) :
  Server.autoMode (Server.state ctx) = false \/ Server.auto_switch args = Some false ->
  exists r ctx',
    Server.handleOrchestrate fuel env args ctx = Some (r, ctx')
    /\ Server.state ctx' = Server.state ctx
    /\ Server.memoryTracker ctx' = Server.memoryTracker ctx
    /\ Server.costTracker ctx' = Server.costTracker ctx
    /\ Server.config ctx' = Server.config ctx
    /\ (forall d a, r = Server.Routed d a -> a <> Server.SwitchedTo).
Proof.
  intros Hoff. unfold Server.handleOrchestrate.
  destruct (negb (JS.truthy (Server.task args)) || JS.isBlank (Server.task args));
    [by eexists _, _|].
  destruct (Server.determineTargetTier env args ctx) as [[d eng]|]; [|by eexists _, _].
  cbn [Server.state Server.withEngine].
  assert (Hno : default true (Server.auto_switch args)
                && Server.autoMode (Server.state ctx) = false).
  { destruct Hoff as [->| ->]; [apply andb_false_r | done]. }
  destruct (negb (String.eqb (Server.targetTier d) _)); cbn [andb];
    [|eexists _, _; split_and!; [done..|]; by intros ?? [= <- <-]].
  rewrite Hno.
  destruct (negb (Server.autoMode (Server.state ctx)));
    [eexists _, _; split_and!; [done..|]; by intros ?? [= <- <-]|].
  destruct (negb (default true (Server.auto_switch args)));
    eexists _, _; split_and!; try done; by intros ?? [= <- <-].
Qed.
End Orchestrate.

(** ** Budgets without stored thresholds *)

Section Budgets.

Lemma status_without_thresholds (env : Server.Env) (ctx : Server.ServerContext) :
  storedThresholds ctx = [] ->
  CostTracker.triggered_alerts (Server.handleGetStatus env ctx) = []
  /\ CostTracker.is_blocked (Server.handleGetStatus env ctx) = false.
Proof.
  unfold storedThresholds, Server.handleGetStatus, Server.effectiveBudget. intros Hnone.
  destruct (Server.budget (Server.config ctx)) as [b|]; simpl; [by rewrite Hnone|done].
Qed.

(** X22: [set_budget] shows thresholds in its answer but stores none: on a
    configuration without stored thresholds, whatever limit is set and
    whatever is spent afterwards, a later status triggers no alert and is
    never blocked, and [orchestrate] never falls back for budget reasons. *)
Theorem set_budget_alone_never_blocks
  (env env' : Server.Env) (monthlyLimit : Qc) (alert : option Qc)
  (ctx ctx' : Server.ServerContext) :
  storedThresholds ctx = [] ->
  Server.config ctx' = Server.config (snd (Server.handleSetBudget env monthlyLimit alert ctx)) ->
  CostTracker.triggered_alerts (Server.handleGetStatus env' ctx') = []
  /\ CostTracker.is_blocked (Server.handleGetStatus env' ctx') = false
  /\ forall args d eng,
       Server.determineTargetTier env' args ctx' = Some (d, eng) ->
       Server.budgetFallback d = false.
Proof.
  intros Hnone Hcfg.
  assert (Hstored : storedThresholds ctx' = []).
  { unfold storedThresholds in *. rewrite Hcfg. unfold Server.handleSetBudget.
    destruct (CostTracker.Qc_leb monthlyLimit 0); [done|].
    destruct (_ || _); [done|]. cbn [snd].
    by destruct (Server.budget (Server.config ctx)). }
  destruct (status_without_thresholds env' ctx' Hstored) as [Htrig Hblk].
  split_and!; [done..|]. intros args d eng. unfold Server.determineTargetTier.
  rewrite Hblk. cbn [andb].
  destruct (Server.forced args) as [f|].
  - destruct (negb _); [done|]. by intros [= <- <-].
  - destruct (RuleEngine.classifyTask _ _ _ _ _) as [[m|] e]; by intros [= <- <-].
Qed.
End Budgets.

(** ** Model references and costs *)

Section Models.

Lemma split_plain (sep : ascii) (s : string) :
  hasChar sep s = false -> JS.split sep s = [s].
Proof.
  induction s as [|c s IH]; [done|]. simpl.
  destruct (Ascii.eqb c sep); [done|]. simpl. intros Hs. by rewrite (IH Hs).
Qed.

Lemma split_app (sep : ascii) (a b : string) :
  hasChar sep a = false -> JS.split sep (a +:+ String sep b) = a :: JS.split sep b.
Proof.
  induction a as [|c a IH]; simpl.
  - intros _. by rewrite Ascii.eqb_refl.
  - destruct (Ascii.eqb c sep); [done|]. simpl. intros Ha. by rewrite (IH Ha).
Qed.

Lemma split_pieces (sep : ascii) (s : string) :
  JS.split sep s <> []
  /\ Forall (fun piece => hasChar sep piece = false) (JS.split sep s)
  /\ joinWith sep (JS.split sep s) = s.
Proof.
  induction s as [|c s (Hne & Hall & Hjoin)]; [by repeat constructor|]. simpl.
  destruct (Ascii.eqb_spec c sep) as [->|Hc].
  - split_and!; [done| by constructor |].
    destruct (JS.split sep s) as [|piece rest]; [done|]. simpl in *. by rewrite Hjoin.
  - destruct (JS.split sep s) as [|piece rest]; [done|].
    apply Forall_cons in Hall as [Hp Hrest].
    split_and!; [done| |].
    + constructor; [|done]. simpl. rewrite Hp.
      by rewrite (proj2 (Ascii.eqb_neq _ _) Hc).
    + destruct rest; simpl in *; by rewrite <- Hjoin.
Qed.

Lemma truthy_nonempty (s : string) : JS.truthy s = true <-> s <> EmptyString.
Proof. by destruct s. Qed.

(** X23: [parseModelRef] accepts exactly the references that begin with a
    non-empty provider, a colon and a non-empty model, both free of colons;
    it returns these two, and anything after a second colon is dropped. *)
Theorem parseModelRef_accepts_provider_colon_model (modelRef provider model : string) :
  Loader.parseModelRef modelRef = JS.Ok (provider, model)
  <-> plainName provider /\ plainName model
      /\ (modelRef = provider +:+ ":" +:+ model
          \/ exists rest, modelRef = provider +:+ ":" +:+ model +:+ ":" +:+ rest).
Proof.
  unfold Loader.parseModelRef, plainName. split.
  - destruct (split_pieces Loader.colon modelRef) as (_ & Hall & Hjoin).
    destruct (JS.split Loader.colon modelRef) as [|p [|m rest]]; [done..|].
    cbn [lookup list_lookup].
    destruct (JS.truthy p) eqn:Hp; [|done]. destruct (JS.truthy m) eqn:Hm; [|done].
    cbn [andb]. intros [= <- <-].
    apply Forall_cons in Hall as [Hcp Hall]. apply Forall_cons in Hall as [Hcm Hall].
    apply truthy_nonempty in Hp, Hm. split_and!; [done..|].
    rewrite <- Hjoin. destruct rest as [|r rest]; [by left|]. right.
    exists (joinWith Loader.colon (r :: rest)).
    change (joinWith Loader.colon (p :: m :: r :: rest))
      with (p +:+ String Loader.colon (m +:+ String Loader.colon
                                          (joinWith Loader.colon (r :: rest)))).
    done.
  - intros ((Hp & Hcp) & (Hm & Hcm) & Href).
    assert (Hsplit : exists rest, JS.split Loader.colon modelRef = provider :: model :: rest).
    { destruct Href as [->|[rest ->]].
      - exists []. change (provider +:+ ":" +:+ model)
          with (provider +:+ String Loader.colon model).
        by rewrite split_app, split_plain.
      - exists (JS.split Loader.colon rest).
        change (provider +:+ ":" +:+ model +:+ ":" +:+ rest)
          with (provider +:+ String Loader.colon (model +:+ String Loader.colon rest)).
        by rewrite !split_app. }
    destruct Hsplit as [rest ->]. cbn [lookup list_lookup].
    by rewrite (proj2 (truthy_nonempty _) Hp), (proj2 (truthy_nonempty _) Hm).
Qed.

(** X24: for a reference that [parseModelRef] accepts, [getCurrentModel] resolves
    the same provider and model: when the provider table holds that
    provider and the provider that model, it answers with the provider, the
    model and the identifier configured for the model. *)
Theorem getCurrentModel_follows_parseModelRef
  (providers : gmap string Provider.ProviderConfig) (ctx : Server.ServerContext)
  (modelRef provider model : string)
  (providerConfig : Provider.ProviderConfig) (modelConfig : Provider.ModelConfig) :
  Server.currentModelRef ctx = Some modelRef ->
  Loader.parseModelRef modelRef = JS.Ok (provider, model) ->
  providers !! provider = Some providerConfig ->
  Provider.models providerConfig !! model = Some modelConfig ->
  Server.getCurrentModel providers ctx
  = JS.Ok {| Server.info_provider := provider;
             Server.info_model := Some model;
             Server.info_modelId := Provider.id modelConfig |}.
Proof.
  intros Href Hparse Hprov Hmodel. unfold Server.getCurrentModel. rewrite Href.
  unfold Loader.parseModelRef in Hparse.
  destruct (JS.split Loader.colon modelRef) as [|p [|m rest]] eqn:Hsplit; [done..|].
  cbn [lookup list_lookup] in Hparse.
  destruct (JS.truthy p && JS.truthy m) eqn:Ht; [|done]. simplify_eq.
  assert (Hne : JS.truthy modelRef = true).
  { destruct modelRef; [|done]. by simplify_eq/=. }
  rewrite Hne. cbn. by rewrite Hprov, Hmodel.
Qed.

End Models.

(** ** The further properties at concrete inputs *)

Ltac elem_of_concrete :=
  repeat first [apply list_elem_of_here | apply list_elem_of_further].

Lemma classify_highest_priority_keyword_witness :
  exists m pre post,
    fst (RuleEngine.classifyTask (RuleEngine.mkEngine (Some defaultRules) ThreeTier [])
           (None : option Memory.t) 0 "Refactor the security code" "tier1") = Some m
    /\ RuleEngine.keywordMatches ThreeTier (JS.toLowerCase "Refactor the security code")
         (RuleEngine.keyword_rules defaultRules) = pre ++ m :: post
    /\ Forall (fun y => priority y < priority m) pre
    /\ Forall (fun y => priority y <= priority m) post.
Proof.
  apply (classify_highest_priority_keyword
           (RuleEngine.mkEngine (Some defaultRules) ThreeTier [])
           (None : option Memory.t) 0 "Refactor the security code" "tier1" defaultRules).
  - reflexivity.
  - vm_compute. reflexivity.
  - vm_compute. discriminate.
Defined.

Lemma recordError_count_witness :
  fst (RuleEngine.getErrorCount
         (RuleEngine.recordError (RuleEngine.mkEngine (Some defaultRules) TwoTier threeErrors)
            10000000) 10000000)
  = S (fst (RuleEngine.getErrorCount
              (RuleEngine.mkEngine (Some defaultRules) TwoTier threeErrors) 10000000)).
Proof.
  destruct (recordError_count (RuleEngine.mkEngine (Some defaultRules) TwoTier threeErrors)
              10000000 defaultRules) as [Hpos _].
  - reflexivity.
  - reflexivity.
  - apply Hpos. vm_compute. reflexivity.
Defined.

Lemma expired_errors_do_not_escalate_witness :
  fst (RuleEngine.getErrorCount
         (RuleEngine.mkEngine (Some defaultRules) ThreeTier threeErrors) 11800000) = O.
Proof.
  destruct (expired_errors_do_not_escalate
              (RuleEngine.mkEngine (Some defaultRules) ThreeTier threeErrors)
              (None : option Memory.t) 11800000 "fix it" "tier1" defaultRules)
    as (Hcount & _).
  - reflexivity.
  - unfold threeErrors. repeat constructor; simpl; lia.
  - simpl. lia.
  - exact Hcount.
Defined.

Lemma record_success_then_recommend_witness :
  exists m',
    Memory.recordTask 2 (fun _ => sampleUUID) "2026-01-05T11:00:00.000Z" designMemory
      "fix the login bug" "tier2" true None = Some m'
    /\ Memory.getRecommendedTier m' "fix the login bug" = Some "tier2".
Proof.
  apply (record_success_then_recommend 0 (fun _ => sampleUUID) "2026-01-05T11:00:00.000Z"
           designMemory "fix the login bug" "tier2" None).
  - simpl. lia.
  - simpl. lia.
  - unfold allTiers. elem_of_concrete.
  - vm_compute. reflexivity.
Defined.

Lemma failed_task_changes_no_recommendation_witness :
  exists m',
    Memory.recordTask 1 (fun _ => sampleUUID) "2026-01-05T11:00:00.000Z" designMemory
      "design the schema" "tier1" false None = Some m'
    /\ currentEntries m'
       = Memory.entries designSession
         ++ [Memory.makeEntry "2026-01-05T11:00:00.000Z" "design the schema" "tier1" false None]
    /\ forall task', Memory.getRecommendedTier m' task'
                     = Memory.getRecommendedTier designMemory task'.
Proof.
  apply (failed_task_changes_no_recommendation 0 (fun _ => sampleUUID)
           "2026-01-05T11:00:00.000Z" designMemory "design the schema" "tier1" None
           O designSession).
  - vm_compute. reflexivity.
  - simpl. lia.
Defined.

Lemma session_summary_consistent_witness :
  exists sm,
    Memory.getSessionSummary tiedMemory = Some sm
    /\ Memory.entry_count sm = 6%nat
    /\ sum_list ((Memory.tier_usage sm).*2) = Memory.entry_count sm
    /\ 0 <= Memory.success_rate sm <= 100.
Proof.
  destruct (Memory.getSessionSummary tiedMemory) as [sm|] eqn:Hsm;
    [|vm_compute in Hsm; discriminate].
  assert (Hcur : currentEntries tiedMemory
                 = [ Memory.mkEntry "t1" "bugfix" "tier2" true None;
                     Memory.mkEntry "t2" "bugfix" "tier1" true None;
                     Memory.mkEntry "t3" "bugfix" "tier3" false None;
                     Memory.mkEntry "t4" "design" "tier3" true None;
                     Memory.mkEntry "t5" "bugfix" "tier1" true None;
                     Memory.mkEntry "t6" "bugfix" "tier2" true None ])
    by (vm_compute; reflexivity).
  destruct (session_summary_consistent tiedMemory sm) as (Hn & _ & Htiers & Hrate & _).
  - rewrite Hcur. unfold plainEntry, categories, allTiers.
    repeat constructor; simpl; elem_of_concrete.
  - exact Hsm.
  - exists sm. rewrite Hn, Hcur. repeat split; [|apply Hrate..].
    rewrite Htiers, Hn, Hcur. reflexivity.
Defined.

Lemma fresh_session_has_no_history_witness :
  Memory.getRecommendedTier
    (snd (Memory.startNewSession otherUUID "2026-01-06T09:00:00.000Z" designMemory))
    "design the schema" = None.
Proof.
  destruct (fresh_session_has_no_history otherUUID "2026-01-06T09:00:00.000Z" designMemory
              "design the schema" None) as (_ & Hrec & _).
  - simpl. lia.
  - repeat constructor. vm_compute. discriminate.
  - exact Hrec.
Defined.

Lemma recording_keeps_alerts_witness :
  CostTracker.is_blocked
    (CostTracker.getStatus "2026-01"
       (fst (CostTracker.record "2026-01-20T10:00:00.000Z" "2026-01" true overBudgetLedger
               opusParams))
       (Server.effectiveBudget (blockedContext TwoTier "primary"))) = true.
Proof.
  destruct (recording_keeps_alerts "2026-01-20T10:00:00.000Z" "2026-01" true
              overBudgetLedger opusParams "2026-01"
              (Server.effectiveBudget (blockedContext TwoTier "primary")))
    as (_ & Hblocked & _).
  - vm_compute. discriminate.
  - apply Hblocked. vm_compute. reflexivity.
Defined.

Lemma recent_patterns_after_recording_witness :
  exists m',
    runOps 1 (OpRecordTask <$> threeCalls)
      (Memory.create 100 10 sampleUUID "2026-01-05T09:00:00.000Z") = Some m'
    /\ Memory.getRecentPatterns (Some 2) m' = ["bugfix"; "creation"].
Proof.
  destruct (recent_patterns_after_recording 100 10 0 threeCalls
              (Memory.create 100 10 sampleUUID "2026-01-05T09:00:00.000Z") (Some 2))
    as (m' & Hrun & Hrecent).
  - assert (Hl : Memory.sessions
                   (Memory.data (Memory.create 100 10 sampleUUID "2026-01-05T09:00:00.000Z"))
                 = [Memory.newSession (JS.uuidString sampleUUID) "2026-01-05T09:00:00.000Z"])
      by (vm_compute; reflexivity).
    unfold withinCapacity. rewrite Hl.
    split; [reflexivity|]. split; [reflexivity|]. split; [simpl; lia|]. split.
    + constructor; [simpl; lia | constructor].
    + exists (O, Memory.newSession (JS.uuidString sampleUUID) "2026-01-05T09:00:00.000Z").
      vm_compute. reflexivity.
  - simpl. lia.
  - simpl. lia.
  - exists m'. split; [exact Hrun|]. rewrite Hrecent. vm_compute. reflexivity.
Defined.

Lemma tier_switch_teaches_general_tasks_witness :
  exists r ctx',
    Server.handleSwitchTier 2 januaryEnv "critical" (Some "manual")
      (blockedContext TwoTier "primary") = Some (r, ctx')
    /\ Server.currentTier (Server.state ctx') = "critical"
    /\ Memory.getRecommendedTier (Server.memoryTracker ctx') "say hello" = Some "critical".
Proof.
  apply (tier_switch_teaches_general_tasks 0 januaryEnv "critical" (Some "manual")
           (blockedContext TwoTier "primary") "say hello").
  - vm_compute. lia.
  - vm_compute. lia.
  - unfold allTiers. simpl. elem_of_concrete.
  - vm_compute. reflexivity.
  - vm_compute. reflexivity.
  - vm_compute. reflexivity.
Defined.

Lemma tool_calls_keep_dispatcher_coherent_witness :
  exists ctx',
    runCalls 2 sampleCalls
      (Server.createContext (Server.config (blockedContext TwoTier "primary")) TwoTier
         (Some defaultRules) false overBudgetLedger
         (Memory.create 100 10 sampleUUID "2026-01-05T09:00:00.000Z")) = Some ctx'
    /\ Server.strategy (Server.state ctx') = RuleEngine.strategy (Server.ruleEngine ctx')
    /\ RuleEngine.isValidTier (Server.strategy (Server.state ctx'))
         (Server.currentTier (Server.state ctx')) = true.
Proof.
  apply (tool_calls_keep_dispatcher_coherent
           (Server.config (blockedContext TwoTier "primary")) TwoTier (Some defaultRules)
           false overBudgetLedger
           (Memory.create 100 10 sampleUUID "2026-01-05T09:00:00.000Z") 0 sampleCalls).
  - intros cfg s [= <-]. apply defaultRules_targetsWithin.
  - vm_compute. lia.
Defined.

Lemma tool_calls_never_record_usage_or_errors_witness :
  exists ctx',
    runCalls 2 sampleCalls
      (Server.createContext (Server.config (blockedContext TwoTier "primary")) TwoTier
         (Some defaultRules) false overBudgetLedger
         (Memory.create 100 10 sampleUUID "2026-01-05T09:00:00.000Z")) = Some ctx'
    /\ Server.costTracker ctx' = overBudgetLedger
    /\ RuleEngine.errorWindow (Server.ruleEngine ctx') = [].
Proof.
  destruct (tool_calls_never_record_usage_or_errors
              (Server.config (blockedContext TwoTier "primary")) TwoTier (Some defaultRules)
              false overBudgetLedger
              (Memory.create 100 10 sampleUUID "2026-01-05T09:00:00.000Z") 0 sampleCalls)
    as (ctx' & Hrun & Hledger & _ & Hwindow & _).
  - vm_compute. lia.
  - exists ctx'. repeat split; assumption.
Defined.

Lemma orchestrate_switch_is_remembered_witness :
  exists d ctx',
    Server.handleOrchestrate 2 januaryEnv architectureArgs unbudgetedContext
    = Some (Server.Routed d Server.SwitchedTo, ctx')
    /\ Server.currentTier (Server.state ctx') = "critical"
    /\ length (currentEntries (Server.memoryTracker ctx')) = 2%nat.
Proof.
  destruct (Server.determineTargetTier januaryEnv architectureArgs unbudgetedContext)
    as [[d eng]|] eqn:Hd; [|vm_compute in Hd; discriminate].
  assert (Ht : Server.targetTier d = "critical")
    by (vm_compute in Hd; by injection Hd as <- _).
  destruct (orchestrate_switch_is_remembered 0 januaryEnv architectureArgs
              unbudgetedContext d eng) as (ctx' & Hrun & Hst & _ & Hentries).
  - vm_compute. lia.
  - reflexivity.
  - exact Hd.
  - rewrite Ht. discriminate.
  - reflexivity.
  - discriminate.
  - exists d, ctx'. split; [exact Hrun|]. split; [by rewrite Hst|].
    rewrite Hentries. reflexivity.
Defined.

Lemma orchestrate_advises_without_switching_witness :
  exists r ctx',
    Server.handleOrchestrate 0 januaryEnv adviceArgs unbudgetedContext = Some (r, ctx')
    /\ Server.state ctx' = Server.state unbudgetedContext
    /\ Server.memoryTracker ctx' = Server.memoryTracker unbudgetedContext.
Proof.
  destruct (orchestrate_advises_without_switching 0 januaryEnv adviceArgs unbudgetedContext)
    as (r & ctx' & Hrun & Hst & Hmem & _).
  - right. reflexivity.
  - exists r, ctx'. repeat split; assumption.
Defined.

Lemma set_budget_alone_never_blocks_witness :
  CostTracker.is_blocked
    (Server.handleGetStatus januaryEnv
       (snd (Server.handleSetBudget januaryEnv (Q2Qc (inject_Z 5)) None unbudgetedContext)))
  = false.
Proof.
  destruct (set_budget_alone_never_blocks januaryEnv januaryEnv (Q2Qc (inject_Z 5)) None
              unbudgetedContext
              (snd (Server.handleSetBudget januaryEnv (Q2Qc (inject_Z 5)) None
                      unbudgetedContext)))
    as (_ & Hblocked & _).
  - reflexivity.
  - reflexivity.
  - exact Hblocked.
Defined.

Lemma getCurrentModel_follows_parseModelRef_witness :
  Server.getCurrentModel defaultProviders unbudgetedContext
  = JS.Ok {| Server.info_provider := "anthropic";
             Server.info_model := Some "sonnet";
             Server.info_modelId := "claude-sonnet-4-20250514" |}.
Proof.
  apply (getCurrentModel_follows_parseModelRef defaultProviders unbudgetedContext
           "anthropic:sonnet" "anthropic" "sonnet" anthropicConfig
           (Provider.mkModelConfig "claude-sonnet-4-20250514"
              (Q2Qc (inject_Z 3)) (Q2Qc (inject_Z 15)) 8192 200000)).
  - vm_compute. reflexivity.
  - vm_compute. reflexivity.
  - vm_compute. reflexivity.
  - vm_compute. reflexivity.
Defined.

(** * The usage ledger in binary64

    The properties of [record] and [getTotalSpend] that speak of sums of
    costs, over [CostTracker64]: a sum is what the additions of the code
    give, one after the other. *)

Section Ledger64.

Lemma floatSum_snoc (l : list float) (x : float) :
  floatSum (l ++ [x]) = (floatSum l + x)%float.
Proof. unfold floatSum. by rewrite fold_left_app. Qed.

Lemma tokenTotal_snoc (cs : list Recording) (c : Recording) :
  tokenTotal (cs ++ [c]) = tokenTotal cs + tokensOf c.
Proof. induction cs as [|a cs IH]; simpl; lia. Qed.

Lemma usageOver_snoc (cs : list Recording) (c : Recording) :
  usageOver (cs ++ [c])
  = Some {| CostTracker64.cost :=
              (match usageOver cs with
               | Some u => CostTracker64.cost u
               | None => 0
               end + costOf c)%float;
            CostTracker64.tokens :=
              match usageOver cs with
              | Some u => CostTracker64.tokens u
              | None => 0
              end + tokensOf c |}.
Proof.
  destruct cs as [|a cs]; [simpl; do 2 f_equal; lia|].
  change (usageOver ((a :: cs) ++ [c]))
    with (Some {| CostTracker64.cost := floatSum (costOf <$> (a :: cs) ++ [c]);
                  CostTracker64.tokens := tokenTotal ((a :: cs) ++ [c]) |}).
  by rewrite fmap_snoc, floatSum_snoc, tokenTotal_snoc.
Qed.

Lemma tokenSum_dictSet (m : list (string * CostTracker64.Usage)) (k : string)
  (v : CostTracker64.Usage) :
  tokenSum (JS.dictSet m k v)
  + match JS.dictGet m k with Some u => CostTracker64.tokens u | None => 0 end
  = tokenSum m + CostTracker64.tokens v.
Proof.
  induction m as [|[k0 v0] m IH]; [simpl; lia|].
  cbn [JS.dictSet JS.dictGet]. destruct (String.eqb k0 k); simpl in *; lia.
Qed.

(** What one update of a breakdown does to its lookups and to its tokens. *)
Lemma dictGet_addUsage (m : list (string * CostTracker64.Usage)) (k : string) (c : float)
  (n : Z) (k' : string) :
  JS.dictGet (CostTracker64.addUsage m k c n) k'
  = if String.eqb k k' && (bool_decide (is_Some (JS.dictGet m k))
                            || negb (JS.inheritedMember k))
    then Some {| CostTracker64.cost :=
                   (match JS.dictGet m k with
                    | Some u => CostTracker64.cost u
                    | None => 0
                    end + c)%float;
                 CostTracker64.tokens :=
                   match JS.dictGet m k with
                   | Some u => CostTracker64.tokens u
                   | None => 0
                   end + n |}
    else JS.dictGet m k'.
Proof.
  unfold CostTracker64.addUsage. destruct (JS.dictGet m k) as [u|] eqn:Hk.
  - rewrite dictGet_dictSet. by destruct (String.eqb k k').
  - destruct (JS.inheritedMember k); simpl.
    + by rewrite andb_false_r.
    + rewrite dictGet_dictSet. by destruct (String.eqb k k').
Qed.

Lemma tokenSum_addUsage (m : list (string * CostTracker64.Usage)) (k : string) (c : float)
  (n : Z) :
  tokenSum (CostTracker64.addUsage m k c n)
  = tokenSum m + (if bool_decide (is_Some (JS.dictGet m k)) || negb (JS.inheritedMember k)
                  then n else 0).
Proof.
  unfold CostTracker64.addUsage.
  pose proof (fun v => tokenSum_dictSet m k v) as Hset.
  destruct (JS.dictGet m k) as [u|] eqn:Hk.
  - specialize (Hset {| CostTracker64.cost := (CostTracker64.cost u + c)%float;
                        CostTracker64.tokens := CostTracker64.tokens u + n |}).
    simpl in *. lia.
  - destruct (JS.inheritedMember k); simpl; [lia|].
    specialize (Hset {| CostTracker64.cost := (0 + c)%float;
                        CostTracker64.tokens := 0 + n |}).
    simpl in *. lia.
Qed.

(** A name that holds a colon or a hyphen names no inherited member and is
    no array index. *)
Lemma hasChar_app (c : ascii) (a b : string) : hasChar c (a +:+ String c b) = true.
Proof.
  induction a as [|x a IH]; simpl; [by rewrite Ascii.eqb_refl|]. rewrite IH.
  apply orb_true_r.
Qed.

Lemma inheritedMember_hasChar (c : ascii) (k : string) :
  Forall (fun name => hasChar c name = false) JS.objectPrototypeKeys ->
  hasChar c k = true -> JS.inheritedMember k = false.
Proof.
  intros Hall Hk. unfold JS.inheritedMember.
  destruct (existsb (String.eqb k) JS.objectPrototypeKeys) eqn:E; [|done].
  apply existsb_exists in E as (name & Hin%list_elem_of_In & ->%String.eqb_eq).
  rewrite Forall_forall in Hall. specialize (Hall _ Hin). congruence.
Qed.

Lemma modelKey_owned (provider model : string) :
  JS.inheritedMember (provider +:+ ":" +:+ model) = false.
Proof.
  apply (inheritedMember_hasChar ":"%char); [repeat constructor|].
  apply (hasChar_app ":"%char).
Qed.

Lemma parseDigits_hyphen (acc : N) (k : string) :
  hasChar "-"%char k = true -> JS.parseDigits acc k = None.
Proof.
  revert acc. induction k as [|c k IH]; intros acc; [done|]. simpl.
  destruct (Ascii.eqb_spec c "-"%char) as [->|Hc]; [done|]. simpl. intros Hk.
  destruct (JS.digitVal c); [by apply IH | done].
Qed.

Lemma getMonthKey_ordinary (date : CostTracker64.Date) :
  ordinaryKey (CostTracker64.getMonthKey date).
Proof.
  assert (Hh : hasChar "-"%char (CostTracker64.getMonthKey date) = true)
    by apply (hasChar_app "-"%char).
  split.
  - unfold JS.isArrayIndex, JS.arrayIndex.
    destruct (CostTracker64.getMonthKey date) as [|c rest]; [done|].
    rewrite (parseDigits_hyphen _ _ Hh). by destruct (_ && _).
  - by apply (inheritedMember_hasChar "-"%char); [repeat constructor|].
Qed.

Lemma recordEach_snoc cs c d :
  recordEach (cs ++ [c]) d =
  fst (CostTracker64.record (rec_iso c) (rec_date c) (rec_saved c) (recordEach cs d)
         (rec_params c)).
Proof. unfold recordEach. by rewrite fold_left_app. Qed.

Lemma filter_snoc {A} (f : A -> bool) (l : list A) (x : A) :
  List.filter f (l ++ [x]) = List.filter f l ++ (if f x then [x] else []).
Proof. by rewrite List.filter_app. Qed.

Lemma filter_period_nil (f : Recording -> bool) (k : string) (cs : list Recording) :
  (forall c, f c = true -> inPeriod k c = true) ->
  List.filter (inPeriod k) cs = [] -> List.filter f cs = [].
Proof.
  intros Hf. induction cs as [|a cs IH]; simpl; [done|].
  destruct (inPeriod k a) eqn:Ea; [done|]. intros Hnil.
  destruct (f a) eqn:Efa; [|by apply IH]. apply Hf in Efa. congruence.
Qed.

Lemma reflects_nil (k : string) (cs : list Recording) :
  List.filter (inPeriod k) cs = [] -> reflects k cs CostTracker64.emptyMonth.
Proof.
  intros Hnil.
  assert (Hsub : forall f : Recording -> bool,
            (forall c, f c = true -> inPeriod k c = true) -> List.filter f cs = [])
    by (intros f Hf; by apply (filter_period_nil f k)).
  assert (Hand : forall (g : Recording -> bool) c, inPeriod k c && g c = true ->
                                                  inPeriod k c = true)
    by (intros g c Hc; by apply andb_true_iff in Hc as [? _]).
  unfold reflects. rewrite Hnil, (Hsub (bookable k)) by apply Hand.
  split_and!; try done.
  - intros t _. by rewrite (Hsub (servedBy k t)) by apply Hand.
  - intros key. by rewrite (Hsub (bookedUnder k key)) by apply Hand.
Qed.

(** One call keeps the reflection of every period. *)
Lemma record_step64 (cs : list Recording) (c : Recording) (d : CostTracker64.UsageData)
  (k : string) :
  match JS.dictGet (CostTracker64.monthly_totals d) k with
  | Some mu => reflects k cs mu
  | None => List.filter (inPeriod k) cs = []
  end ->
  match JS.dictGet
          (CostTracker64.monthly_totals
             (fst (CostTracker64.record (rec_iso c) (rec_date c) (rec_saved c) d
                     (rec_params c)))) k with
  | Some mu => reflects k (cs ++ [c]) mu
  | None => List.filter (inPeriod k) (cs ++ [c]) = []
  end.
Proof.
  intros Hk. cbn [CostTracker64.record fst CostTracker64.monthly_totals].
  rewrite dictGet_dictSet. fold (inPeriod k c).
  destruct (inPeriod k c) eqn:Hin.
  - apply String.eqb_eq in Hin as Hkey. rewrite Hkey.
    set (monthly := default CostTracker64.emptyMonth
                      (JS.dictGet (CostTracker64.monthly_totals d) k)).
    assert (Hmonthly : reflects k cs monthly).
    { subst monthly. destruct (JS.dictGet (CostTracker64.monthly_totals d) k); [done|].
      by apply reflects_nil. }
    destruct Hmonthly as (Htc & Htt & Htier & Hinh & Htsum & Hmodel & Hmsum).
    unfold reflects. cbn [CostTracker64.total_cost CostTracker64.total_tokens
                            CostTracker64.by_tier CostTracker64.by_model].
    rewrite !filter_snoc, Hin. fold (tierOf c) (costOf c) (tokensOf c) (modelKeyOf c).
    split_and!.
    + by rewrite fmap_snoc, floatSum_snoc, Htc.
    + by rewrite tokenTotal_snoc, Htt.
    + intros t Ht. rewrite dictGet_addUsage, filter_snoc. unfold servedBy at 2.
      rewrite Hin. cbn [andb].
      destruct (String.eqb_spec (tierOf c) t) as [Heq|Hne]; cbn [andb].
      * rewrite Heq, Ht. rewrite orb_true_r.
        by rewrite usageOver_snoc, (Htier t Ht).
      * rewrite app_nil_r. by apply Htier.
    + intros t Ht. rewrite dictGet_addUsage.
      destruct (String.eqb_spec (tierOf c) t) as [Heq|Hne]; cbn [andb]; [|by apply Hinh].
      subst t. by rewrite (Hinh _ Ht), Ht.
    + rewrite tokenSum_addUsage, Htsum.
      replace (bookable k c) with (negb (JS.inheritedMember (tierOf c)))
        by (unfold bookable; by rewrite Hin).
      destruct (JS.inheritedMember (tierOf c)) eqn:Einh.
      * rewrite (Hinh _ Einh). cbn. rewrite app_nil_r. lia.
      * rewrite orb_true_r. cbn [negb]. by rewrite tokenTotal_snoc.
    + intros key. rewrite dictGet_addUsage, filter_snoc. unfold bookedUnder at 2.
      rewrite Hin. cbn [andb].
      rewrite (modelKey_owned _ _ : JS.inheritedMember (modelKeyOf c) = false).
      rewrite orb_true_r, andb_true_r.
      destruct (String.eqb_spec (modelKeyOf c) key) as [Heq|Hne].
      * by rewrite Heq, usageOver_snoc, Hmodel.
      * by rewrite app_nil_r.
    + rewrite tokenSum_addUsage, Hmsum.
      rewrite (modelKey_owned _ _ : JS.inheritedMember (modelKeyOf c) = false).
      by rewrite orb_true_r.
  - destruct (JS.dictGet (CostTracker64.monthly_totals d) k) as [mu|].
    + destruct Hk as (Htc & Htt & Htier & Hinh & Htsum & Hmodel & Hmsum).
      assert (Hout : forall f, List.filter (fun c' => inPeriod k c' && f c') (cs ++ [c])
                               = List.filter (fun c' => inPeriod k c' && f c') cs).
      { intros f. by rewrite filter_snoc, Hin, app_nil_r. }
      unfold reflects. rewrite filter_snoc, Hin, app_nil_r.
      split_and!; try done.
      * intros t Ht. unfold servedBy. rewrite Hout. by apply Htier.
      * unfold bookable. rewrite Hout. by apply Htsum.
      * intros key. unfold bookedUnder. rewrite Hout. by apply Hmodel.
    + by rewrite filter_snoc, Hin, app_nil_r.
Qed.

Lemma recordEach_reflects (cs : list Recording) (k : string) :
  match JS.dictGet (CostTracker64.monthly_totals (recordEach cs CostTracker64.empty)) k with
  | Some mu => reflects k cs mu
  | None => List.filter (inPeriod k) cs = []
  end.
Proof.
  induction cs as [|c cs IH] using rev_ind; [done|].
  rewrite recordEach_snoc. by apply record_step64.
Qed.

Lemma recordEach_records (cs : list Recording) (d : CostTracker64.UsageData) :
  CostTracker64.records (recordEach cs d)
  = CostTracker64.records d ++ (recordingOf <$> cs).
Proof.
  induction cs as [|c cs IH] using rev_ind; [by rewrite app_nil_r|].
  rewrite recordEach_snoc. simpl. by rewrite IH, fmap_snoc, app_assoc.
Qed.

(** *** The key of a month names the month

    [getMonthKey] gives two clock readings the same key exactly when they
    fall in the same calendar month. *)

Lemma readZ_showZ (z : Z) : readZ (JS.showZ z) = Some z.
Proof.
  unfold readZ, JS.showZ. rewrite NilZero.isi.
  - simpl. by rewrite DecimalZ.of_to.
  - destruct z as [|p|p]; simpl; try discriminate.
    intros [= H]. by apply Unsigned.to_uint_nonnil in H.
  - destruct z as [|p|p]; simpl; try discriminate.
    intros [= H]. by apply Unsigned.to_uint_nonnil in H.
Qed.

Lemma showZ_inj (x y : Z) : JS.showZ x = JS.showZ y -> x = y.
Proof.
  intros H. pose proof (readZ_showZ x) as Hx. rewrite H, readZ_showZ in Hx. congruence.
Qed.

Lemma readZ_padStart2 (z : Z) : readZ (CostTracker64.padStart2 (JS.showZ z)) = Some z.
Proof.
  pose proof (readZ_showZ z) as Hz. unfold CostTracker64.padStart2.
  destruct (JS.showZ z) as [|a [|b s]]; [done| |done].
  cbn [String.length]. revert Hz.
  by destruct a as [[] [] [] [] [] [] [] []]; vm_compute.
Qed.

Lemma digits_hyphen (d : Decimal.uint) :
  hasChar "-"%char (NilEmpty.string_of_uint d) = false.
Proof. induction d; simpl; done. Qed.

Lemma month_hyphen (n : nat) :
  hasChar "-"%char (CostTracker64.padStart2 (JS.showZ (Z.of_nat n + 1))) = false.
Proof.
  assert (Hs : hasChar "-"%char (JS.showZ (Z.of_nat n + 1)) = false).
  { unfold JS.showZ. destruct (Z.of_nat n + 1) as [|p|p] eqn:E; [done| |lia].
    simpl. unfold NilZero.string_of_uint.
    destruct (Pos.to_uint p) eqn:Ep; try done; apply digits_hyphen. }
  unfold CostTracker64.padStart2.
  destruct (JS.showZ (Z.of_nat n + 1)) as [|a [|b s]]; [done| |done].
  cbn [String.length]. simpl in *. by rewrite Hs.
Qed.

Lemma hyphen_split (s1 s2 m1 m2 : string) :
  hasChar "-"%char m1 = false -> hasChar "-"%char m2 = false ->
  s1 +:+ String "-" m1 = s2 +:+ String "-" m2 -> s1 = s2 /\ m1 = m2.
Proof.
  intros H1 H2. revert s2. induction s1 as [|a s1 IH]; intros [|b s2]; simpl.
  - by intros [= ->].
  - intros [= <- ->]. by rewrite (hasChar_app "-"%char) in H1.
  - intros [= -> <-]. by rewrite (hasChar_app "-"%char) in H2.
  - intros [= -> E]. by apply IH in E as [-> ->].
Qed.

Lemma getMonthKey_sameMonth (p q : CostTracker64.Date) :
  String.eqb (CostTracker64.getMonthKey q) (CostTracker64.getMonthKey p) = sameMonth p q.
Proof.
  unfold sameMonth.
  destruct (String.eqb_spec (CostTracker64.getMonthKey q) (CostTracker64.getMonthKey p))
    as [E|E].
  - unfold CostTracker64.getMonthKey in E.
    apply hyphen_split in E as [Hy Hm]; try apply month_hyphen.
    apply showZ_inj in Hy.
    pose proof (readZ_padStart2 (Z.of_nat (CostTracker64.getMonth q) + 1)) as Hq.
    rewrite Hm, readZ_padStart2 in Hq.
    symmetry. apply andb_true_iff. split; [apply Z.eqb_eq | apply Nat.eqb_eq]; [done|].
    injection Hq. lia.
  - symmetry. apply not_true_is_false. intros [Hy%Z.eqb_eq Hm%Nat.eqb_eq]%andb_true_iff.
    apply E. unfold CostTracker64.getMonthKey. by rewrite Hy, Hm.
Qed.

(** *** The totals of a calendar month *)

Lemma filter_andb {A} (f g : A -> bool) (l : list A) :
  List.filter (fun x => f x && g x) l = List.filter g (List.filter f l).
Proof.
  induction l as [|a l IH]; simpl; [done|].
  destruct (f a); simpl; [destruct (g a)|]; by rewrite ?IH.
Qed.

(** The calls booked under the key of a month are the calls of that month. *)
Lemma period_calls (p : CostTracker64.Date) (cs : list Recording) :
  List.filter (inPeriod (CostTracker64.getMonthKey p)) cs = callsOf p cs.
Proof. apply List.filter_ext. intros c. apply getMonthKey_sameMonth. Qed.

Lemma tier_calls (p : CostTracker64.Date) (t : string) (cs : list Recording) :
  List.filter (servedBy (CostTracker64.getMonthKey p) t) cs = onTier t (callsOf p cs).
Proof. unfold servedBy, onTier. by rewrite filter_andb, period_calls. Qed.

Lemma model_calls (p : CostTracker64.Date) (key : string) (cs : list Recording) :
  List.filter (bookedUnder (CostTracker64.getMonthKey p) key) cs
  = onModel key (callsOf p cs).
Proof. unfold bookedUnder, onModel. by rewrite filter_andb, period_calls. Qed.

Lemma recordEach_present (cs : list Recording) (k : string) :
  is_Some (JS.dictGet (CostTracker64.monthly_totals (recordEach cs CostTracker64.empty)) k) ->
  List.filter (inPeriod k) cs <> [].
Proof.
  induction cs as [|c cs IH] using rev_ind; [by intros [? [=]]|].
  rewrite recordEach_snoc, filter_snoc.
  cbn [CostTracker64.record fst CostTracker64.monthly_totals].
  rewrite dictGet_dictSet. fold (inPeriod k c).
  destruct (inPeriod k c); [intros _; by destruct (List.filter _ cs)|].
  intros H%IH. by rewrite app_nil_r.
Qed.

(** The totals of a calendar month, whatever the tiers of the calls. *)
Lemma month_totals (cs : list Recording) (p : CostTracker64.Date) :
  (callsOf p cs = [] ->
   JS.dictGet (CostTracker64.monthly_totals (recordEach cs CostTracker64.empty))
     (CostTracker64.getMonthKey p) = None)
  /\ (callsOf p cs <> [] ->
      exists mu,
        JS.dictGet (CostTracker64.monthly_totals (recordEach cs CostTracker64.empty))
          (CostTracker64.getMonthKey p) = Some mu
        /\ reflects (CostTracker64.getMonthKey p) cs mu).
Proof.
  pose proof (recordEach_reflects cs (CostTracker64.getMonthKey p)) as Hr.
  pose proof (recordEach_present cs (CostTracker64.getMonthKey p)) as Hp.
  rewrite period_calls in Hp.
  destruct (JS.dictGet _ _) as [mu|].
  - split; [intros Hnil; by destruct Hp|]. intros _. by exists mu.
  - rewrite period_calls in Hr. by split.
Qed.

(** C6 (amended): starting from the empty ledger, after any sequence of
    [record] calls on tiers that are not named like a member every object
    inherits (none of the five tier labels is), the ledger holds one record
    per call, in call order, and for every calendar month:
    - if no call fell in the month, there are no totals under its key;
    - otherwise there are, and in them [total_cost] is the sum of the costs
      of the month's calls, [total_tokens] the sum of their tokens, the
      entry of each tier holds the sum of the costs and the sum of the
      tokens of the month's calls on that tier (a tier without a call has
      no entry), and the per-tier tokens add up to [total_tokens].
    Each call is counted once, in its own month and under its own tier.
    Every sum of costs is the binary64 sum from 0 in call order; the
    per-tier costs, rounded tier by tier, need not add up to [total_cost]. *)
Theorem record_totals_reflect_records (cs : list Recording) (p : CostTracker64.Date) :
  Forall (fun c => JS.inheritedMember (tierOf c) = false) cs ->
  CostTracker64.records (recordEach cs CostTracker64.empty) = recordingOf <$> cs
  /\ (callsOf p cs = [] ->
      JS.dictGet (CostTracker64.monthly_totals (recordEach cs CostTracker64.empty))
        (CostTracker64.getMonthKey p) = None)
  /\ (callsOf p cs <> [] ->
      exists mu,
        JS.dictGet (CostTracker64.monthly_totals (recordEach cs CostTracker64.empty))
          (CostTracker64.getMonthKey p) = Some mu
        /\ CostTracker64.total_cost mu = floatSum (costOf <$> callsOf p cs)
        /\ CostTracker64.total_tokens mu = tokenTotal (callsOf p cs)
        /\ (forall t, JS.dictGet (CostTracker64.by_tier mu) t
                      = usageOver (onTier t (callsOf p cs)))
        /\ tokenSum (CostTracker64.by_tier mu) = CostTracker64.total_tokens mu).
Proof.
  intros Hown. split; [apply recordEach_records|].
  destruct (month_totals cs p) as [Hnone Hsome]. split; [done|].
  intros Hcalls. destruct (Hsome Hcalls) as (mu & Hmu & Htc & Htt & Htier & Hinh & Hsum & _).
  exists mu. rewrite period_calls in Htc, Htt. split_and!; try done.
  - intros t. rewrite <- tier_calls.
    destruct (JS.inheritedMember t) eqn:Et; [|by apply Htier].
    rewrite (Hinh t Et). symmetry.
    replace (List.filter (servedBy (CostTracker64.getMonthKey p) t) cs) with (@nil Recording);
      [done|].
    symmetry. clear -Hown Et. induction Hown as [|c cs Hc _ IH]; [done|]. simpl.
    unfold servedBy at 1.
    destruct (String.eqb_spec (tierOf c) t) as [E|_]; [congruence|].
    by rewrite andb_false_r.
  - rewrite Hsum, Htt, <- period_calls. f_equal. apply List.filter_ext_in.
    intros c Hc%list_elem_of_In. rewrite Forall_forall in Hown.
    unfold bookable. by rewrite (Hown c Hc), andb_true_r.
Qed.

Lemma record_totals_reflect_records_witness :
  Forall (fun c => JS.inheritedMember (tierOf c) = false) threeSpends
  /\ exists mu,
       JS.dictGet
         (CostTracker64.monthly_totals (recordEach threeSpends CostTracker64.empty))
         "2026-01" = Some mu
       /\ CostTracker64.total_cost mu = floatSum [0.1; 0.2; 0.3]%float
       /\ JS.dictGet (CostTracker64.by_tier mu) "tier2"
          = Some {| CostTracker64.cost := floatSum [0.2; 0.3]%float;
                    CostTracker64.tokens := 3000 |}
       /\ tokenSum (CostTracker64.by_tier mu) = CostTracker64.total_tokens mu.
Proof.
  assert (Hown : Forall (fun c => JS.inheritedMember (tierOf c) = false) threeSpends)
    by (repeat constructor).
  split; [exact Hown|].
  destruct (record_totals_reflect_records threeSpends january Hown) as (_ & _ & Hsome).
  destruct Hsome as (mu & Hmu & Htc & _ & Htier & Hsum); [discriminate|].
  exists mu. split; [exact Hmu|]. split; [exact Htc|]. split; [|exact Hsum].
  exact (Htier "tier2").
Defined.

(** C6 (counterexample): three calls in January 2026 cost 0.1 USD on tier1,
    then 0.2 USD and 0.3 USD on tier2.  [total_cost] is
    (0.1 + 0.2) + 0.3 = 0.6000000000000001, the per-tier costs are 0.1 and
    0.2 + 0.3 = 0.5, and their sum is 0.6: the sum of the per-tier costs is
    not [total_cost]. *)
Lemma record_tier_costs_miss_total :
  exists mu,
    JS.dictGet (CostTracker64.monthly_totals (recordEach threeSpends CostTracker64.empty))
      "2026-01" = Some mu
    /\ CostTracker64.total_cost mu = 0.6000000000000001%float
    /\ JS.dictGet (CostTracker64.by_tier mu) "tier1"
       = Some {| CostTracker64.cost := 0.1%float; CostTracker64.tokens := 1500 |}
    /\ JS.dictGet (CostTracker64.by_tier mu) "tier2"
       = Some {| CostTracker64.cost := 0.5%float; CostTracker64.tokens := 3000 |}
    /\ costSum (CostTracker64.by_tier mu) = 0.6%float
    /\ costSum (CostTracker64.by_tier mu) <> CostTracker64.total_cost mu.
Proof.
  eexists. split; [by vm_compute|].
  split; [by vm_compute|]. split; [by vm_compute|]. split; [by vm_compute|].
  split; [by vm_compute|].
  intros H%(f_equal (fun x => PrimFloat.eqb x 0.6%float)). by vm_compute in H.
Qed.

(** A call of 1500 tokens on a tier named "constructor" is counted in the
    totals of its month while [by_tier] stays empty: the read
    [by_tier["constructor"]] finds the inherited member, so no entry is
    made. *)
Example record_inherited_tier_is_not_booked :
  exists mu,
    JS.dictGet
      (CostTracker64.monthly_totals (recordEach inheritedSpend CostTracker64.empty))
      "2026-01" = Some mu
    /\ CostTracker64.total_cost mu = 0.1%float
    /\ CostTracker64.total_tokens mu = 1500
    /\ CostTracker64.by_tier mu = []
    /\ JS.dictGet (CostTracker64.by_model mu) "anthropic:sonnet"
       = Some {| CostTracker64.cost := 0.1%float; CostTracker64.tokens := 1500 |}.
Proof. eexists. split; [by vm_compute|]. split_and!; by vm_compute. Qed.

(** X14: starting from the empty ledger, the per-model breakdown of every
    calendar month is booked under the key provider:model.  The ledger has
    totals under the key of a month exactly when a call fell in the month;
    in them the entry of each model key holds the sum of the costs (the
    binary64 sum from 0 in call order) and the sum of the tokens of the
    month's calls booked under that key, a key without a call has no entry,
    and the per-model tokens add up to the tokens of the month's calls. *)
Theorem by_model_reflects_records (cs : list Recording) (p : CostTracker64.Date) :
  match JS.dictGet (CostTracker64.monthly_totals (recordEach cs CostTracker64.empty))
          (CostTracker64.getMonthKey p) with
  | Some mu =>
      callsOf p cs <> []
      /\ (forall key, JS.dictGet (CostTracker64.by_model mu) key
                      = usageOver (onModel key (callsOf p cs)))
      /\ tokenSum (CostTracker64.by_model mu) = tokenTotal (callsOf p cs)
  | None => callsOf p cs = []
  end.
Proof.
  pose proof (recordEach_reflects cs (CostTracker64.getMonthKey p)) as Hr.
  pose proof (recordEach_present cs (CostTracker64.getMonthKey p)) as Hp.
  rewrite period_calls in Hp.
  destruct (JS.dictGet _ _) as [mu|]; [|by rewrite period_calls in Hr].
  destruct Hr as (_ & Htt & _ & _ & _ & Hmodel & Hsum).
  split_and!; [by apply Hp | | by rewrite Hsum, Htt, period_calls].
  intros key. by rewrite Hmodel, model_calls.
Qed.

(** *** The total spend *)

Section Keys.
Context {V : Type}.

Lemma dictSet_keys (o : list (string * V)) (k : string) (v : V) :
  (JS.dictSet o k v).*1
  = if existsb (fun k' => String.eqb k' k) (o.*1) then o.*1 else o.*1 ++ [k].
Proof.
  induction o as [|[k0 v0] o IH]; [done|]. cbn [JS.dictSet fmap list_fmap existsb fst].
  destruct (String.eqb k0 k); [done|]. cbn [orb fmap list_fmap fst]. rewrite IH.
  by destruct (existsb _ _).
Qed.

Lemma dictSet_NoDup (o : list (string * V)) (k : string) (v : V) :
  NoDup (o.*1) -> NoDup ((JS.dictSet o k v).*1).
Proof.
  intros Hnd. rewrite dictSet_keys.
  destruct (existsb _ _) eqn:E; [done|].
  apply NoDup_app. split_and!; [done| |apply NoDup_singleton].
  intros x Hx ->%list_elem_of_singleton.
  assert (existsb (fun k' => String.eqb k' k) (o.*1) = true); [|congruence].
  apply existsb_exists. exists k. split; [by apply list_elem_of_In | apply String.eqb_refl].
Qed.

Lemma dictGet_NoDup (o : list (string * V)) (k : string) (v : V) :
  NoDup (o.*1) -> (k, v) ∈ o -> JS.dictGet o k = Some v.
Proof.
  induction o as [|[k0 v0] o IH]; [by intros _ ?%elem_of_nil|].
  cbn [fmap list_fmap fst JS.dictGet]. intros [Hk0 Hnd]%NoDup_cons [[= -> ->]|Hin]%elem_of_cons.
  - by rewrite String.eqb_refl.
  - destruct (String.eqb_spec k0 k) as [->|_]; [|by apply IH].
    destruct Hk0. apply list_elem_of_fmap. by exists (k, v).
Qed.
End Keys.

Lemma fold_left_fmap {A B C} (f : A -> C -> A) (g : B -> C) (l : list B) (a : A) :
  fold_left (fun acc x => f acc (g x)) l a = fold_left f (g <$> l) a.
Proof. revert a. induction l as [|x l IH]; intros a; simpl; [done|]. apply IH. Qed.

Lemma months_snoc (cs : list Recording) (c : Recording) :
  months (cs ++ [c])
  = if existsb (fun p => sameMonth p (rec_date c)) (months cs) then months cs
    else months cs ++ [rec_date c].
Proof. unfold months. by rewrite fold_left_app. Qed.

Lemma recordEach_keys (cs : list Recording) :
  (CostTracker64.monthly_totals (recordEach cs CostTracker64.empty)).*1
  = CostTracker64.getMonthKey <$> months cs.
Proof.
  induction cs as [|c cs IH] using rev_ind; [done|].
  rewrite recordEach_snoc, months_snoc.
  cbn [CostTracker64.record fst CostTracker64.monthly_totals].
  rewrite dictSet_keys, IH.
  replace (existsb (fun k' => String.eqb k' (CostTracker64.getMonthKey (rec_date c)))
             (CostTracker64.getMonthKey <$> months cs))
    with (existsb (fun p => sameMonth p (rec_date c)) (months cs)).
  - destruct (existsb _ _); [done|]. by rewrite fmap_snoc.
  - clear IH. induction (months cs) as [|q l IH]; [done|]. cbn [existsb fmap list_fmap].
    rewrite IH. f_equal.
    rewrite <- (getMonthKey_sameMonth q (rec_date c)).
    apply eq_true_iff_eq. rewrite !String.eqb_eq. split; congruence.
Qed.

Lemma recordEach_NoDup (cs : list Recording) :
  NoDup ((CostTracker64.monthly_totals (recordEach cs CostTracker64.empty)).*1).
Proof.
  induction cs as [|c cs IH] using rev_ind; [apply NoDup_nil_2|].
  rewrite recordEach_snoc. cbn [CostTracker64.record fst CostTracker64.monthly_totals].
  by apply dictSet_NoDup.
Qed.

(** X13: starting from the empty ledger, [getTotalSpend] is the sum of the
    totals of the calendar months, taken in the order in which the months
    were first recorded; the total of a month is the sum of the costs of its
    calls in call order.  Both are binary64 sums from 0, so the result
    depends on how the calls fall into months.  After [clear] it is 0. *)
Theorem total_spend_adds_month_totals (cs : list Recording) :
  CostTracker64.getTotalSpend (recordEach cs CostTracker64.empty)
  = floatSum ((fun p => floatSum (costOf <$> callsOf p cs)) <$> months cs)
  /\ CostTracker64.getTotalSpend CostTracker64.clear = 0%float.
Proof.
  split; [|done]. unfold CostTracker64.getTotalSpend.
  set (mt := CostTracker64.monthly_totals (recordEach cs CostTracker64.empty)).
  assert (Hkeys : mt.*1 = CostTracker64.getMonthKey <$> months cs) by apply recordEach_keys.
  rewrite objectEntries_plain.
  2:{ rewrite Hkeys. apply Forall_fmap, Forall_forall. intros p _.
      apply getMonthKey_ordinary. }
  rewrite (fold_left_fmap PrimFloat.add CostTracker64.total_cost).
  fold (floatSum (CostTracker64.total_cost <$> mt.*2)). f_equal.
  assert (Hall : Forall (fun kv => CostTracker64.total_cost kv.2
                          = floatSum (costOf <$> List.filter (inPeriod kv.1) cs)) mt).
  { apply Forall_forall. intros [k mu] Hin. simpl.
    pose proof (recordEach_reflects cs k) as Hr. fold mt in Hr.
    rewrite (dictGet_NoDup mt k mu (recordEach_NoDup cs) Hin) in Hr. apply Hr. }
  transitivity ((fun k => floatSum (costOf <$> List.filter (inPeriod k) cs)) <$> mt.*1).
  - clear Hkeys. induction Hall as [|[k mu] l Hk _ IH]; [done|].
    cbn [fmap list_fmap snd fst]. simpl in Hk. by rewrite Hk, IH.
  - rewrite Hkeys, <- list_fmap_compose. apply list_fmap_ext. intros _ p _. simpl.
    by rewrite period_calls.
Qed.

(** The same three costs with the first call made in December: the total
    spend is 0.1 + (0.2 + 0.3) = 0.6, while the costs added up in call
    order give 0.6000000000000001. *)
Example total_spend_groups_by_month :
  CostTracker64.getTotalSpend (recordEach spendsOverNewYear CostTracker64.empty) = 0.6%float
  /\ floatSum (costOf <$> spendsOverNewYear) = 0.6000000000000001%float.
Proof. split; by vm_compute. Qed.
End Ledger64.
